(** * products-management: session, token and cache subsystem

    A shallow embedding of the Go services
      - internal/service/cache_service.go   (CacheService)
      - internal/service/user_service.go    (SessionService, UserService)
      - internal/service/product_service.go (ProductService)
      - cmd/api/internal/handler            (AuthMiddleware, ProductHandler)
    Redis and the relational store are explicit state; every Go method
    that talks to them is a state transformer over [World]. *)

From Stdlib Require Import ZArith String Ascii List Bool Lia.
From Stdlib Require Import PrimFloat FloatOps FloatAxioms SpecFloat.
From stdpp Require Import base option gmap strings pretty list fin_maps.
Import ListNotations.

Local Open Scope string_scope.
Local Open Scope Z_scope.

(** Decimal float constants are rounded to the nearest binary64, as the
    Go compiler does. *)
#[local] Set Warnings "-inexact-float".

(** ** package time *)

(** [time.Time] as nanoseconds since the Unix epoch, [time.Duration] as
    a nanosecond count. *)
Definition Time := Z.
Definition Duration := Z.

Module time.
Definition Nanosecond : Duration := 1.
Definition Second : Duration := 1000000000.
Definition Minute : Duration := 60 * Second.
Definition Hour : Duration := 60 * Minute.
Definition Add (t : Time) (d : Duration) : Time := t + d.
Definition After (t u : Time) : bool := u <? t.
Definition Before (t u : Time) : bool := t <? u.
(** the zero [time.Time]: January 1, year 1, 00:00 UTC *)
Definition Zero : Time := -62135596800 * Second.
(** [t.Unix()]: whole seconds since the epoch, rounded down. *)
Definition Unix (t : Time) : Z := t / Second.
(** [time.Unix(sec, 0)] *)
Definition FromUnix (sec : Z) : Time := sec * Second.
End time.

(** ** Go errors

    A Go [error] is its message; [None] is [nil].  A [(T, error)] pair
    is a [result]. *)
Definition error := option string.

Inductive result (A : Type) : Type :=
| Ok (a : A)
| Err (msg : string).
Arguments Ok {A} a.
Arguments Err {A} msg.

Definition errors_New (msg : string) : error := Some msg.
(** [fmt.Errorf(prefix + ": %w", err)] *)
Definition fmt_Errorf (prefix inner : string) : string := prefix ++ ": " ++ inner.

Definition is_Ok {A} (r : result A) : bool :=
  match r with Ok _ => true | Err _ => false end.

(** ** Domain entities *)

Definition UUID := N.

Module Session.
Record t := mk {
  ID : string;
  UserID : string;
  Email : string;
  CreatedAt : Time;
  ExpiresAt : Time;
  IPAddress : string;
  UserAgent : string;
  IsActive : bool;
}.
Definition with_ExpiresAt (e : Time) (s : t) : t :=
  mk (ID s) (UserID s) (Email s) (CreatedAt s) e (IPAddress s) (UserAgent s) (IsActive s).
End Session.

(** Modelled from the spec: the [Product] entity of internal/domain
    (its declaring file is not among the sources); the fields are the
    ones the service, the handler and entity_test.go read and write. *)
Module Product.
Record t := mk {
  ID : UUID;
  Name : string;
  Description : string;
  Price : float;
  Stock : Z;
  UserID : UUID;
  CreatedAt : Time;
  UpdatedAt : Time;
}.
End Product.

(** Modelled from the spec: the [User] entity of internal/domain (its
    declaring file is not among the sources). *)
Module User.
Record t := mk {
  ID : UUID;
  Email : string;
  Password : string;
  Name : string;
  CreatedAt : Time;
  UpdatedAt : Time;
}.
End User.

(** ** The Redis server and the SQL store *)

(** What a key holds.  Values are written as JSON by [CacheService.Set];
    the constructor records which Go value was marshalled. *)
Inductive CacheValue :=
| VSession (s : Session.t)
| VBool (b : bool)
| VString (s : string)
| VProduct (p : Product.t)
| VJSON (raw : string).

Record Entry := mkEntry {
  value : CacheValue;
  (** absolute expiry instant; [None] when the key has no TTL *)
  expireAt : option Time;
}.

Inductive RedisCmd :=
| SET (key : string)
| GET (key : string)
| DEL (keys : list string)
| EXISTS (key : string)
| KEYS (pattern : string).

Record World := mkWorld {
  redis : gmap string Entry;
  products : gmap UUID Product.t;
  users : gmap UUID User.t;
  (** what [time.Now()] returns; one service call runs at one instant,
      the environment moves the clock between calls *)
  clock : Time;
  (** fault oracles: the next command fails iff the head is [true];
      an exhausted oracle means the backend stays reachable *)
  faults : list bool;
  dbfaults : list bool;
  (** every command sent to Redis, oldest first *)
  trace : list RedisCmd;
}.

Definition with_redis (x : gmap string Entry) (w : World) : World :=
  mkWorld x (products w) (users w) (clock w) (faults w) (dbfaults w) (trace w).
Definition with_products (x : gmap UUID Product.t) (w : World) : World :=
  mkWorld (redis w) x (users w) (clock w) (faults w) (dbfaults w) (trace w).
Definition with_clock (x : Time) (w : World) : World :=
  mkWorld (redis w) (products w) (users w) x (faults w) (dbfaults w) (trace w).
Definition with_faults (x : list bool) (w : World) : World :=
  mkWorld (redis w) (products w) (users w) (clock w) x (dbfaults w) (trace w).
Definition with_dbfaults (x : list bool) (w : World) : World :=
  mkWorld (redis w) (products w) (users w) (clock w) (faults w) x (trace w).
Definition with_trace (x : list RedisCmd) (w : World) : World :=
  mkWorld (redis w) (products w) (users w) (clock w) (faults w) (dbfaults w) x.

(** State monad over the world. *)
Definition M (A : Type) : Type := World → A * World.

#[global] Instance M_ret : MRet M := λ A a w, (a, w).
#[global] Instance M_bind : MBind M :=
  λ A B f m w, let '(a, w') := m w in f a w'.

Definition time_Now : M Time := λ w, (clock w, w).

(** A key is visible while its TTL has not run out. *)
Definition live (now : Time) (e : Entry) : bool :=
  match expireAt e with
  | None => true
  | Some t => now <? t
  end.

Definition lookup_live (w : World) (key : string) : option CacheValue :=
  match redis w !! key with
  | Some e => if live (clock w) e then Some (value e) else None
  | None => None
  end.

(** Redis glob patterns; the call sites only use literal text and [*]. *)
Fixpoint glob (p : list ascii) : list ascii → bool :=
  match p with
  | [] => λ s, match s with [] => true | _ => false end
  | c :: p' =>
      if Ascii.eqb c "*"%char then
        fix star (s : list ascii) : bool :=
          glob p' s || match s with [] => false | _ :: s' => star s' end
      else
        λ s, match s with
             | [] => false
             | d :: s' => Ascii.eqb c d && glob p' s'
             end
  end.

Definition matches (pattern key : string) : bool :=
  glob (list_ascii_of_string pattern) (list_ascii_of_string key).

Definition redis_Nil : string := "redis: nil".
Definition redis_Down : string := "dial tcp: connection refused".

(** One round trip: log the command, consult the fault oracle, run. *)
Definition redis_cmd {A} (cmd : RedisCmd)
    (run : World → result A * gmap string Entry) : M (result A) :=
  λ w,
    let w1 := with_trace (trace w ++ [cmd]) w in
    match faults w with
    | true :: fs => (Err redis_Down, with_faults fs w1)
    | _ =>
        let '(r, store) := run w in
        (r, with_redis store (with_faults (tail (faults w)) w1))
    end.

Module Client.
Definition Set_ (key : string) (v : CacheValue) (expiration : Duration) : M (result unit) :=
  redis_cmd (SET key) (λ w,
    let ex := if expiration =? 0 then None else Some (time.Add (clock w) expiration) in
    (Ok (), <[key := mkEntry v ex]> (redis w))).

Definition Get (key : string) : M (result CacheValue) :=
  redis_cmd (GET key) (λ w,
    match lookup_live w key with
    | Some v => (Ok v, redis w)
    | None => (Err redis_Nil, redis w)
    end).

Definition Del (keys : list string) : M (result unit) :=
  redis_cmd (DEL keys) (λ w,
    (Ok (), foldr (λ k m, delete k m) (redis w) keys)).

Definition Exists (key : string) : M (result Z) :=
  redis_cmd (EXISTS key) (λ w,
    (Ok (if lookup_live w key is Some _ then 1 else 0), redis w)).

Definition Keys (pattern : string) : M (result (list string)) :=
  redis_cmd (KEYS pattern) (λ w,
    (Ok (filter (λ k, bool_decide (matches pattern k = true ∧ is_Some (lookup_live w k)))
           (map fst (map_to_list (redis w)))),
     redis w)).
End Client.

(** ** internal/service/cache_service.go *)

Definition unmarshal_Session (v : CacheValue) : result Session.t :=
  match v with
  | VSession s => Ok s
  | _ => Err "json: cannot unmarshal into Go value of type service.Session"
  end.

Definition unmarshal_Product (v : CacheValue) : result Product.t :=
  match v with
  | VProduct p => Ok p
  | _ => Err "json: cannot unmarshal into Go value of type domain.Product"
  end.

Module CacheService.
(** [Set]: the value is marshalled (which cannot fail for the values
    stored here) and written with its expiration. *)
Definition Set_ (key : string) (v : CacheValue) (expiration : Duration) : M error :=
  r ← Client.Set_ key v expiration;
  match r with
  | Ok _ => mret None
  | Err e => mret (Some e)
  end.

(** [Get]: [dest] is filled by [json.Unmarshal]; [unmarshal] is the
    decoder for the static type of [dest]. *)
Definition Get {A} (unmarshal : CacheValue → result A) (key : string) : M (result A) :=
  r ← Client.Get key;
  match r with
  | Err e => mret (Err (fmt_Errorf "failed to get value" e))
  | Ok v => mret (unmarshal v)
  end.

Definition Delete (key : string) : M error :=
  r ← Client.Del [key];
  match r with
  | Ok _ => mret None
  | Err e => mret (Some e)
  end.

Definition DeletePattern (pattern : string) : M error :=
  r ← Client.Keys pattern;
  match r with
  | Err e => mret (Some (fmt_Errorf "failed to get keys" e))
  | Ok keys =>
      if 0 <? Z.of_nat (length keys) then
        d ← Client.Del keys;
        match d with
        | Ok _ => mret None
        | Err e => mret (Some e)
        end
      else mret None
  end.

Definition Exists (key : string) : M (result bool) :=
  r ← Client.Exists key;
  match r with
  | Err e => mret (Err (fmt_Errorf "failed to check key existence" e))
  | Ok n => mret (Ok (0 <? n))
  end.
End CacheService.

(** ** internal/service/user_service.go: SessionService *)

Module SessionService.
(** [sessionID] stands for the fresh [uuid.New().String()]. *)
Definition CreateSession (sessionID : string)
    (userID email ipAddress userAgent : string) (duration : Duration)
  : M (result Session.t) :=
  now ← time_Now;
  let session :=
    Session.mk sessionID userID email now (time.Add now duration)
               ipAddress userAgent true in
  let key := "session:" +:+ sessionID in
  e ← CacheService.Set_ key (VSession session) duration;
  match e with
  | Some err => mret (Err (fmt_Errorf "failed to store session" err))
  | None =>
      let userSessionsKey := "user_sessions:" +:+ userID in
      e ← CacheService.Set_ userSessionsKey (VString sessionID) duration;
      match e with
      | Some err => mret (Err (fmt_Errorf "failed to store user session index" err))
      | None => mret (Ok session)
      end
  end.

Definition DeleteSession (sessionID : string) : M error :=
  let key := "session:" +:+ sessionID in
  r ← CacheService.Get unmarshal_Session key;
  _ ← match r with
      | Ok session =>
          let userSessionsKey := "user_sessions:" +:+ Session.UserID session in
          CacheService.Delete userSessionsKey
      | Err _ => mret None
      end;
  CacheService.Delete key.

Definition GetSession (sessionID : string) : M (result Session.t) :=
  let key := "session:" +:+ sessionID in
  r ← CacheService.Get unmarshal_Session key;
  match r with
  | Err e => mret (Err (fmt_Errorf "session not found" e))
  | Ok session =>
      now ← time_Now;
      if time.After now (Session.ExpiresAt session) then
        _ ← DeleteSession sessionID;
        mret (Err "session expired")
      else mret (Ok session)
  end.

Definition RefreshSession (sessionID : string) (duration : Duration) : M error :=
  r ← GetSession sessionID;
  match r with
  | Err e => mret (Some e)
  | Ok session =>
      now ← time_Now;
      let session := Session.with_ExpiresAt (time.Add now duration) session in
      let key := "session:" +:+ sessionID in
      CacheService.Set_ key (VSession session) duration
  end.

Definition IsSessionValid (sessionID : string) : M (result bool) :=
  r ← GetSession sessionID;
  match r with
  | Err _ => mret (Ok false)
  | Ok session =>
      now ← time_Now;
      mret (Ok (Session.IsActive session && time.Before now (Session.ExpiresAt session)))
  end.

(** The test shared by the two enumeration loops:
    [session.UserID == userID && session.IsActive &&
     time.Now().Before(session.ExpiresAt)]. *)
Definition activeFor (userID : string) (now : Time) (session : Session.t) : bool :=
  String.eqb (Session.UserID session) userID
  && Session.IsActive session
  && time.Before now (Session.ExpiresAt session).

Fixpoint GetActiveSessionsCount_loop (userID : string) (keys : list string) (count : Z) : M Z :=
  match keys with
  | [] => mret count
  | key :: rest =>
      r ← CacheService.Get unmarshal_Session key;
      match r with
      | Ok session =>
          now ← time_Now;
          if activeFor userID now session
          then GetActiveSessionsCount_loop userID rest (count + 1)
          else GetActiveSessionsCount_loop userID rest count
      | Err _ => GetActiveSessionsCount_loop userID rest count
      end
  end.

Definition GetActiveSessionsCount (userID : string) : M (result Z) :=
  r ← Client.Keys "session:*";
  match r with
  | Err e => mret (Err (fmt_Errorf "failed to get session keys" e))
  | Ok keys =>
      count ← GetActiveSessionsCount_loop userID keys 0;
      mret (Ok count)
  end.

Fixpoint GetUserSessions_loop (userID : string) (keys : list string)
    (sessions : list Session.t) : M (list Session.t) :=
  match keys with
  | [] => mret sessions
  | key :: rest =>
      r ← CacheService.Get unmarshal_Session key;
      match r with
      | Ok session =>
          now ← time_Now;
          if activeFor userID now session
          then GetUserSessions_loop userID rest (sessions ++ [session])
          else GetUserSessions_loop userID rest sessions
      | Err _ => GetUserSessions_loop userID rest sessions
      end
  end.

Definition GetUserSessions (userID : string) : M (result (list Session.t)) :=
  r ← Client.Keys "session:*";
  match r with
  | Err e => mret (Err (fmt_Errorf "failed to get session keys" e))
  | Ok keys =>
      sessions ← GetUserSessions_loop userID keys [];
      mret (Ok sessions)
  end.

Fixpoint DeleteUserSessions_loop (userID : string) (keys : list string) : M unit :=
  match keys with
  | [] => mret ()
  | key :: rest =>
      r ← CacheService.Get unmarshal_Session key;
      _ ← match r with
          | Ok session =>
              if String.eqb (Session.UserID session) userID
              then CacheService.Delete key
              else mret None
          | Err _ => mret None
          end;
      DeleteUserSessions_loop userID rest
  end.

Definition DeleteUserSessions (userID : string) : M error :=
  r ← Client.Keys "session:*";
  match r with
  | Err e => mret (Some (fmt_Errorf "failed to get session keys" e))
  | Ok keys =>
      _ ← DeleteUserSessions_loop userID keys;
      CacheService.Delete ("user_sessions:" +:+ userID)
  end.
End SessionService.

(** ** crypto/sha256 and encoding/hex

    Strings are byte sequences, as in Go; a 32-bit word is a [Z] kept in
    range by [w32]. *)

Module sha256.
Definition w32 (x : Z) : Z := x mod 2 ^ 32.
Definition rotr (n x : Z) : Z := Z.lor (Z.shiftr x n) (w32 (Z.shiftl x (32 - n))).
Definition Ch (x y z : Z) : Z :=
  Z.lxor (Z.land x y) (Z.land (Z.lxor x 0xffffffff) z).
Definition Maj (x y z : Z) : Z :=
  Z.lxor (Z.lxor (Z.land x y) (Z.land x z)) (Z.land y z).
Definition bsig0 (x : Z) : Z := Z.lxor (Z.lxor (rotr 2 x) (rotr 13 x)) (rotr 22 x).
Definition bsig1 (x : Z) : Z := Z.lxor (Z.lxor (rotr 6 x) (rotr 11 x)) (rotr 25 x).
Definition ssig0 (x : Z) : Z := Z.lxor (Z.lxor (rotr 7 x) (rotr 18 x)) (Z.shiftr x 3).
Definition ssig1 (x : Z) : Z := Z.lxor (Z.lxor (rotr 17 x) (rotr 19 x)) (Z.shiftr x 10).

(** Big-endian words from a string of hex digits, eight per word. *)
Definition nibble (c : ascii) : Z :=
  let n := Z.of_N (N_of_ascii c) in
  if n <? 58 then n - 48 else n - 87.

Fixpoint hexwords (n : nat) (s : string) : list Z :=
  match n with
  | O => []
  | S n' =>
      fold_left (λ acc c, acc * 16 + nibble c)
        (list_ascii_of_string (String.substring 0 8 s)) 0
      :: hexwords n' (String.substring 8 (String.length s - 8) s)
  end.

(** round constants: fractional parts of the cube roots of the first
    64 primes *)
Definition K : list Z :=
  hexwords 64
    ("428a2f9871374491b5c0fbcfe9b5dba53956c25b59f111f1923f82a4ab1c5ed5" +:+
     "d807aa9812835b01243185be550c7dc372be5d7480deb1fe9bdc06a7c19bf174" +:+
     "e49b69c1efbe47860fc19dc6240ca1cc2de92c6f4a7484aa5cb0a9dc76f988da" +:+
     "983e5152a831c66db00327c8bf597fc7c6e00bf3d5a7914706ca635114292967" +:+
     "27b70a852e1b21384d2c6dfc53380d13650a7354766a0abb81c2c92e92722c85" +:+
     "a2bfe8a1a81a664bc24b8b70c76c51a3d192e819d6990624f40e3585106aa070" +:+
     "19a4c1161e376c082748774c34b0bcb5391c0cb34ed8aa4a5b9cca4f682e6ff3" +:+
     "748f82ee78a5636f84c878148cc7020890befffaa4506cebbef9a3f7c67178f2").

(** initial hash value: fractional parts of the square roots of the
    first 8 primes *)
Definition init : list Z :=
  hexwords 8 "6a09e667bb67ae853c6ef372a54ff53a510e527f9b05688c1f83d9ab5be0cd19".

Definition bytes_of (s : string) : list Z :=
  map (λ c, Z.of_N (N_of_ascii c)) (list_ascii_of_string s).

(** big-endian bytes of [x], [n] of them *)
Fixpoint be_bytes (n : nat) (x : Z) : list Z :=
  match n with
  | O => []
  | S n' => be_bytes n' (x / 256) ++ [x mod 256]
  end.

(** the message followed by 0x80, zeros up to 56 mod 64, and the bit
    length as a 64-bit big-endian number *)
Definition pad (msg : list Z) : list Z :=
  let len := Z.of_nat (length msg) in
  let zeros := Z.to_nat ((55 - len) mod 64) in
  msg ++ [0x80] ++ repeat 0 zeros ++ be_bytes 8 (8 * len).

Fixpoint words (n : nat) (bs : list Z) : list Z :=
  match n with
  | O => []
  | S n' =>
      match bs with
      | a :: b :: c :: d :: rest => (((a * 256 + b) * 256 + c) * 256 + d) :: words n' rest
      | _ => []
      end
  end.

Definition nthw (l : list Z) (i : nat) : Z := nth i l 0.

(** message schedule: extend 16 words to 64 *)
Fixpoint schedule (n : nat) (w : list Z) : list Z :=
  match n with
  | O => w
  | S n' =>
      let t := length w in
      schedule n'
        (w ++ [w32 (ssig1 (nthw w (t - 2)) + nthw w (t - 7)
                    + ssig0 (nthw w (t - 15)) + nthw w (t - 16))])
  end.

Definition round (st : list Z) (kw : Z * Z) : list Z :=
  match st with
  | [a; b; c; d; e; f; g; h] =>
      let t1 := w32 (h + bsig1 e + Ch e f g + fst kw + snd kw) in
      let t2 := w32 (bsig0 a + Maj a b c) in
      [w32 (t1 + t2); a; b; c; w32 (d + t1); e; f; g]
  | _ => st
  end.

Definition compress (h : list Z) (block : list Z) : list Z :=
  let w := schedule 48 (words 16 block) in
  let st := fold_left round (combine K w) h in
  map (λ p, w32 (fst p + snd p)) (combine h st).

Fixpoint blocks (n : nat) (bs : list Z) (h : list Z) : list Z :=
  match n with
  | O => h
  | S n' =>
      match bs with
      | [] => h
      | _ => blocks n' (skipn 64 bs) (compress h (firstn 64 bs))
      end
  end.

(** [sha256.Sum256]: the 32 digest bytes *)
Definition Sum256 (data : string) : list Z :=
  let m := pad (bytes_of data) in
  flat_map (be_bytes 4) (blocks (length m) m init).
End sha256.

Module hex.
Definition hextable : string := "0123456789abcdef".
Definition digit (n : Z) : string :=
  match String.get (Z.to_nat n) hextable with
  | Some c => String c EmptyString
  | None => EmptyString
  end.
Definition EncodeToString (src : list Z) : string :=
  String.concat "" (map (λ v, digit (v / 16) +:+ digit (v mod 16)) src).
End hex.

(** ** github.com/google/uuid and github.com/golang-jwt/jwt/v5

    The two libraries are outside the repository.  Textual UUID parsing
    and the JWT wire format (base64url segments, JSON, the MAC itself)
    are taken as interfaces; claim validation follows the library's
    [Validator]. *)

Class UUIDLib := {
  (** [uuid.Parse] *)
  uuid_Parse : string → option UUID;
  (** [UUID.String] *)
  uuid_String : UUID → string;
}.

Inductive SigningMethod :=
| SigningMethodHMAC (alg : string)
| SigningMethodRSA (alg : string)
| SigningMethodRSAPSS (alg : string)
| SigningMethodECDSA (alg : string)
| SigningMethodEd25519
| signingMethodNone.

Definition SigningMethodHS256 : SigningMethod := SigningMethodHMAC "HS256".

(** A decoded JSON value as [interface{}]; numbers are whole (the date
    claims are truncated to seconds by the library). *)
Inductive JSON :=
| JNull
| JBool (b : bool)
| JNumber (n : Z)
| JString (s : string)
| JComposite (raw : string).

(** [jwt.MapClaims] *)
Abbreviation MapClaims := (gmap string JSON).

Module Token.
Record t := mk {
  Raw : string;
  Method : SigningMethod;
  Claims : MapClaims;
  Valid : bool;
}.
End Token.

Class JWTLib := {
  (** [Parser.ParseUnverified]: split the three segments, decode header
      and claims, resolve the header's [alg]; [None] when malformed or
      when the algorithm is not registered. *)
  jwt_ParseUnverified : string → option (SigningMethod * MapClaims);
  (** [Method.Verify(signingString, signature, key)] on the token text *)
  jwt_Verify : SigningMethod → string → string → bool;
  (** [Token.SignedString(key)] *)
  jwt_SignedString : SigningMethod → MapClaims → string → result string;
}.

Module jwt.
(** [MapClaims.parseNumericDate] *)
Definition parseNumericDate (claims : MapClaims) (key : string) : result (option Time) :=
  match claims !! key with
  | None => Ok None
  | Some (JNumber n) => if n =? 0 then Ok None else Ok (Some (time.FromUnix n))
  | Some _ => Err (key +:+ " is invalid")
  end.

(** [Validator.Validate] with the default options: [exp] and [nbf] are
    optional and checked when present. *)
Definition Validate (claims : MapClaims) (now : Time) : error :=
  match parseNumericDate claims "exp" with
  | Err e => Some e
  | Ok exp =>
      if match exp with Some t => negb (time.Before now t) | None => false end
      then Some "token is expired"
      else
        match parseNumericDate claims "nbf" with
        | Err e => Some e
        | Ok nbf =>
            if match nbf with Some t => time.Before now t | None => false end
            then Some "token is not valid yet"
            else None
        end
  end.

(** [jwt.Parse(tokenString, keyFunc)] *)
Definition Parse `{JWTLib} (tokenString : string)
    (keyFunc : Token.t → result string) : M (result Token.t) :=
  match jwt_ParseUnverified tokenString with
  | None => mret (Err "token is malformed")
  | Some (method, claims) =>
      let token := Token.mk tokenString method claims false in
      match keyFunc token with
      | Err e => mret (Err (fmt_Errorf "token is unverifiable" e))
      | Ok key =>
          if jwt_Verify method tokenString key then
            now ← time_Now;
            match Validate claims now with
            | Some e => mret (Err e)
            | None => mret (Ok (Token.mk tokenString method claims true))
            end
          else mret (Err "token signature is invalid")
      end
  end.
End jwt.

(** The key function both callers pass to [jwt.Parse]:
    the method must be of the HMAC family, else
    [unexpected signing method]. *)
Definition keyFunc (jwtSecret : string) (token : Token.t) : result string :=
  match Token.Method token with
  | SigningMethodHMAC _ => Ok jwtSecret
  | _ => Err "unexpected signing method"
  end.

(** [claims[key].(string)] *)
Definition claim_string (claims : MapClaims) (key : string) : option string :=
  match claims !! key with
  | Some (JString s) => Some s
  | _ => None
  end.

(** ** The SQL store behind the repositories *)

Definition db_Down : string := "failed to connect to database".

Definition db_cmd {A} (run : World → result A * World) : M (result A) :=
  λ w,
    match dbfaults w with
    | true :: fs => (Err db_Down, with_dbfaults fs w)
    | _ => let '(r, w') := run w in (r, with_dbfaults (tail (dbfaults w)) w')
    end.

Module UserRepository.
Definition GetByID (id : UUID) : M (result User.t) :=
  db_cmd (λ w,
    match users w !! id with
    | Some u => (Ok u, w)
    | None => (Err "entity not found", w)
    end).
End UserRepository.

Module ProductRepository.
Definition GetByID (id : UUID) : M (result Product.t) :=
  db_cmd (λ w,
    match products w !! id with
    | Some p => (Ok p, w)
    | None => (Err "product not found", w)
    end).

(** [db.Save(entity)]: write every column of the row with this key *)
Definition Update (entity : Product.t) : M error :=
  r ← db_cmd (λ w, (Ok (), with_products (<[Product.ID entity := entity]> (products w)) w));
  match r with Ok _ => mret None | Err e => mret (Some e) end.

Definition Delete (id : UUID) : M error :=
  r ← db_cmd (λ w, (Ok (), with_products (delete id (products w)) w));
  match r with Ok _ => mret None | Err e => mret (Some e) end.
End ProductRepository.

(** ** internal/service/user_service.go: UserService *)

Module domain.
Record UserSessionsResponse := {
  ActiveSessions : list Session.t;
  TotalSessions : Z;
}.
Record RefreshTokenResponse := {
  AccessToken : string;
  RefreshToken : string;
  ExpiresIn : Z;
}.
Record ErrorResponse := {
  Error : string;
  Message : string;
}.
End domain.

Module UserService.
Section UserService.
Context `{UUIDLib} `{JWTLib}.
Variable jwtSecret : string.

Definition hashToken (token : string) : string :=
  let hash := sha256.Sum256 token in
  hex.EncodeToString hash.

Definition IsTokenBlacklisted (token : string) : M (result bool) :=
  let tokenHash := hashToken token in
  let blacklistKey := "blacklist:" +:+ tokenHash in
  r ← CacheService.Exists blacklistKey;
  match r with
  | Err e => mret (Err (fmt_Errorf "failed to check token blacklist" e))
  | Ok exists_ => mret (Ok exists_)
  end.

Definition IsUserSessionBlacklisted (userID : UUID) (sessionID : string) : M (result bool) :=
  let userBlacklistKey := "user_blacklist:" +:+ uuid_String userID +:+ ":" +:+ sessionID in
  r ← CacheService.Exists userBlacklistKey;
  match r with
  | Err e => mret (Err (fmt_Errorf "failed to check user session blacklist" e))
  | Ok exists_ => mret (Ok exists_)
  end.

Definition BlacklistToken (token : string) : M error :=
  let tokenHash := hashToken token in
  let blacklistKey := "blacklist:" +:+ tokenHash in
  CacheService.Set_ blacklistKey (VBool true) (24 * time.Hour).

Fixpoint BlacklistAllUserSessions_loop (userID : UUID) (sessions : list Session.t) : M error :=
  match sessions with
  | [] => mret None
  | session :: rest =>
      let userBlacklistKey :=
        "user_blacklist:" +:+ uuid_String userID +:+ ":" +:+ Session.ID session in
      e ← CacheService.Set_ userBlacklistKey (VBool true) (24 * time.Hour);
      match e with
      | Some err =>
          mret (Some (fmt_Errorf ("failed to blacklist session " +:+ Session.ID session) err))
      | None => BlacklistAllUserSessions_loop userID rest
      end
  end.

Definition BlacklistAllUserSessions (userID : UUID) : M error :=
  r ← SessionService.GetUserSessions (uuid_String userID);
  match r with
  | Err e => mret (Some (fmt_Errorf "failed to get user sessions" e))
  | Ok sessions => BlacklistAllUserSessions_loop userID sessions
  end.

Definition Logout (sessionID : string) : M error :=
  SessionService.DeleteSession sessionID.

Definition LogoutAll (userID : UUID) : M error :=
  e ← BlacklistAllUserSessions userID;
  match e with
  | Some err => mret (Some (fmt_Errorf "failed to blacklist user sessions" err))
  | None => SessionService.DeleteUserSessions (uuid_String userID)
  end.

Definition ValidateSession (sessionID : string) : M (result bool) :=
  SessionService.IsSessionValid sessionID.

Definition GetUserSessions (userID : UUID) : M (result domain.UserSessionsResponse) :=
  r ← SessionService.GetActiveSessionsCount (uuid_String userID);
  match r with
  | Err e => mret (Err e)
  | Ok count =>
      mret (Ok {| domain.ActiveSessions := []; domain.TotalSessions := count |})
  end.

Definition accessClaims (user : User.t) (sessionID : string) (now : Time) : MapClaims :=
  <["user_id" := JString (uuid_String (User.ID user))]>
  (<["email" := JString (User.Email user)]>
  (<["session_id" := JString sessionID]>
  (<["exp" := JNumber (time.Unix (time.Add now time.Hour))]>
  (<["type" := JString "access"]> ∅)))).

Definition generateAccessToken (user : User.t) (sessionID : string) : M (result string) :=
  now ← time_Now;
  mret (jwt_SignedString SigningMethodHS256 (accessClaims user sessionID now) jwtSecret).

Definition refreshClaims (user : User.t) (sessionID : string) (now : Time) : MapClaims :=
  <["user_id" := JString (uuid_String (User.ID user))]>
  (<["email" := JString (User.Email user)]>
  (<["session_id" := JString sessionID]>
  (<["exp" := JNumber (time.Unix (time.Add now (7 * 24 * time.Hour)))]>
  (<["type" := JString "refresh"]> ∅)))).

Definition generateRefreshToken (user : User.t) (sessionID : string) : M (result string) :=
  now ← time_Now;
  mret (jwt_SignedString SigningMethodHS256 (refreshClaims user sessionID now) jwtSecret).

Definition RefreshToken (refreshToken : string) : M (result domain.RefreshTokenResponse) :=
  t ← jwt.Parse refreshToken (keyFunc jwtSecret);
  match t with
  | Err _ => mret (Err "invalid refresh token")
  | Ok token =>
  if negb (Token.Valid token) then mret (Err "invalid refresh token") else
  let claims := Token.Claims token in
  match claim_string claims "user_id" with
  | None => mret (Err "invalid user ID in token")
  | Some userIDStr =>
  match claim_string claims "session_id" with
  | None => mret (Err "invalid session ID in token")
  | Some sessionID =>
  v ← SessionService.IsSessionValid sessionID;
  match v with
  | Err _ | Ok false => mret (Err "session expired or invalid")
  | Ok true =>
  match uuid_Parse userIDStr with
  | None => mret (Err "invalid user ID format")
  | Some userID =>
  u ← UserRepository.GetByID userID;
  match u with
  | Err _ => mret (Err "user not found")
  | Ok user =>
  a ← generateAccessToken user sessionID;
  match a with
  | Err e => mret (Err e)
  | Ok accessToken =>
  n ← generateRefreshToken user sessionID;
  match n with
  | Err e => mret (Err e)
  | Ok newRefreshToken =>
  e ← SessionService.RefreshSession sessionID (24 * time.Hour);
  match e with
  | Some err => mret (Err (fmt_Errorf "failed to refresh session" err))
  | None =>
      mret (Ok {| domain.AccessToken := accessToken;
                  domain.RefreshToken := newRefreshToken;
                  domain.ExpiresIn := 3600 |})
  end end end end end end end end end.
End UserService.
End UserService.

(** ** internal/service/product_service.go *)

Definition uuid_eqb (a b : UUID) : bool := N.eqb a b.

Module ProductService.
Section ProductService.
Context `{UUIDLib}.

Definition invalidateUserCache (userID : UUID) : M unit :=
  _ ← CacheService.Delete ("user_products:" +:+ uuid_String userID);
  _ ← CacheService.Delete ("user_stats:" +:+ uuid_String userID);
  let pattern := "user_products_filtered:" +:+ uuid_String userID +:+ ":*" in
  _ ← CacheService.DeletePattern pattern;
  let pattern := "user_products_cursor:" +:+ uuid_String userID +:+ ":*" in
  _ ← CacheService.DeletePattern pattern;
  mret ().

Definition GetByID (id userID : UUID) : M (result Product.t) :=
  let cacheKey := "product:" +:+ uuid_String userID +:+ ":" +:+ uuid_String id in
  c ← CacheService.Get unmarshal_Product cacheKey;
  match c with
  | Ok cachedProduct => mret (Ok cachedProduct)
  | Err _ =>
      r ← ProductRepository.GetByID id;
      match r with
      | Err e => mret (Err e)
      | Ok product =>
          if negb (uuid_eqb (Product.UserID product) userID) then
            mret (Err "unauthorized access to product")
          else
            _ ← CacheService.Set_ cacheKey (VProduct product) (30 * time.Minute);
            mret (Ok product)
      end
  end.

Definition Update (product : Product.t) (userID : UUID) : M error :=
  r ← ProductRepository.GetByID (Product.ID product);
  match r with
  | Err e => mret (Some e)
  | Ok existingProduct =>
      if negb (uuid_eqb (Product.UserID existingProduct) userID) then
        mret (Some "unauthorized access to product")
      else
        let name :=
          if negb (String.eqb (Product.Name product) "")
          then Product.Name product else Product.Name existingProduct in
        let description :=
          if negb (String.eqb (Product.Description product) "")
          then Product.Description product else Product.Description existingProduct in
        let price :=
          if (0 <? Product.Price product)%float
          then Product.Price product else Product.Price existingProduct in
        let stock :=
          if Product.Stock product >=? 0
          then Product.Stock product else Product.Stock existingProduct in
        now ← time_Now;
        let existingProduct :=
          Product.mk (Product.ID existingProduct) name description price stock
            (Product.UserID existingProduct) (Product.CreatedAt existingProduct) now in
        e ← ProductRepository.Update existingProduct;
        match e with
        | Some err => mret (Some err)
        | None =>
            _ ← invalidateUserCache userID;
            mret None
        end
  end.

Definition Delete (id userID : UUID) : M error :=
  r ← ProductRepository.GetByID id;
  match r with
  | Err e => mret (Some e)
  | Ok existingProduct =>
      if negb (uuid_eqb (Product.UserID existingProduct) userID) then
        mret (Some "unauthorized access to product")
      else
        e ← ProductRepository.Delete id;
        match e with
        | Some err => mret (Some err)
        | None =>
            _ ← invalidateUserCache userID;
            mret None
        end
  end.
End ProductService.
End ProductService.

(** ** cmd/api/internal/validation *)

Module validation.
Definition MinPrice : float := 0.01%float.
Definition MaxPrice : float := 999999.99%float.
Definition MinStock : Z := 0.
Definition MaxStock : Z := 999999.

Definition ValidatePrice (price : float) : error :=
  if (price <? MinPrice)%float then Some "price must be greater than 0"
  else if (MaxPrice <? price)%float then Some "price is too high"
  else None.

Definition ValidateStock (stock : Z) : error :=
  if stock <? MinStock then Some "stock cannot be negative"
  else if stock >? MaxStock then Some "stock value is too high"
  else None.
End validation.

(** The string validators rest on [regexp] and on Unicode-aware
    [strings] functions; they are taken as an interface. *)
Class StringValidation := {
  SanitizeInput : string → string;
  ValidateProductName : string → error;
  ValidateDescription : string → error;
  CheckSQLInjection : string → bool;
}.

(** ** cmd/api/internal/handler *)

Module http.
Definition StatusOK : Z := 200.
Definition StatusCreated : Z := 201.
Definition StatusBadRequest : Z := 400.
Definition StatusUnauthorized : Z := 401.
Definition StatusNotFound : Z := 404.
Definition StatusInternalServerError : Z := 500.
End http.

Module strings.
Definition HasPrefix (s prefix : string) : bool := String.prefix prefix s.
Definition TrimPrefix (s prefix : string) : string :=
  if HasPrefix s prefix
  then String.substring (String.length prefix) (String.length s - String.length prefix) s
  else s.
End strings.

(** Values stored under [gin.Context] keys. *)
Inductive CtxValue :=
| CtxUUID (u : UUID)
| CtxString (s : string).

(** What the middleware does to the request: [c.JSON] followed by
    [c.Abort], or [c.Set]s followed by [c.Next]. *)
Inductive Outcome :=
| Abort (status : Z) (body : domain.ErrorResponse)
| Next (keys : gmap string CtxValue).

Definition unauthorized (message : string) : Outcome :=
  Abort http.StatusUnauthorized
    {| domain.Error := "Unauthorized"; domain.Message := message |}.

Section AuthMiddleware.
Context `{UUIDLib} `{JWTLib}.

(** [token.Claims] always has dynamic type [jwt.MapClaims] after
    [jwt.Parse], so the "Invalid token claims" response is never sent. *)
Definition AuthMiddleware (jwtSecret : string) (authHeader : string) : M Outcome :=
  if String.eqb authHeader "" then
    mret (unauthorized "Authorization header is required")
  else if negb (strings.HasPrefix authHeader "Bearer ") then
    mret (unauthorized "Invalid authorization header format")
  else
  let tokenString := strings.TrimPrefix authHeader "Bearer " in
  t ← jwt.Parse tokenString (keyFunc jwtSecret);
  match t with
  | Err _ => mret (unauthorized "Invalid or expired token")
  | Ok token =>
  if negb (Token.Valid token) then mret (unauthorized "Invalid or expired token") else
  let claims := Token.Claims token in
  match claim_string claims "user_id" with
  | None => mret (unauthorized "Invalid user ID in token")
  | Some userIDStr =>
  match claim_string claims "session_id" with
  | None => mret (unauthorized "Invalid session ID in token")
  | Some sessionID =>
  match uuid_Parse userIDStr with
  | None => mret (unauthorized "Invalid user ID format")
  | Some userID =>
  v ← UserService.ValidateSession sessionID;
  match v with
  | Err _ | Ok false => mret (unauthorized "Session expired or invalid")
  | Ok true =>
  b ← UserService.IsTokenBlacklisted tokenString;
  match b with
  | Err _ | Ok true => mret (unauthorized "Token has been invalidated")
  | Ok false =>
  ub ← UserService.IsUserSessionBlacklisted userID sessionID;
  match ub with
  | Err _ | Ok true => mret (unauthorized "Session has been invalidated by logout all")
  | Ok false =>
      mret (Next (<["token" := CtxString tokenString]>
                 (<["session_id" := CtxString sessionID]>
                 (<["user_id" := CtxUUID userID]> ∅))))
  end end end end end end end.
End AuthMiddleware.

Inductive Body :=
| BError (e : domain.ErrorResponse)
| BProduct (p : Product.t)
| BUserSessions (r : domain.UserSessionsResponse)
| BMessage (message : string).

Definition Response : Type := Z * Body.

Definition errorJSON (status : Z) (err message : string) : Response :=
  (status, BError {| domain.Error := err; domain.Message := message |}).

Module UserHandler.
Section UserHandler.
Context `{UUIDLib}.

(** [userID] is [c.MustGet("user_id")]. *)
Definition GetUserSessions (userID : UUID) : M Response :=
  r ← UserService.GetUserSessions userID;
  match r with
  | Err _ =>
      mret (errorJSON http.StatusInternalServerError "Internal Server Error"
              "Failed to retrieve user sessions")
  | Ok sessions => mret (http.StatusOK, BUserSessions sessions)
  end.

(** [sessionID] and [token] are [c.MustGet("session_id")] and
    [c.MustGet("token")]. *)
Definition Logout (sessionID token : string) : M Response :=
  if String.eqb sessionID "" || String.eqb token "" then
    mret (errorJSON http.StatusBadRequest "Bad Request" "Session ID or token not found")
  else
    e ← UserService.BlacklistToken token;
    match e with
    | Some _ =>
        mret (errorJSON http.StatusInternalServerError "Logout Failed"
                "Failed to blacklist token")
    | None =>
        e ← UserService.Logout sessionID;
        match e with
        | Some err => mret (errorJSON http.StatusInternalServerError "Logout Failed" err)
        | None => mret (http.StatusOK, BMessage "Logged out successfully")
        end
    end.

Definition LogoutAll (userID : UUID) : M Response :=
  e ← UserService.LogoutAll userID;
  match e with
  | Some err => mret (errorJSON http.StatusInternalServerError "Logout All Failed" err)
  | None => mret (http.StatusOK, BMessage "Logged out from all devices successfully")
  end.
End UserHandler.
End UserHandler.

(** ** cmd/api/internal/router: the protected group

    [protected.Use(AuthMiddleware)]: the middleware runs first and the
    route's handler only after [c.Next]; the response of an aborted
    request is the middleware's. *)
Section Router.
Context `{UUIDLib} `{JWTLib}.

(** [c.MustGet] panics on a missing key; [gin.Default] recovers with an
    empty 500.  After [AuthMiddleware] the three keys are always set. *)
Definition recovered : Response := (http.StatusInternalServerError, BMessage "").

Definition protected (jwtSecret authHeader : string)
    (handler : gmap string CtxValue → M Response) : M Response :=
  o ← AuthMiddleware jwtSecret authHeader;
  match o with
  | Abort status body => mret (status, BError body)
  | Next keys => handler keys
  end.

(** [POST /auth/logout] *)
Definition route_Logout (jwtSecret authHeader : string) : M Response :=
  protected jwtSecret authHeader (λ keys,
    match keys !! "session_id", keys !! "token" with
    | Some (CtxString sessionID), Some (CtxString token) =>
        UserHandler.Logout sessionID token
    | _, _ => mret recovered
    end).

(** [POST /auth/logout-all] *)
Definition route_LogoutAll (jwtSecret authHeader : string) : M Response :=
  protected jwtSecret authHeader (λ keys,
    match keys !! "user_id" with
    | Some (CtxUUID userID) => UserHandler.LogoutAll userID
    | _ => mret recovered
    end).
End Router.

Module UpdateProductRequest.
Record t := mk {
  Name : option string;
  Description : option string;
  Price : option float;
  Stock : option Z;
}.
End UpdateProductRequest.

Module ProductHandler.
Section ProductHandler.
Context `{UUIDLib} `{StringValidation}.

Definition validateUUID (id : string) : result UUID :=
  if String.eqb id "" then Err "ID is required"
  else match uuid_Parse id with
       | None => Err "invalid ID format"
       | Some parsedID => Ok parsedID
       end.

(** [idStr] is [c.Param("id")], [userID] is [c.MustGet("user_id")]. *)
Definition GetByID (idStr : string) (userID : UUID) : M Response :=
  match validateUUID idStr with
  | Err e => mret (errorJSON http.StatusBadRequest "Bad Request" e)
  | Ok id =>
      r ← ProductService.GetByID id userID;
      match r with
      | Err e => mret (errorJSON http.StatusNotFound "Not Found" e)
      | Ok product => mret (http.StatusOK, BProduct product)
      end
  end.

(** The per-field checks of [Update]; the first failure is the response. *)
Definition validateUpdate (req : UpdateProductRequest.t)
  : Response + UpdateProductRequest.t :=
  let name := SanitizeInput <$> UpdateProductRequest.Name req in
  match name ≫= ValidateProductName with
  | Some e => inl (errorJSON http.StatusBadRequest "Validation Error" ("Name: " +:+ e))
  | None =>
  if match name with Some n => CheckSQLInjection n | None => false end then
    inl (errorJSON http.StatusBadRequest "Security Error" "Invalid name input detected")
  else
  let description := SanitizeInput <$> UpdateProductRequest.Description req in
  match description ≫= ValidateDescription with
  | Some e => inl (errorJSON http.StatusBadRequest "Validation Error" ("Description: " +:+ e))
  | None =>
  if match description with Some d => CheckSQLInjection d | None => false end then
    inl (errorJSON http.StatusBadRequest "Security Error" "Invalid description input detected")
  else
  match UpdateProductRequest.Price req ≫= validation.ValidatePrice with
  | Some e => inl (errorJSON http.StatusBadRequest "Validation Error" ("Price: " +:+ e))
  | None =>
  match UpdateProductRequest.Stock req ≫= validation.ValidateStock with
  | Some e => inl (errorJSON http.StatusBadRequest "Validation Error" ("Stock: " +:+ e))
  | None =>
      inr (UpdateProductRequest.mk name description
             (UpdateProductRequest.Price req) (UpdateProductRequest.Stock req))
  end end end end.

(** "Create product with only the fields to update": absent fields keep
    the zero value of their type. *)
Definition productOfRequest (id : UUID) (req : UpdateProductRequest.t) : Product.t :=
  Product.mk id
    (default "" (UpdateProductRequest.Name req))
    (default "" (UpdateProductRequest.Description req))
    (default 0%float (UpdateProductRequest.Price req))
    (default 0 (UpdateProductRequest.Stock req))
    0%N time.Zero time.Zero.

(** [body] is the outcome of [c.ShouldBindJSON(&req)]. *)
Definition Update (idStr : string) (body : result UpdateProductRequest.t)
    (userID : UUID) : M Response :=
  match validateUUID idStr with
  | Err e => mret (errorJSON http.StatusBadRequest "Bad Request" e)
  | Ok id =>
  match body with
  | Err e => mret (errorJSON http.StatusBadRequest "Bad Request" ("Invalid request format: " +:+ e))
  | Ok req =>
  match validateUpdate req with
  | inl response => mret response
  | inr req =>
      let product := productOfRequest id req in
      e ← ProductService.Update product userID;
      match e with
      | Some err => mret (errorJSON http.StatusBadRequest "Update Failed" err)
      | None => mret (http.StatusOK, BMessage "Product updated successfully")
      end
  end end end.

Definition Delete (idStr : string) (userID : UUID) : M Response :=
  match validateUUID idStr with
  | Err e => mret (errorJSON http.StatusBadRequest "Bad Request" e)
  | Ok id =>
      e ← ProductService.Delete id userID;
      match e with
      | Some err => mret (errorJSON http.StatusBadRequest "Deletion Failed" err)
      | None => mret (http.StatusOK, BMessage "Product deleted successfully")
      end
  end.
End ProductHandler.
End ProductHandler.

(** ** Product queries and their cache keys *)

(** A [time.Time] parsed from a request keeps its zone offset, which
    [MarshalJSON] prints. *)
Module ZonedTime.
Record t := mk {
  instant : Time;
  offset : Z;
}.
End ZonedTime.

Module ProductFilter.
Record t := mk {
  Name : option string;
  MinPrice : option float;
  MaxPrice : option float;
  MinStock : option Z;
  MaxStock : option Z;
  CreatedFrom : option ZonedTime.t;
  CreatedTo : option ZonedTime.t;
  UpdatedFrom : option ZonedTime.t;
  UpdatedTo : option ZonedTime.t;
}.
Definition zero : t := mk None None None None None None None None None.
End ProductFilter.

Module SortField.
Record t := mk {
  Field : string;
  Direction : string;
}.
End SortField.

Module Pagination.
Record t := mk {
  Page : Z;
  PageSize : Z;
}.
End Pagination.

Module CursorPagination.
Record t := mk {
  Cursor : option string;
  PageSize : Z;
}.
End CursorPagination.

(** [Sort] is a non-nil slice: both handlers start from an empty slice
    literal and only append to it. *)
Module ProductQuery.
Record t := mk {
  Filter : ProductFilter.t;
  Sort : list SortField.t;
  Pagination : Pagination.t;
}.
End ProductQuery.

Module ProductQueryCursor.
Record t := mk {
  Filter : ProductFilter.t;
  Sort : list SortField.t;
  Pagination : CursorPagination.t;
}.
End ProductQueryCursor.

(** encoding/json and strconv: the leaf encoders and the number and
    date parsers are library code. *)
Class JSONLib := {
  (** a string as a quoted, escaped JSON string *)
  json_string : string → string;
  (** shortest decimal form of a finite float *)
  json_float : float → string;
  (** [Time.MarshalJSON] *)
  json_time : ZonedTime.t → string;
}.

Class StrconvLib := {
  Atoi : string → option Z;
  ParseFloat : string → option float;
  (** [time.Parse(time.RFC3339, s)] *)
  time_Parse_RFC3339 : string → option ZonedTime.t;
}.

Module json.
Section json.
Context `{JSONLib}.

Definition dq : string := String "034"%char EmptyString.
Definition field (name : string) (v : string) : string := dq +:+ name +:+ dq +:+ ":" +:+ v.
Definition object (fields : list string) : string := "{" +:+ String.concat "," fields +:+ "}".
Definition array (items : list string) : string := "[" +:+ String.concat "," items +:+ "]".

(** A nil pointer is written [null]. *)
Definition pointer {A} (enc : A → result string) (p : option A) : result string :=
  match p with
  | None => Ok "null"
  | Some v => enc v
  end.

(** [json.Marshal] refuses NaN and the infinities. *)
Definition float64 (f : float) : result string :=
  if PrimFloat.is_nan f || PrimFloat.is_infinity f
  then Err "json: unsupported value"
  else Ok (json_float f).

Definition int (n : Z) : result string := Ok (pretty n).
Definition str (s : string) : result string := Ok (json_string s).
Definition time_ (t : ZonedTime.t) : result string := Ok (json_time t).

(** Encode the fields in declaration order; the first error wins. *)
Fixpoint fields (fs : list (string * result string)) : result (list string) :=
  match fs with
  | [] => Ok []
  | (name, Err e) :: _ => Err e
  | (name, Ok v) :: rest =>
      match fields rest with
      | Ok l => Ok (field name v :: l)
      | Err e => Err e
      end
  end.

Definition struct (fs : list (string * result string)) : result string :=
  match fields fs with
  | Ok l => Ok (object l)
  | Err e => Err e
  end.

Definition Marshal_ProductFilter (f : ProductFilter.t) : result string :=
  struct
    [ ("name", pointer str (ProductFilter.Name f));
      ("min_price", pointer float64 (ProductFilter.MinPrice f));
      ("max_price", pointer float64 (ProductFilter.MaxPrice f));
      ("min_stock", pointer int (ProductFilter.MinStock f));
      ("max_stock", pointer int (ProductFilter.MaxStock f));
      ("created_from", pointer time_ (ProductFilter.CreatedFrom f));
      ("created_to", pointer time_ (ProductFilter.CreatedTo f));
      ("updated_from", pointer time_ (ProductFilter.UpdatedFrom f));
      ("updated_to", pointer time_ (ProductFilter.UpdatedTo f)) ].

Definition Marshal_SortField (s : SortField.t) : string :=
  object [ field "field" (json_string (SortField.Field s));
           field "direction" (json_string (SortField.Direction s)) ].

Definition Marshal_Sort (l : list SortField.t) : result string :=
  Ok (array (map Marshal_SortField l)).

Definition Marshal_Pagination (p : Pagination.t) : result string :=
  struct [ ("page", int (Pagination.Page p));
           ("page_size", int (Pagination.PageSize p)) ].


Definition Marshal_ProductQuery (q : ProductQuery.t) : result string :=
  struct [ ("filter", Marshal_ProductFilter (ProductQuery.Filter q));
           ("sort", Marshal_Sort (ProductQuery.Sort q));
           ("pagination", Marshal_Pagination (ProductQuery.Pagination q)) ].

End json.
End json.

(** [queryBytes, _ := json.Marshal(query)]: on error the bytes are nil. *)
Definition bytes_or_nil (r : result string) : string :=
  match r with
  | Ok b => b
  | Err _ => ""
  end.

Section QueryCacheKeys.
Context `{UUIDLib} `{JSONLib}.

Definition generateQueryCacheKey (userID : UUID) (query : ProductQuery.t) : string :=
  let queryBytes := bytes_or_nil (json.Marshal_ProductQuery query) in
  "user_products_filtered:" +:+ uuid_String userID +:+ ":" +:+ queryBytes.

End QueryCacheKeys.

(** The URL query of a request, in the order the client wrote it. *)
Definition Params := list (string * string).

Module gin.
(** [c.GetQuery]: the first value given for the key *)
Fixpoint GetQuery (params : Params) (key : string) : option string :=
  match params with
  | [] => None
  | (k, v) :: rest => if String.eqb k key then Some v else GetQuery rest key
  end.
Definition Query (params : Params) (key : string) : string :=
  default "" (GetQuery params key).
Definition DefaultQuery (params : Params) (key defaultValue : string) : string :=
  default defaultValue (GetQuery params key).
End gin.

Section QueryParsing.
Context `{StrconvLib}.

(** [if s := c.Query(key); s != "" { if v, err := parse(s); err == nil { ... } }] *)
Definition queryParam {A} (parse : string → option A) (params : Params) (key : string) : option A :=
  let s := gin.Query params key in
  if String.eqb s "" then None else parse s.

Definition parseSort (params : Params) : list SortField.t :=
  let sortField := gin.Query params "sort_field" in
  if String.eqb sortField "" then []
  else
    let sortDirection := gin.DefaultQuery params "sort_direction" "asc" in
    [] ++ [SortField.mk sortField sortDirection].

Definition parsePageSize (params : Params) : Z :=
  match queryParam Atoi params "page_size" with
  | Some pageSize => if (0 <? pageSize) && (pageSize <=? 100) then pageSize else 20
  | None => 20
  end.

(** The query built by [ProductHandler.GetProductsWithFilters]. *)
Definition GetProductsWithFilters_query (params : Params) : ProductQuery.t :=
  let page :=
    match queryParam Atoi params "page" with
    | Some page => if 0 <? page then page else 1
    | None => 1
    end in
  let filter :=
    ProductFilter.mk
      (queryParam Some params "name")
      (queryParam ParseFloat params "min_price")
      (queryParam ParseFloat params "max_price")
      (queryParam Atoi params "min_stock")
      (queryParam Atoi params "max_stock")
      (queryParam time_Parse_RFC3339 params "created_from")
      (queryParam time_Parse_RFC3339 params "created_to")
      None None in
  ProductQuery.mk filter (parseSort params) (Pagination.mk page (parsePageSize params)).

(** The query built by [ProductHandler.GetProductsWithCursor]. *)
Definition GetProductsWithCursor_query (params : Params) : ProductQueryCursor.t :=
  let filter :=
    ProductFilter.mk
      (queryParam Some params "name")
      (queryParam ParseFloat params "min_price")
      (queryParam ParseFloat params "max_price")
      None None None None None None in
  ProductQueryCursor.mk filter (parseSort params)
    (CursorPagination.mk (queryParam Some params "cursor") (parsePageSize params)).
End QueryParsing.

(** ** Vocabulary of the specifications

    Notions the statements of Part II are written in: single Redis and
    SQL round trips, and the checks of the design document spelled out
    over the store. *)

(** Is the next command going to fail? *)
Definition faulty (w : World) : bool := hd false (faults w).

(** The world after one round trip that left the keys alone. *)
Definition tick (cmd : RedisCmd) (w : World) : World :=
  mkWorld (redis w) (products w) (users w) (clock w)
          (tail (faults w)) (dbfaults w) (trace w ++ [cmd]).

Definition faultydb (w : World) : bool := hd false (dbfaults w).

Definition dbtick (w : World) : World := with_dbfaults (tail (dbfaults w)) w.

(** Cache traffic leaves the SQL side and the clock alone. *)
Definition same_db (w w' : World) : Prop :=
  products w' = products w ∧ users w' = users w
  ∧ clock w' = clock w ∧ dbfaults w' = dbfaults w.

(** Does [key] hold a session that counts as active for [userID]? *)
Definition holds_active (store : gmap string Entry) (now : Time)
    (userID : string) (key : string) : bool :=
  match store !! key with
  | Some e =>
      if live now e then
        match value e with
        | VSession s => SessionService.activeFor userID now s
        | _ => false
        end
      else false
  | None => false
  end.

(** The row [ProductService.Update] writes back. *)
Definition merged (existing product : Product.t) (now : Time) : Product.t :=
  Product.mk (Product.ID existing)
    (if String.eqb (Product.Name product) "" then Product.Name existing
     else Product.Name product)
    (if String.eqb (Product.Description product) "" then Product.Description existing
     else Product.Description product)
    (if (0 <? Product.Price product)%float then Product.Price product
     else Product.Price existing)
    (if 0 <=? Product.Stock product then Product.Stock product
     else Product.Stock existing)
    (Product.UserID existing) (Product.CreatedAt existing) now.

Definition status (out : Response * World) : Z := fst (fst out).

(** Blacklist lookups are the only [EXISTS] commands. *)
Definition is_exists (c : RedisCmd) : bool :=
  match c with
  | EXISTS _ => true
  | _ => false
  end.

Definition no_lookup (cmds : list RedisCmd) : bool :=
  forallb (λ c, negb (is_exists c)) cmds.

(** The five reasons for a 401 named in the design. *)
Inductive Reason :=
| MissingCredentials
| InvalidToken
| SessionInvalid
| TokenRevoked
| SessionRevokedByLogoutAll.

Inductive Verdict :=
| Denied (r : Reason)
| Granted (user_id : UUID) (session_id : string) (token : string).

(** The check a response message belongs to. *)
Definition reason_of (message : string) : option Reason :=
  if existsb (String.eqb message)
       ["Authorization header is required"; "Invalid authorization header format"]
  then Some MissingCredentials
  else if existsb (String.eqb message)
       ["Invalid or expired token"; "Invalid token claims"; "Invalid user ID in token";
        "Invalid session ID in token"; "Invalid user ID format"]
  then Some InvalidToken
  else if String.eqb message "Session expired or invalid" then Some SessionInvalid
  else if String.eqb message "Token has been invalidated" then Some TokenRevoked
  else if String.eqb message "Session has been invalidated by logout all"
  then Some SessionRevokedByLogoutAll
  else None.

(** What the rest of the chain sees: a 401 with its reason, or the
    three context values. *)
Definition verdict_of (o : Outcome) : option Verdict :=
  match o with
  | Abort status body =>
      if status =? http.StatusUnauthorized
      then Denied <$> reason_of (domain.Message body)
      else None
  | Next keys =>
      match keys !! "user_id", keys !! "session_id", keys !! "token" with
      | Some (CtxUUID u), Some (CtxString s), Some (CtxString t) => Some (Granted u s t)
      | _, _, _ => None
      end
  end.

(** Check 1: the header is present and starts with "Bearer ". *)
Definition bearer (authHeader : string) : option string :=
  if String.eqb authHeader "" then None
  else if strings.HasPrefix authHeader "Bearer "
       then Some (strings.TrimPrefix authHeader "Bearer ")
       else None.

(** What verification asks of the claims: time claims in range and the
    two identifiers present as strings. *)
Definition accepted_claims (claims : MapClaims) (now : Time) : option (string * string) :=
  if bool_decide (jwt.Validate claims now = None) then
    match claim_string claims "user_id", claim_string claims "session_id" with
    | Some userIDStr, Some sessionID => Some (userIDStr, sessionID)
    | _, _ => None
    end
  else None.

(** Check 3: the session is present, active, and [now < expires_at]. *)
Definition session_valid (w : World) (sessionID : string) : bool :=
  match lookup_live w ("session:" +:+ sessionID) with
  | Some (VSession s) => Session.IsActive s && (clock w <? Session.ExpiresAt s)
  | _ => false
  end.

(** Check 4 *)
Definition token_blacklisted (w : World) (tokenString : string) : bool :=
  bool_decide (is_Some (lookup_live w ("blacklist:" +:+ UserService.hashToken tokenString))).

(** Does the [n]-th Redis command from now fail? *)
Definition fault_at (n : nat) (w : World) : bool := nth n (faults w) false.

Section GatekeeperSpec.
Context `{UUIDLib} `{JWTLib}.

(** Check 2, first half: HMAC-family algorithm, valid signature, and
    acceptable claims. *)
Definition verified_claims (jwtSecret tokenString : string) (now : Time)
  : option (string * string) :=
  match jwt_ParseUnverified tokenString with
  | Some (SigningMethodHMAC alg, claims) =>
      if jwt_Verify (SigningMethodHMAC alg) tokenString jwtSecret
      then accepted_claims claims now
      else None
  | _ => None
  end.

(** Check 2 as the middleware runs it: the user id must also parse. *)
Definition verified (jwtSecret tokenString : string) (now : Time)
  : option (UUID * string) :=
  match verified_claims jwtSecret tokenString now with
  | Some (userIDStr, sessionID) =>
      match uuid_Parse userIDStr with
      | Some userID => Some (userID, sessionID)
      | None => None
      end
  | None => None
  end.

(** Check 5 *)
Definition pair_blacklisted (w : World) (userID : UUID) (sessionID : string) : bool :=
  bool_decide (is_Some (lookup_live w
    ("user_blacklist:" +:+ uuid_String userID +:+ ":" +:+ sessionID))).

(** The five checks in the order of the design; the first that fails
    decides.  A check whose Redis round trip fails counts as failed. *)
Definition Gatekeeper (jwtSecret authHeader : string) (w : World) : Verdict :=
  match bearer authHeader with
  | None => Denied MissingCredentials
  | Some tokenString =>
      match verified jwtSecret tokenString (clock w) with
      | None => Denied InvalidToken
      | Some (userID, sessionID) =>
          if fault_at 0 w || negb (session_valid w sessionID)
          then Denied SessionInvalid
          else if fault_at 1 w || token_blacklisted w tokenString
          then Denied TokenRevoked
          else if fault_at 2 w || pair_blacklisted w userID sessionID
          then Denied SessionRevokedByLogoutAll
          else Granted userID sessionID tokenString
      end
  end.

(** The part of [AuthMiddleware] that follows token verification. *)
Definition session_and_blacklist_checks
    (userID : UUID) (sessionID tokenString : string) : M Outcome :=
  v ← UserService.ValidateSession sessionID;
  match v with
  | Err _ | Ok false => mret (unauthorized "Session expired or invalid")
  | Ok true =>
  b ← UserService.IsTokenBlacklisted tokenString;
  match b with
  | Err _ | Ok true => mret (unauthorized "Token has been invalidated")
  | Ok false =>
  ub ← UserService.IsUserSessionBlacklisted userID sessionID;
  match ub with
  | Err _ | Ok true => mret (unauthorized "Session has been invalidated by logout all")
  | Ok false =>
      mret (Next (<["token" := CtxString tokenString]>
                 (<["session_id" := CtxString sessionID]>
                 (<["user_id" := CtxUUID userID]> ∅))))
  end end end.

(** The part of [RefreshToken] that follows claim extraction. *)
Definition refresh_with_claims (jwtSecret userIDStr sessionID : string)
  : M (result domain.RefreshTokenResponse) :=
  v ← SessionService.IsSessionValid sessionID;
  match v with
  | Err _ | Ok false => mret (Err "session expired or invalid")
  | Ok true =>
  match uuid_Parse userIDStr with
  | None => mret (Err "invalid user ID format")
  | Some userID =>
  u ← UserRepository.GetByID userID;
  match u with
  | Err _ => mret (Err "user not found")
  | Ok user =>
  a ← UserService.generateAccessToken jwtSecret user sessionID;
  match a with
  | Err e => mret (Err e)
  | Ok accessToken =>
  n ← UserService.generateRefreshToken jwtSecret user sessionID;
  match n with
  | Err e => mret (Err e)
  | Ok newRefreshToken =>
  e ← SessionService.RefreshSession sessionID (24 * time.Hour);
  match e with
  | Some err => mret (Err (fmt_Errorf "failed to refresh session" err))
  | None =>
      mret (Ok {| domain.AccessToken := accessToken;
                  domain.RefreshToken := newRefreshToken;
                  domain.ExpiresIn := 3600 |})
  end end end end end end.

End GatekeeperSpec.





(** The entry under [key] is visible and holds a session of [userID]. *)
Definition owned_session (w : World) (userID key : string) : bool :=
  match lookup_live w key with
  | Some (VSession s) => String.eqb (Session.UserID s) userID
  | _ => false
  end.

(** The session an enumeration keeps for [key], if any. *)
Definition active_session (w : World) (userID key : string) : option Session.t :=
  match lookup_live w key with
  | Some (VSession s) =>
      if SessionService.activeFor userID (clock w) s then Some s else None
  | _ => None
  end.

(** The keys a [KEYS session:*] scan returns. *)
Definition session_keys (w : World) : list string :=
  filter (λ k, bool_decide (matches "session:*" k = true ∧ is_Some (lookup_live w k)))
    (map fst (map_to_list (redis w))).
(** ** Fixtures: small concrete libraries and worlds

    Stand-ins for the external interfaces, used to run the model on
    concrete requests. *)

Module fx.
Definition uuidA : string := "11111111-1111-4111-8111-111111111111".
Definition uuidB : string := "22222222-2222-4222-8222-222222222222".
Definition uuidP : string := "33333333-3333-4333-8333-333333333333".

#[export] Instance uuidlib : UUIDLib := {|
  uuid_Parse s :=
    if String.eqb s uuidA then Some 1%N
    else if String.eqb s uuidB then Some 2%N
    else if String.eqb s uuidP then Some 3%N
    else None;
  uuid_String u :=
    if N.eqb u 1 then uuidA
    else if N.eqb u 2 then uuidB
    else if N.eqb u 3 then uuidP
    else "00000000-0000-0000-0000-000000000000";
|}.

Definition secret : string := "k3y".

Definition userA : User.t := User.mk 1%N "a@x.com" "" "A" 0 0.

(** claims carrying only the two identifiers *)
Definition bareClaims : MapClaims :=
  <["user_id" := JString uuidA]> (<["session_id" := JString "s1"]> ∅).

(** Token texts and what they decode to; all but ["forged.s1"] carry a
    signature that verifies under [secret]. *)
Definition decode (tokenString : string) : option (SigningMethod * MapClaims) :=
  if String.eqb tokenString "access.s1"
  then Some (SigningMethodHS256, UserService.accessClaims userA "s1" 0)
  else if String.eqb tokenString "refresh.s1"
  then Some (SigningMethodHS256, UserService.refreshClaims userA "s1" 0)
  else if String.eqb tokenString "bare.s1"
  then Some (SigningMethodHS256, bareClaims)
  else if String.eqb tokenString "rs256.s1"
  then Some (SigningMethodRSA "RS256", UserService.accessClaims userA "s1" 0)
  else if String.eqb tokenString "forged.s1"
  then Some (SigningMethodHS256, UserService.accessClaims userA "s1" 0)
  else None.

#[export] Instance jwtlib : JWTLib := {|
  jwt_ParseUnverified := decode;
  jwt_Verify method tokenString key :=
    String.eqb key secret && negb (String.eqb tokenString "forged.s1");
  jwt_SignedString method claims key :=
    match claims !! "type" with
    | Some (JString "access") => Ok "access.s1"
    | Some (JString "refresh") => Ok "refresh.s1"
    | _ => Err "unsupported"
    end;
|}.

#[export] Instance validators : StringValidation := {|
  SanitizeInput s := s;
  ValidateProductName s := if String.eqb s "" then Some "product name is required" else None;
  ValidateDescription s := None;
  CheckSQLInjection s := false;
|}.

#[export] Instance jsonlib : JSONLib := {|
  json_string s := json.dq +:+ s +:+ json.dq;
  json_float f := if (f =? 20)%float then "20" else if (f =? 100)%float then "100" else "0";
  json_time t := json.dq +:+ pretty (ZonedTime.instant t) +:+ json.dq;
|}.

#[export] Instance strconvlib : StrconvLib := {|
  Atoi s :=
    if String.eqb s "2" then Some 2
    else if String.eqb s "50" then Some 50
    else None;
  ParseFloat s :=
    if String.eqb s "20" then Some 20%float
    else if String.eqb s "100" then Some 100%float
    else None;
  time_Parse_RFC3339 s := None;
|}.

Definition day : Duration := 24 * time.Hour.

(** user A's session, created at instant 0 for 24 hours *)
Definition sessA : Session.t :=
  Session.mk "s1" uuidA "a@x.com" 0 day "10.0.0.1" "curl" true.

(** a product that belongs to user B *)
Definition productB : Product.t :=
  Product.mk 3%N "Lamp" "Desk lamp" 29.99%float 7 2%N 0 0.

(** a product that belongs to user A *)
Definition productA : Product.t :=
  Product.mk 3%N "Lamp" "Desk lamp" 29.99%float 7 1%N 0 0.

Definition store : gmap string Entry :=
  <["session:s1" := mkEntry (VSession sessA) (Some (2 * day))]>
  (<["user_sessions:" +:+ uuidA := mkEntry (VString "s1") (Some (2 * day))]> ∅).

Definition world (owned : Product.t) (now : Time) : World :=
  mkWorld store {[ 3%N := owned ]} {[ 1%N := userA ]} now [] [] [].
End fx.

(** * Part II: properties *)

(** ** Test vectors for the digest *)

Example sha256_abc :
  hex.EncodeToString (sha256.Sum256 "abc")
  = "ba7816bf8f01cfea414140de5dae2223b00361a396177a9cb410ff61f20015ad".
Proof. vm_compute. reflexivity. Qed.

Example sha256_empty :
  hex.EncodeToString (sha256.Sum256 "")
  = "e3b0c44298fc1c149afbf4c8996fb92427ae41e4649b934ca495991b7852b855".
Proof. vm_compute. reflexivity. Qed.

Example sha256_two_blocks :
  hex.EncodeToString (sha256.Sum256 "abcdbcdecdefdefgefghfghighijhijkijkljklmklmnlmnomnopnopq")
  = "248d6a61d20638b8e5c026930c3e6039a33ce45964ff2167f6ecedd419db06c1".
Proof. vm_compute. reflexivity. Qed.

(** ** Running one Redis command *)

Ltac unfold_monad := unfold mbind, M_bind, mret, M_ret, time_Now.

Ltac case_fault w :=
  unfold faulty, tick, redis_cmd;
  destruct (faults w) as [|[|] ?]; simpl.

Lemma Client_Get_run key w :
  Client.Get key w =
    (if faulty w then Err redis_Down
     else match lookup_live w key with
          | Some v => Ok v
          | None => Err redis_Nil
          end,
     tick (GET key) w).
Proof.
  unfold Client.Get. case_fault w; try reflexivity;
    unfold lookup_live; simpl; destruct (redis w !! key) as [e|]; simpl;
    try reflexivity; destruct (live (clock w) e); reflexivity.
Qed.

Lemma Client_Exists_run key w :
  Client.Exists key w =
    (if faulty w then Err redis_Down
     else Ok (if lookup_live w key is Some _ then 1 else 0),
     tick (EXISTS key) w).
Proof. unfold Client.Exists. case_fault w; reflexivity. Qed.

Lemma Client_Del_run keys w :
  Client.Del keys w =
    (if faulty w then Err redis_Down else Ok (),
     with_redis (if faulty w then redis w
                 else foldr (λ k m, delete k m) (redis w) keys)
                (tick (DEL keys) w)).
Proof. unfold Client.Del. case_fault w; reflexivity. Qed.

Lemma Client_Set_run key v d w :
  Client.Set_ key v d w =
    (if faulty w then Err redis_Down else Ok (),
     with_redis (if faulty w then redis w
                 else <[key := mkEntry v (if d =? 0 then None
                                          else Some (time.Add (clock w) d))]> (redis w))
                (tick (SET key) w)).
Proof. unfold Client.Set_. case_fault w; reflexivity. Qed.

Lemma Client_Keys_run pattern w :
  Client.Keys pattern w =
    (if faulty w then Err redis_Down
     else Ok (filter (λ k, bool_decide (matches pattern k = true ∧ is_Some (lookup_live w k)))
                (map fst (map_to_list (redis w)))),
     tick (KEYS pattern) w).
Proof. unfold Client.Keys. case_fault w; reflexivity. Qed.

Lemma CacheService_Get_run {A} (unmarshal : CacheValue → result A) key w :
  CacheService.Get unmarshal key w =
    (if faulty w then Err (fmt_Errorf "failed to get value" redis_Down)
     else match lookup_live w key with
          | Some v => unmarshal v
          | None => Err (fmt_Errorf "failed to get value" redis_Nil)
          end,
     tick (GET key) w).
Proof.
  unfold CacheService.Get. unfold_monad. rewrite Client_Get_run.
  destruct (faulty w); [reflexivity|]. destruct (lookup_live w key); reflexivity.
Qed.

Lemma CacheService_Delete_run key w :
  CacheService.Delete key w =
    (if faulty w then Some redis_Down else None,
     with_redis (if faulty w then redis w else delete key (redis w))
                (tick (DEL [key]) w)).
Proof.
  unfold CacheService.Delete. unfold_monad. rewrite Client_Del_run.
  destruct (faulty w); reflexivity.
Qed.

Lemma CacheService_Exists_run key w :
  CacheService.Exists key w =
    (if faulty w then Err (fmt_Errorf "failed to check key existence" redis_Down)
     else Ok (bool_decide (is_Some (lookup_live w key))),
     tick (EXISTS key) w).
Proof.
  unfold CacheService.Exists. unfold_monad. rewrite Client_Exists_run.
  destruct (faulty w); [reflexivity|]. destruct (lookup_live w key); reflexivity.
Qed.

Lemma CacheService_Set_run key v d w :
  CacheService.Set_ key v d w =
    (if faulty w then Some redis_Down else None,
     with_redis (if faulty w then redis w
                 else <[key := mkEntry v (if d =? 0 then None
                                          else Some (time.Add (clock w) d))]> (redis w))
                (tick (SET key) w)).
Proof.
  unfold CacheService.Set_. unfold_monad. rewrite Client_Set_run.
  destruct (faulty w); reflexivity.
Qed.

(** Visibility of a key only depends on the keys and the clock. *)
Lemma lookup_live_ext (w w' : World) (key : string) :
  redis w' !! key = redis w !! key → clock w' = clock w →
  lookup_live w' key = lookup_live w key.
Proof. intros Hr Hc. unfold lookup_live. rewrite Hr, Hc. reflexivity. Qed.

Lemma lookup_live_deleted (w' : World) (key : string) :
  redis w' !! key = None → lookup_live w' key = None.
Proof. intros Hr. unfold lookup_live. rewrite Hr. reflexivity. Qed.

Lemma faulty_nil (w : World) : faults w = [] → faulty w = false.
Proof. intros Hf. unfold faulty. rewrite Hf. reflexivity. Qed.

(** ** Session deletion *)

(** What [DeleteSession] does when Redis answers every command. *)
Lemma DeleteSession_reachable sessionID (w : World) :
  faults w = [] →
  let key := "session:" +:+ sessionID in
  SessionService.DeleteSession sessionID w =
    (None,
     mkWorld
       (delete key
          (match lookup_live w key with
           | Some (VSession s) => delete ("user_sessions:" +:+ Session.UserID s) (redis w)
           | _ => redis w
           end))
       (products w) (users w) (clock w) [] (dbfaults w)
       (trace w ++ GET key ::
          match lookup_live w key with
          | Some (VSession s) =>
              [DEL ["user_sessions:" +:+ Session.UserID s]; DEL [key]]
          | _ => [DEL [key]]
          end)).
Proof.
  intros Hf key. unfold SessionService.DeleteSession. unfold_monad.
  rewrite CacheService_Get_run. fold key.
  unfold faulty, tick. rewrite Hf. simpl.
  destruct (lookup_live w key) as [[s| | | |]|]; simpl;
    rewrite ?CacheService_Delete_run; unfold faulty, tick; simpl;
    rewrite ?CacheService_Delete_run; unfold faulty, tick; simpl;
    rewrite <- ?app_assoc; reflexivity.
Qed.

(** C8 — idempotence of session deletion.  With Redis reachable,
    [DeleteSession id] returns no error, and a second call (made at any
    later instant [t']) returns no error either and leaves every key,
    product and user exactly as the first call left them. *)
Theorem DeleteSession_idempotent sessionID (w : World) (t' : Time) :
  faults w = [] →
  let once := SessionService.DeleteSession sessionID w in
  let twice := SessionService.DeleteSession sessionID (with_clock t' (snd once)) in
  fst once = None ∧ fst twice = None
  ∧ redis (snd twice) = redis (snd once)
  ∧ products (snd twice) = products (snd once)
  ∧ users (snd twice) = users (snd once).
Proof.
  intros Hf once twice. subst once twice.
  rewrite (DeleteSession_reachable sessionID w Hf). simpl.
  set (key := "session:" +:+ sessionID).
  match goal with |- context [with_clock t' ?x] => set (w1 := with_clock t' x) end.
  assert (Hf1 : faults w1 = []) by reflexivity.
  assert (Hgone : lookup_live w1 key = None).
  { apply lookup_live_deleted. subst w1. simpl. apply lookup_delete_eq. }
  rewrite (DeleteSession_reachable sessionID w1 Hf1). fold key. simpl.
  rewrite Hgone. repeat split.
  subst w1; simpl. rewrite delete_delete_eq. reflexivity.
Qed.

Lemma DeleteSession_idempotent_witness :
  let w := fx.world fx.productB 5 in
  let once := SessionService.DeleteSession "s1" w in
  let twice := SessionService.DeleteSession "s1" (with_clock 9 (snd once)) in
  fst once = None ∧ fst twice = None
  ∧ redis (snd twice) = redis (snd once)
  ∧ products (snd twice) = products (snd once)
  ∧ users (snd twice) = users (snd once).
Proof. exact (DeleteSession_idempotent "s1" (fx.world fx.productB 5) 9 eq_refl). Defined.

(** Once the session key is gone, [DeleteSession] cannot change the
    store, whether or not Redis answers. *)
Lemma DeleteSession_absent (sessionID : string) (w : World) :
  redis w !! ("session:" +:+ sessionID) = None →
  redis (snd (SessionService.DeleteSession sessionID w)) = redis w.
Proof.
  intros Habsent. unfold SessionService.DeleteSession. unfold_monad.
  rewrite CacheService_Get_run.
  rewrite (lookup_live_deleted w _ Habsent).
  destruct (faulty w); unfold_monad; rewrite CacheService_Delete_run; simpl;
    destruct (faulty _); simpl; try reflexivity; apply delete_id; exact Habsent.
Qed.

(** ** Lazy expiry in [GetSession] *)

(** [GetSession] with Redis reachable, by cases on the stored record. *)
Lemma GetSession_reachable sessionID (w : World) :
  faults w = [] →
  let key := "session:" +:+ sessionID in
  SessionService.GetSession sessionID w =
    match lookup_live w key with
    | Some (VSession s) =>
        if time.After (clock w) (Session.ExpiresAt s)
        then (Err "session expired",
              snd (SessionService.DeleteSession sessionID (tick (GET key) w)))
        else (Ok s, tick (GET key) w)
    | Some _ =>
        (Err (fmt_Errorf "session not found"
                "json: cannot unmarshal into Go value of type service.Session"),
         tick (GET key) w)
    | None =>
        (Err (fmt_Errorf "session not found" (fmt_Errorf "failed to get value" redis_Nil)),
         tick (GET key) w)
    end.
Proof.
  intros Hf key. unfold SessionService.GetSession. unfold_monad.
  rewrite CacheService_Get_run. fold key. rewrite (faulty_nil w Hf).
  destruct (lookup_live w key) as [[s| | | |]|]; simpl; try reflexivity.
  destruct (time.After (clock w) (Session.ExpiresAt s)); [|reflexivity].
  destruct (SessionService.DeleteSession sessionID (tick (GET key) w)); reflexivity.
Qed.

(** Strictly after [ExpiresAt], the read deletes the session and
    reports it expired. *)
Lemma GetSession_after_expiry sessionID (w : World) (s : Session.t) :
  faults w = [] →
  lookup_live w ("session:" +:+ sessionID) = Some (VSession s) →
  Session.ExpiresAt s < clock w →
  fst (SessionService.GetSession sessionID w) = Err "session expired"
  ∧ redis (snd (SessionService.GetSession sessionID w)) !! ("session:" +:+ sessionID) = None.
Proof.
  intros Hf Hs Hlt. rewrite (GetSession_reachable sessionID w Hf). rewrite Hs.
  unfold time.After. destruct (Z.ltb_spec (Session.ExpiresAt s) (clock w)); [|lia].
  split; [reflexivity|]. simpl.
  rewrite DeleteSession_reachable by (simpl; rewrite Hf; reflexivity).
  simpl. apply lookup_delete_eq.
Qed.

(** Up to and including [ExpiresAt], the read returns the stored record
    and sends nothing but the one [GET]. *)
Lemma GetSession_not_after sessionID (w : World) (s : Session.t) :
  faults w = [] →
  lookup_live w ("session:" +:+ sessionID) = Some (VSession s) →
  clock w ≤ Session.ExpiresAt s →
  SessionService.GetSession sessionID w = (Ok s, tick (GET ("session:" +:+ sessionID)) w).
Proof.
  intros Hf Hs Hle. rewrite (GetSession_reachable sessionID w Hf). rewrite Hs.
  unfold time.After. destruct (Z.ltb_spec (Session.ExpiresAt s) (clock w)); [lia|].
  reflexivity.
Qed.

(** C7 — at the instant [now = ExpiresAt] the comparison
    [time.Now().After(session.ExpiresAt)] is false: [GetSession] hands
    the session back, and the only command sent to Redis is the read, so
    nothing is deleted. *)
Theorem GetSession_at_expiry_instant sessionID (w : World) (s : Session.t) :
  faults w = [] →
  lookup_live w ("session:" +:+ sessionID) = Some (VSession s) →
  clock w = Session.ExpiresAt s →
  SessionService.GetSession sessionID w = (Ok s, tick (GET ("session:" +:+ sessionID)) w)
  ∧ redis (snd (SessionService.GetSession sessionID w)) = redis w.
Proof.
  intros Hf Hs Hnow.
  rewrite (GetSession_not_after sessionID w s Hf Hs) by lia.
  split; reflexivity.
Qed.

Lemma GetSession_at_expiry_instant_witness :
  let w := fx.world fx.productB fx.day in
  SessionService.GetSession "s1" w = (Ok fx.sessA, tick (GET "session:s1") w)
  ∧ redis (snd (SessionService.GetSession "s1" w)) = redis w.
Proof.
  exact (GetSession_at_expiry_instant "s1" (fx.world fx.productB fx.day) fx.sessA
           eq_refl eq_refl eq_refl).
Defined.

(** The validity test of the same service disagrees at that instant:
    [time.Now().Before(session.ExpiresAt)] is false as well. *)
Lemma IsSessionValid_at_expiry_instant sessionID (w : World) (s : Session.t) :
  faults w = [] →
  lookup_live w ("session:" +:+ sessionID) = Some (VSession s) →
  clock w = Session.ExpiresAt s →
  fst (SessionService.IsSessionValid sessionID w) = Ok false.
Proof.
  intros Hf Hs Hnow. unfold SessionService.IsSessionValid. unfold_monad.
  rewrite (GetSession_not_after sessionID w s Hf Hs) by lia.
  simpl. unfold time.Before. rewrite Hnow, Z.ltb_irrefl, andb_false_r. reflexivity.
Qed.

(** ** The token blacklist *)


Lemma IsTokenBlacklisted_run (token : string) (w : World) :
  UserService.IsTokenBlacklisted token w =
    (if faulty w
     then Err (fmt_Errorf "failed to check token blacklist"
                 (fmt_Errorf "failed to check key existence" redis_Down))
     else Ok (bool_decide (is_Some (lookup_live w ("blacklist:" +:+ UserService.hashToken token)))),
     tick (EXISTS ("blacklist:" +:+ UserService.hashToken token)) w).
Proof.
  unfold UserService.IsTokenBlacklisted. unfold_monad.
  rewrite CacheService_Exists_run. destruct (faulty w); reflexivity.
Qed.

Lemma BlacklistToken_run (token : string) (w : World) :
  UserService.BlacklistToken token w =
    (if faulty w then Some redis_Down else None,
     with_redis
       (if faulty w then redis w
        else <[("blacklist:" +:+ UserService.hashToken token) :=
                 mkEntry (VBool true) (Some (clock w + 24 * time.Hour))]> (redis w))
       (tick (SET ("blacklist:" +:+ UserService.hashToken token)) w)).
Proof.
  unfold UserService.BlacklistToken. rewrite CacheService_Set_run. reflexivity.
Qed.



(** ** Blacklist TTL against token lifetimes *)

Section TokenLifetimes.
Context `{UUIDLib}.

Lemma accessClaims_exp (user : User.t) (sessionID : string) (t0 : Time) :
  UserService.accessClaims user sessionID t0 !! "exp"
  = Some (JNumber (time.Unix (time.Add t0 time.Hour))).
Proof. unfold UserService.accessClaims. by simplify_map_eq. Qed.

(** An access token minted at [t0 ≥ 0] is rejected as expired from
    [t0 + 1h] on. *)
Lemma access_token_lifetime (user : User.t) (sessionID : string) (t0 now : Time) :
  0 ≤ t0 →
  jwt.Validate (UserService.accessClaims user sessionID t0) now = None →
  now < t0 + time.Hour.
Proof.
  intros Ht0. unfold jwt.Validate, jwt.parseNumericDate.
  rewrite accessClaims_exp.
  unfold time.Unix, time.Add, time.FromUnix, time.Before, time.Hour, time.Minute, time.Second.
  set (e := (t0 + 60 * (60 * 1000000000)) / 1000000000).
  assert (He : 3600 ≤ e).
  { subst e. apply Z.div_le_lower_bound; lia. }
  assert (Hup : e * 1000000000 ≤ t0 + 60 * (60 * 1000000000)).
  { subst e. rewrite Z.mul_comm. apply Z.mul_div_le. lia. }
  destruct (Z.eqb_spec e 0); [lia|].
  destruct (Z.ltb_spec now (e * 1000000000)); simpl; [intros _; lia | discriminate].
Qed.

(** C2 (as amended) — the 24-hour blacklist entry covers access tokens.
    Take an access token minted at [t0 ≥ 0] and blacklisted at a later
    instant (world [wb]).  At any later instant (world [wn]) at which the
    token has not expired and the entry written by [BlacklistToken] is
    still the one stored, [IsTokenBlacklisted] answers true.  The entry
    itself stops being visible 24 hours after the write, whatever the
    token. *)
Theorem blacklist_entry_covers_access_token
    (user : User.t) (sessionID tokenString : string) (t0 : Time) (wb wn : World) :
  let key := "blacklist:" +:+ UserService.hashToken tokenString in
  faults wb = [] → faults wn = [] →
  0 ≤ t0 → t0 ≤ clock wb → clock wb ≤ clock wn →
  redis wn !! key = redis (snd (UserService.BlacklistToken tokenString wb)) !! key →
  (jwt.Validate (UserService.accessClaims user sessionID t0) (clock wn) = None →
   fst (UserService.IsTokenBlacklisted tokenString wn) = Ok true)
  ∧ (clock wb + 24 * time.Hour ≤ clock wn →
     fst (UserService.IsTokenBlacklisted tokenString wn) = Ok false).
Proof.
  intros key Hfb Hfn Ht0 Htb Hnow Hentry.
  rewrite BlacklistToken_run in Hentry. rewrite (faulty_nil wb Hfb) in Hentry.
  simpl in Hentry. fold key in Hentry. rewrite lookup_insert_eq in Hentry.
  rewrite IsTokenBlacklisted_run, (faulty_nil wn Hfn). fold key. simpl.
  unfold lookup_live. rewrite Hentry. unfold live; simpl.
  split.
  - intros Hvalid. apply access_token_lifetime in Hvalid; [|exact Ht0].
    assert (Hlive : (clock wn <? clock wb + 24 * time.Hour) = true).
    { apply Z.ltb_lt. unfold time.Hour, time.Minute, time.Second in *. lia. }
    rewrite Hlive. reflexivity.
  - intros Hlate.
    assert (Hdead : (clock wn <? clock wb + 24 * time.Hour) = false)
      by (apply Z.ltb_ge; exact Hlate).
    rewrite Hdead. reflexivity.
Qed.
End TokenLifetimes.

Section TokenLifetimesRun.
#[local] Existing Instances fx.uuidlib fx.jwtlib.

Lemma blacklist_entry_covers_access_token_witness :
  let wb := fx.world fx.productB (10 * time.Minute) in
  let wn := with_clock (50 * time.Minute) (snd (UserService.BlacklistToken "access.s1" wb)) in
  jwt.Validate (UserService.accessClaims fx.userA "s1" 0) (clock wn) = None
  ∧ fst (UserService.IsTokenBlacklisted "access.s1" wn) = Ok true.
Proof.
  split; [vm_compute; reflexivity|].
  refine (proj1 (blacklist_entry_covers_access_token fx.userA "s1" "access.s1" 0
            (fx.world fx.productB (10 * time.Minute))
            (with_clock (50 * time.Minute)
               (snd (UserService.BlacklistToken "access.s1"
                       (fx.world fx.productB (10 * time.Minute)))))
            eq_refl eq_refl _ _ _ eq_refl) _);
    vm_compute; first [discriminate | reflexivity].
Defined.

(** C2 (as stated) fails for refresh tokens: one minted and blacklisted
    at instant 0 still passes claim validation 25 hours later, when its
    blacklist entry is no longer visible. *)
Lemma refresh_token_outlives_blacklist_entry :
  let w0 := fx.world fx.productB 0 in
  let w1 := snd (UserService.BlacklistToken "refresh.s1" w0) in
  let w2 := with_clock (25 * time.Hour) w1 in
  fst (UserService.generateRefreshToken fx.secret fx.userA "s1" w0) = Ok "refresh.s1"
  ∧ fst (UserService.IsTokenBlacklisted "refresh.s1" w1) = Ok true
  ∧ jwt.Validate (UserService.refreshClaims fx.userA "s1" 0) (clock w2) = None
  ∧ fst (UserService.IsTokenBlacklisted "refresh.s1" w2) = Ok false.
Proof. vm_compute. repeat split; reflexivity. Qed.
End TokenLifetimesRun.

(** ** Enumerating a user's sessions *)

Lemma GetActiveSessionsCount_loop_reachable (userID : string) (keys : list string) :
  ∀ (count : Z) (w : World),
    faults w = [] →
    fst (SessionService.GetActiveSessionsCount_loop userID keys count w)
    = count + Z.of_nat (length (filter (λ k, holds_active (redis w) (clock w) userID k = true) keys)).
Proof.
  induction keys as [|key rest IH]; intros count w Hf; simpl.
  - unfold_monad. simpl. lia.
  - unfold_monad. rewrite CacheService_Get_run, (faulty_nil w Hf).
    assert (Hft : faults (tick (GET key) w) = []) by (simpl; rewrite Hf; reflexivity).
    pose proof (IH count (tick (GET key) w) Hft) as IH0.
    pose proof (IH (count + 1) (tick (GET key) w) Hft) as IH1.
    simpl in IH0, IH1. rewrite filter_cons.
    destruct (decide (holds_active (redis w) (clock w) userID key = true)) as [Hact|Hact];
      unfold holds_active, lookup_live in *;
      destruct (redis w !! key) as [e|]; simpl in *;
      try destruct (live (clock w) e); simpl in *;
      try destruct (value e) as [s| | | |]; simpl in *;
      try discriminate; try rewrite IH0; try reflexivity.
    + rewrite Hact. rewrite IH1. simpl length. lia.
    + destruct (SessionService.activeFor userID (clock w) s); [congruence|].
      rewrite IH0. reflexivity.
Qed.

Lemma GetActiveSessionsCount_run (userID : string) (w : World) :
  fst (SessionService.GetActiveSessionsCount userID w) =
    if faulty w then Err (fmt_Errorf "failed to get session keys" redis_Down)
    else
      Ok (fst (SessionService.GetActiveSessionsCount_loop userID
                 (filter (λ k, bool_decide (matches "session:*" k = true
                                            ∧ is_Some (lookup_live w k)))
                    (map fst (map_to_list (redis w))))
                 0 (tick (KEYS "session:*") w))).
Proof.
  unfold SessionService.GetActiveSessionsCount. unfold_monad.
  rewrite Client_Keys_run. destruct (faulty w); [reflexivity|].
  destruct (SessionService.GetActiveSessionsCount_loop _ _ _ _); reflexivity.
Qed.

(** With Redis reachable the count is the number of visible
    [session:*] keys holding an active, unexpired session of the user. *)
Lemma GetActiveSessionsCount_reachable (userID : string) (w : World) :
  faults w = [] →
  fst (SessionService.GetActiveSessionsCount userID w) =
    Ok (Z.of_nat (length
          (filter (λ k, holds_active (redis w) (clock w) userID k = true)
             (filter (λ k, bool_decide (matches "session:*" k = true
                                        ∧ is_Some (lookup_live w k)))
                (map fst (map_to_list (redis w))))))).
Proof.
  intros Hf. rewrite GetActiveSessionsCount_run, (faulty_nil w Hf).
  rewrite GetActiveSessionsCount_loop_reachable by (simpl; rewrite Hf; reflexivity).
  reflexivity.
Qed.

Section UserSessions.
Context `{UUIDLib}.

(** C9 — [GET /auth/sessions] never returns session details.  Whenever
    [UserService.GetUserSessions] produces a response, its
    [ActiveSessions] list is empty and [TotalSessions] is the number
    reported by [GetActiveSessionsCount]; it produces one whenever the
    [KEYS] scan goes through; the handler sends that response with
    status 200, and status 500 otherwise. *)
Theorem GetUserSessions_lists_no_session (userID : UUID) (w : World) :
  let r := fst (UserService.GetUserSessions userID w) in
  (∀ resp, r = Ok resp →
     domain.ActiveSessions resp = []
     ∧ fst (SessionService.GetActiveSessionsCount (uuid_String userID) w)
       = Ok (domain.TotalSessions resp))
  ∧ (faulty w = false → is_Ok r = true)
  ∧ fst (UserHandler.GetUserSessions userID w) =
      match r with
      | Ok resp => (http.StatusOK, BUserSessions resp)
      | Err _ =>
          errorJSON http.StatusInternalServerError "Internal Server Error"
            "Failed to retrieve user sessions"
      end.
Proof.
  intros r. subst r.
  unfold UserHandler.GetUserSessions, UserService.GetUserSessions. unfold_monad.
  pose proof (GetActiveSessionsCount_run (uuid_String userID) w) as Hrun.
  destruct (SessionService.GetActiveSessionsCount (uuid_String userID) w) as [[count|e] w'];
    simpl in *.
  - split; [|split; [reflexivity|reflexivity]].
    intros resp [= <-]. simpl. split; reflexivity.
  - split; [intros resp; discriminate|]. split; [|reflexivity].
    intros Hok. rewrite Hok in Hrun. discriminate.
Qed.
End UserSessions.

Section UserSessionsRun.
#[local] Existing Instances fx.uuidlib.

(** User A has one active session; the endpoint reports the count and
    an empty list, although the session service can enumerate it. *)
Example GetUserSessions_with_one_active_session :
  let w := fx.world fx.productB 5 in
  fst (UserHandler.GetUserSessions 1%N w)
  = (200, BUserSessions {| domain.ActiveSessions := []; domain.TotalSessions := 1 |})
  ∧ fst (SessionService.GetUserSessions fx.uuidA w) = Ok [fx.sessA].
Proof. vm_compute. split; reflexivity. Qed.
End UserSessionsRun.

(** ** Comparisons with zero on [float64] *)

Lemma positive_zero_spec : Prim2SF 0%float = S754_zero false.
Proof. reflexivity. Qed.

(** [p <= 0] excludes [p > 0]. *)
Lemma float_le0_not_gt0 (p : float) :
  (p <=? 0)%float = true → (0 <? p)%float = false.
Proof.
  rewrite leb_spec, ltb_spec, positive_zero_spec.
  unfold SFleb, SFltb, SFcompare.
  destruct (Prim2SF p) as [[|]| [|] | |[|] m e]; simpl; congruence.
Qed.

(** For a number (anything but NaN), not [p > 0] means [p <= 0]. *)
Lemma float_not_gt0_le0 (p : float) :
  PrimFloat.is_nan p = false → (0 <? p)%float = false → (p <=? 0)%float = true.
Proof.
  intros Hnan Hgt. unfold PrimFloat.is_nan in Hnan.
  rewrite FloatAxioms.eqb_spec in Hnan. rewrite ltb_spec in Hgt.
  rewrite leb_spec. rewrite positive_zero_spec in *.
  unfold SFleb, SFltb, SFeqb in *.
  destruct (Prim2SF p) as [[|]| [|] | |[|] m e]; simpl in *;
    first [reflexivity | discriminate].
Qed.

(** ** Running the product repository *)

Lemma ProductRepository_GetByID_run (id : UUID) (w : World) :
  ProductRepository.GetByID id w =
    (if faultydb w then Err db_Down
     else match products w !! id with
          | Some p => Ok p
          | None => Err "product not found"
          end,
     dbtick w).
Proof.
  unfold ProductRepository.GetByID, db_cmd, faultydb, dbtick.
  destruct (dbfaults w) as [|[|] ?]; simpl; try reflexivity;
    destruct (products w !! id); reflexivity.
Qed.

Lemma ProductRepository_Update_run (entity : Product.t) (w : World) :
  ProductRepository.Update entity w =
    (if faultydb w then Some db_Down else None,
     with_products (if faultydb w then products w
                    else <[Product.ID entity := entity]> (products w))
                   (dbtick w)).
Proof.
  unfold ProductRepository.Update, db_cmd, faultydb, dbtick. unfold_monad.
  destruct (dbfaults w) as [|[|] ?]; reflexivity.
Qed.

Lemma ProductRepository_Delete_run (id : UUID) (w : World) :
  ProductRepository.Delete id w =
    (if faultydb w then Some db_Down else None,
     with_products (if faultydb w then products w else delete id (products w))
                   (dbtick w)).
Proof.
  unfold ProductRepository.Delete, db_cmd, faultydb, dbtick. unfold_monad.
  destruct (dbfaults w) as [|[|] ?]; reflexivity.
Qed.

Lemma same_db_refl (w : World) : same_db w w.
Proof. repeat split. Qed.

Lemma same_db_trans (w1 w2 w3 : World) :
  same_db w1 w2 → same_db w2 w3 → same_db w1 w3.
Proof. unfold same_db. intros (?&?&?&?) (?&?&?&?). repeat split; congruence. Qed.

Lemma CacheService_Delete_same_db (key : string) (w : World) :
  same_db w (snd (CacheService.Delete key w)).
Proof. rewrite CacheService_Delete_run. repeat split. Qed.

Lemma CacheService_DeletePattern_same_db (pattern : string) (w : World) :
  same_db w (snd (CacheService.DeletePattern pattern w)).
Proof.
  unfold CacheService.DeletePattern. unfold_monad. rewrite Client_Keys_run.
  destruct (faulty w); [repeat split|].
  match goal with |- context [0 <? ?n] => destruct (0 <? n) end; [|repeat split].
  rewrite Client_Del_run. simpl.
  match goal with |- context [faulty ?x] => destruct (faulty x) end; repeat split.
Qed.

Section ProductUpdate.
Context `{UUIDLib}.

Lemma invalidateUserCache_same_db (userID : UUID) (w : World) :
  same_db w (snd (ProductService.invalidateUserCache userID w)).
Proof.
  unfold ProductService.invalidateUserCache. unfold_monad.
  pose proof (CacheService_Delete_same_db ("user_products:" +:+ uuid_String userID) w) as H1.
  destruct (CacheService.Delete _ w) as [e1 w1]; simpl in H1.
  pose proof (CacheService_Delete_same_db ("user_stats:" +:+ uuid_String userID) w1) as H2.
  destruct (CacheService.Delete _ w1) as [e2 w2]; simpl in H2.
  pose proof (CacheService_DeletePattern_same_db
                ("user_products_filtered:" +:+ uuid_String userID +:+ ":*") w2) as H3.
  destruct (CacheService.DeletePattern _ w2) as [e3 w3]; simpl in H3.
  pose proof (CacheService_DeletePattern_same_db
                ("user_products_cursor:" +:+ uuid_String userID +:+ ":*") w3) as H4.
  destruct (CacheService.DeletePattern _ w3) as [e4 w4]; simpl in *.
  eauto using same_db_trans.
Qed.

Lemma Update_success (product : Product.t) (userID : UUID) (w : World) :
  fst (ProductService.Update product userID w) = None →
  ∃ existing,
    products w !! Product.ID product = Some existing
    ∧ Product.UserID existing = userID
    ∧ products (snd (ProductService.Update product userID w))
      = <[Product.ID existing := merged existing product (clock w)]> (products w).
Proof.
  unfold ProductService.Update. unfold_monad.
  rewrite ProductRepository_GetByID_run.
  destruct (faultydb w); [discriminate|].
  destruct (products w !! Product.ID product) as [existing|]; [|discriminate].
  unfold uuid_eqb. destruct (N.eqb_spec (Product.UserID existing) userID) as [Ho|Ho];
    simpl; [|discriminate].
  rewrite ProductRepository_Update_run. simpl.
  destruct (faultydb (dbtick w)); simpl; [discriminate|].
  intros _. exists existing. split; [reflexivity|]. split; [exact Ho|].
  match goal with |- context [ProductService.invalidateUserCache userID ?x] =>
    pose proof (invalidateUserCache_same_db userID x) as (Hp & _);
    destruct (ProductService.invalidateUserCache userID x) as [u w'] end.
  simpl in *. rewrite Hp. unfold merged.
  rewrite (Z.geb_leb (Product.Stock product) 0).
  destruct (String.eqb (Product.Name product) "");
    destruct (String.eqb (Product.Description product) ""); reflexivity.
Qed.
End ProductUpdate.

Section ProductUpdateHandler.
Context `{UUIDLib} `{StringValidation}.

Lemma validateUpdate_keeps_numbers (req req' : UpdateProductRequest.t) :
  ProductHandler.validateUpdate req = inr req' →
  UpdateProductRequest.Price req' = UpdateProductRequest.Price req
  ∧ UpdateProductRequest.Stock req' = UpdateProductRequest.Stock req.
Proof.
  unfold ProductHandler.validateUpdate.
  repeat match goal with
         | |- context [match ?x ≫= ?f with _ => _ end] => destruct (x ≫= f)
         | |- context [if ?b then _ else _] => destruct b
         end; try discriminate.
  intros [= <-]. split; reflexivity.
Qed.

(** C10 — which fields [ProductService.Update] overwrites.  After a
    successful update the stored row keeps its name, description and
    price where the incoming product has the empty string, resp. a price
    that is not above zero, and takes the incoming value otherwise; the
    stock is taken from the incoming product whenever that is [>= 0],
    zero included; [UpdatedAt] is the current time; id, owner and
    creation time stay.  Through the handler, a request without a
    [stock] field therefore stores stock 0. *)
Theorem Update_field_policy :
  (∀ (product : Product.t) (userID : UUID) (w : World),
     fst (ProductService.Update product userID w) = None →
     ∃ existing stored,
       products w !! Product.ID product = Some existing
       ∧ products (snd (ProductService.Update product userID w)) !! Product.ID existing
         = Some stored
       ∧ (Product.Name product = "" → Product.Name stored = Product.Name existing)
       ∧ (Product.Name product ≠ "" → Product.Name stored = Product.Name product)
       ∧ (Product.Description product = "" →
          Product.Description stored = Product.Description existing)
       ∧ (Product.Description product ≠ "" →
          Product.Description stored = Product.Description product)
       ∧ ((Product.Price product <=? 0)%float = true →
          Product.Price stored = Product.Price existing)
       ∧ ((0 <? Product.Price product)%float = true →
          Product.Price stored = Product.Price product)
       ∧ (0 ≤ Product.Stock product → Product.Stock stored = Product.Stock product)
       ∧ (Product.Stock product < 0 → Product.Stock stored = Product.Stock existing)
       ∧ Product.UpdatedAt stored = clock w
       ∧ Product.ID stored = Product.ID existing
       ∧ Product.UserID stored = Product.UserID existing
       ∧ Product.CreatedAt stored = Product.CreatedAt existing)
  ∧ (∀ (idStr : string) (req : UpdateProductRequest.t) (userID : UUID) (w : World),
       fst (fst (ProductHandler.Update idStr (Ok req) userID w)) = http.StatusOK →
       UpdateProductRequest.Stock req = None →
       ∃ id existing stored,
         uuid_Parse idStr = Some id
         ∧ products w !! id = Some existing
         ∧ products (snd (ProductHandler.Update idStr (Ok req) userID w)) !! Product.ID existing
           = Some stored
         ∧ Product.Stock stored = 0).
Proof.
  split.
  - intros product userID w Hok.
    destruct (Update_success product userID w Hok) as (existing & Hex & _ & Hst).
    exists existing, (merged existing product (clock w)).
    split; [exact Hex|]. split; [rewrite Hst; apply lookup_insert_eq|].
    unfold merged; simpl.
    repeat split.
    + intros ->. reflexivity.
    + intros Hne. destruct (String.eqb_spec (Product.Name product) ""); [contradiction|reflexivity].
    + intros ->. reflexivity.
    + intros Hne. destruct (String.eqb_spec (Product.Description product) "");
        [contradiction|reflexivity].
    + intros Hle. rewrite (float_le0_not_gt0 _ Hle). reflexivity.
    + intros ->. reflexivity.
    + intros Hge. destruct (Z.leb_spec 0 (Product.Stock product)); [reflexivity|lia].
    + intros Hlt. destruct (Z.leb_spec 0 (Product.Stock product)); [lia|reflexivity].
  - intros idStr req userID w. unfold ProductHandler.Update, ProductHandler.validateUUID.
    destruct (String.eqb idStr ""); [discriminate|].
    destruct (uuid_Parse idStr) as [id|]; [|discriminate].
    destruct (ProductHandler.validateUpdate req) as [resp|req'] eqn:Hval.
    { unfold ProductHandler.validateUpdate in Hval.
      repeat match type of Hval with
             | context [match ?x ≫= ?f with _ => _ end] => destruct (x ≫= f)
             | context [if ?b then _ else _] => destruct b
             end; try discriminate; injection Hval as <-; discriminate. }
    unfold_monad.
    destruct (ProductService.Update (ProductHandler.productOfRequest id req') userID w)
      as [[err|] w'] eqn:Hupd; [discriminate|].
    intros _ Hstock.
    assert (Hok : fst (ProductService.Update (ProductHandler.productOfRequest id req') userID w) = None)
      by (rewrite Hupd; reflexivity).
    destruct (Update_success _ userID w Hok) as (existing & Hex & _ & Hst).
    rewrite Hupd in Hst. simpl in Hex, Hst.
    exists id, existing, (merged existing (ProductHandler.productOfRequest id req') (clock w)).
    split; [reflexivity|]. split; [exact Hex|]. simpl.
    split; [rewrite Hst; apply lookup_insert_eq|].
    destruct (validateUpdate_keeps_numbers req req' Hval) as [_ Hs].
    unfold merged; simpl. rewrite Hs, Hstock. reflexivity.
Qed.
End ProductUpdateHandler.

Section ProductUpdateRun.
#[local] Existing Instances fx.uuidlib fx.validators.

(** User A renames their product and says nothing about the stock: the
    update succeeds, the name changes, the price stays, and the stock
    drops from 7 to 0. *)
Lemma Update_field_policy_witness :
  let w := fx.world fx.productA (5 * time.Second) in
  let req := UpdateProductRequest.mk (Some "Desk lamp v2") None None None in
  let out := ProductHandler.Update fx.uuidP (Ok req) 1%N w in
  fst (fst out) = http.StatusOK
  ∧ ∃ id existing stored,
      uuid_Parse fx.uuidP = Some id
      ∧ products w !! id = Some existing
      ∧ products (snd out) !! Product.ID existing = Some stored
      ∧ Product.Stock stored = 0.
Proof.
  split; [vm_compute; reflexivity|].
  apply (proj2 Update_field_policy fx.uuidP
           (UpdateProductRequest.mk (Some "Desk lamp v2") None None None) 1%N
           (fx.world fx.productA (5 * time.Second))); vm_compute; reflexivity.
Defined.

Example Update_without_stock_run :
  let w := fx.world fx.productA (5 * time.Second) in
  let req := UpdateProductRequest.mk (Some "Desk lamp v2") None None None in
  products (snd (ProductHandler.Update fx.uuidP (Ok req) 1%N w)) !! 3%N
  = Some (Product.mk 3%N "Desk lamp v2" "Desk lamp" 29.99%float 0 1%N 0 (5 * time.Second)).
Proof. vm_compute. reflexivity. Qed.
End ProductUpdateRun.

(** ** Status codes for products the caller does not own *)

Section ForeignProduct.
Context `{UUIDLib} `{StringValidation}.

Lemma validateUpdate_rejects_with_400 (req : UpdateProductRequest.t) (resp : Response) :
  ProductHandler.validateUpdate req = inl resp → fst resp = http.StatusBadRequest.
Proof.
  unfold ProductHandler.validateUpdate.
  repeat match goal with
         | |- context [match ?x ≫= ?f with _ => _ end] => destruct (x ≫= f)
         | |- context [if ?b then _ else _] => destruct b
         end; try discriminate; intros [= <-]; reflexivity.
Qed.

(** The service refuses to touch a row that is missing or owned by
    someone else. *)
Lemma Update_not_owned (product : Product.t) (userID : UUID) (w : World) :
  (∀ p, products w !! Product.ID product = Some p → Product.UserID p ≠ userID) →
  fst (ProductService.Update product userID w) ≠ None.
Proof.
  intros Hforeign Hok.
  destruct (Update_success product userID w Hok) as (existing & Hex & Ho & _).
  exact (Hforeign existing Hex Ho).
Qed.

Lemma Delete_not_owned (id userID : UUID) (w : World) :
  (∀ p, products w !! id = Some p → Product.UserID p ≠ userID) →
  fst (ProductService.Delete id userID w) ≠ None.
Proof.
  intros Hforeign. unfold ProductService.Delete. unfold_monad.
  rewrite ProductRepository_GetByID_run.
  destruct (faultydb w); [discriminate|].
  destruct (products w !! id) as [p|] eqn:Hp; [|discriminate].
  unfold uuid_eqb. destruct (N.eqb_spec (Product.UserID p) userID) as [Ho|Ho];
    simpl; [|discriminate].
  destruct (Hforeign p eq_refl Ho).
Qed.

Lemma GetByID_not_owned (id userID : UUID) (w : World) :
  (∀ p, products w !! id = Some p → Product.UserID p ≠ userID) →
  (∀ c, lookup_live w ("product:" +:+ uuid_String userID +:+ ":" +:+ uuid_String id)
        ≠ Some (VProduct c)) →
  is_Ok (fst (ProductService.GetByID id userID w)) = false.
Proof.
  intros Hforeign Hcache. unfold ProductService.GetByID. unfold_monad.
  rewrite CacheService_Get_run.
  set (key := "product:" +:+ uuid_String userID +:+ ":" +:+ uuid_String id) in *.
  assert (Hmiss : ∀ e, is_Ok
            (if faulty w then Err e
             else match lookup_live w key with
                  | Some v => unmarshal_Product v
                  | None => Err (fmt_Errorf "failed to get value" redis_Nil)
                  end) = false).
  { intros e. destruct (faulty w); [reflexivity|].
    destruct (lookup_live w key) as [[| | |c|]|] eqn:Hl; try reflexivity.
    destruct (Hcache c eq_refl). }
  match goal with |- context [if faulty w then Err ?e else ?x] =>
    specialize (Hmiss e); destruct (if faulty w then Err e else x) as [c|msg] end;
    [discriminate|].
  rewrite ProductRepository_GetByID_run. simpl.
  destruct (faultydb _); [reflexivity|].
  destruct (products w !! id) as [p|] eqn:Hp; [|reflexivity].
  unfold uuid_eqb. destruct (N.eqb_spec (Product.UserID p) userID) as [Ho|Ho];
    simpl; [|reflexivity].
  destruct (Hforeign p eq_refl Ho).
Qed.

(** C5 (as amended) — for a product id that is missing or belongs to
    another user, and with no cached copy under the caller's own key,
    get-one answers 404 while update and delete answer 400, whatever the
    request body: each handler maps every service error to its single
    failure status, so a missing product and someone else's product get
    the same status. *)
Theorem not_owned_product_status
    (idStr : string) (id userID : UUID) (body : result UpdateProductRequest.t) (w : World) :
  ProductHandler.validateUUID idStr = Ok id →
  (∀ p, products w !! id = Some p → Product.UserID p ≠ userID) →
  (∀ c, lookup_live w ("product:" +:+ uuid_String userID +:+ ":" +:+ uuid_String id)
        ≠ Some (VProduct c)) →
  status (ProductHandler.GetByID idStr userID w) = http.StatusNotFound
  ∧ status (ProductHandler.Update idStr body userID w) = http.StatusBadRequest
  ∧ status (ProductHandler.Delete idStr userID w) = http.StatusBadRequest.
Proof.
  intros Hid Hforeign Hcache. unfold status. repeat split.
  - unfold ProductHandler.GetByID. rewrite Hid. unfold_monad.
    pose proof (GetByID_not_owned id userID w Hforeign Hcache) as Hget.
    destruct (ProductService.GetByID id userID w) as [[p|e] w']; simpl in *;
      [discriminate|reflexivity].
  - unfold ProductHandler.Update. rewrite Hid.
    destruct body as [req|e]; [|reflexivity].
    destruct (ProductHandler.validateUpdate req) as [resp|req'] eqn:Hval.
    { simpl. exact (validateUpdate_rejects_with_400 req resp Hval). }
    unfold_monad.
    pose proof (Update_not_owned (ProductHandler.productOfRequest id req') userID w Hforeign)
      as Hupd.
    destruct (ProductService.Update _ userID w) as [[err|] w']; simpl in *;
      [reflexivity|contradiction].
  - unfold ProductHandler.Delete. rewrite Hid. unfold_monad.
    pose proof (Delete_not_owned id userID w Hforeign) as Hdel.
    destruct (ProductService.Delete id userID w) as [[err|] w']; simpl in *;
      [reflexivity|contradiction].
Qed.
End ForeignProduct.

Section ForeignProductRun.
#[local] Existing Instances fx.uuidlib fx.validators.

Lemma not_owned_product_status_witness :
  let w := fx.world fx.productB 5 in
  let body := Ok (UpdateProductRequest.mk None None None (Some 3)) in
  status (ProductHandler.GetByID fx.uuidP 1%N w) = http.StatusNotFound
  ∧ status (ProductHandler.Update fx.uuidP body 1%N w) = http.StatusBadRequest
  ∧ status (ProductHandler.Delete fx.uuidP 1%N w) = http.StatusBadRequest.
Proof.
  apply (not_owned_product_status fx.uuidP 3%N 1%N
           (Ok (UpdateProductRequest.mk None None None (Some 3)))
           (fx.world fx.productB 5)).
  - reflexivity.
  - intros p Hp. vm_compute in Hp. injection Hp as <-. vm_compute. discriminate.
  - intros c. vm_compute. discriminate.
Defined.

(** C5 (as stated) fails for update and delete: user A addresses a
    product that exists and belongs to user B, and both handlers answer
    400, not 404. *)
Lemma update_delete_not_owned_answer_400 :
  let w := fx.world fx.productB 5 in
  let body := Ok (UpdateProductRequest.mk None None None (Some 3)) in
  products w !! 3%N = Some fx.productB
  ∧ Product.UserID fx.productB = 2%N
  ∧ ProductHandler.Update fx.uuidP body 1%N w
    = (errorJSON 400 "Update Failed" "unauthorized access to product", dbtick w)
  ∧ ProductHandler.Delete fx.uuidP 1%N w
    = (errorJSON 400 "Deletion Failed" "unauthorized access to product", dbtick w)
  ∧ status (ProductHandler.Update fx.uuidP body 1%N w) ≠ http.StatusNotFound
  ∧ status (ProductHandler.Delete fx.uuidP 1%N w) ≠ http.StatusNotFound.
Proof. vm_compute. repeat split; discriminate. Qed.
End ForeignProductRun.

(** ** The gatekeeper: token verification *)

Section TokenStage.
Context `{UUIDLib} `{JWTLib}.

(** [jwt.Parse] with the repository's key function never touches the
    world, and succeeds exactly on a well-signed HMAC token whose time
    claims are in range. *)
Lemma Parse_run (jwtSecret tokenString : string) (w : World) :
  ∃ r, jwt.Parse tokenString (keyFunc jwtSecret) w = (r, w)
    ∧ match jwt_ParseUnverified tokenString with
      | Some (SigningMethodHMAC alg, claims) =>
          if jwt_Verify (SigningMethodHMAC alg) tokenString jwtSecret
          then if bool_decide (jwt.Validate claims (clock w) = None)
               then r = Ok (Token.mk tokenString (SigningMethodHMAC alg) claims true)
               else is_Ok r = false
          else is_Ok r = false
      | _ => is_Ok r = false
      end.
Proof.
  unfold jwt.Parse, keyFunc. unfold_monad.
  destruct (jwt_ParseUnverified tokenString) as [[[alg| | | | |] claims]|]; simpl;
    try (eexists; split; [reflexivity|reflexivity]).
  destruct (jwt_Verify (SigningMethodHMAC alg) tokenString jwtSecret); simpl;
    [|eexists; split; reflexivity].
  destruct (jwt.Validate claims (clock w)) as [e|]; simpl;
    eexists; split; reflexivity.
Qed.

(** Token verification in the middleware: on failure a 401 with an
    [InvalidToken] message and an untouched world, on success the
    remaining checks. *)
Lemma AuthMiddleware_token_stage (jwtSecret authHeader tokenString : string) (w : World) :
  bearer authHeader = Some tokenString →
  match verified jwtSecret tokenString (clock w) with
  | Some (userID, sessionID) =>
      AuthMiddleware jwtSecret authHeader w
      = session_and_blacklist_checks userID sessionID tokenString w
  | None =>
      ∃ message, AuthMiddleware jwtSecret authHeader w = (unauthorized message, w)
                 ∧ reason_of message = Some InvalidToken
  end.
Proof.
  unfold bearer, AuthMiddleware.
  destruct (String.eqb authHeader ""); [discriminate|].
  destruct (strings.HasPrefix authHeader "Bearer "); [|discriminate].
  intros [= <-]. cbn [negb].
  set (tokenString := strings.TrimPrefix authHeader "Bearer ").
  unfold verified, verified_claims, accepted_claims. unfold_monad.
  destruct (Parse_run jwtSecret tokenString w) as (r & -> & Hr).
  destruct (jwt_ParseUnverified tokenString) as [[[alg| | | | |] claims]|];
    try (destruct r; [discriminate|]; eexists; split; reflexivity).
  destruct (jwt_Verify (SigningMethodHMAC alg) tokenString jwtSecret);
    [|destruct r; [discriminate|]; eexists; split; reflexivity].
  destruct (bool_decide (jwt.Validate claims (clock w) = None));
    [|destruct r; [discriminate|]; eexists; split; reflexivity].
  subst r. simpl.
  destruct (claim_string claims "user_id") as [userIDStr|];
    [|eexists; split; reflexivity].
  destruct (claim_string claims "session_id") as [sessionID|];
    [|eexists; split; reflexivity].
  destruct (uuid_Parse userIDStr) as [userID|];
    [|eexists; split; reflexivity].
  reflexivity.
Qed.

(** The same verification at the head of [RefreshToken]. *)
Lemma RefreshToken_token_stage (jwtSecret refreshToken : string) (w : World) :
  match verified_claims jwtSecret refreshToken (clock w) with
  | Some (userIDStr, sessionID) =>
      UserService.RefreshToken jwtSecret refreshToken w
      = refresh_with_claims jwtSecret userIDStr sessionID w
  | None =>
      ∃ message, UserService.RefreshToken jwtSecret refreshToken w = (Err message, w)
                 ∧ existsb (String.eqb message)
                     ["invalid refresh token"; "invalid user ID in token";
                      "invalid session ID in token"] = true
  end.
Proof.
  unfold UserService.RefreshToken, verified_claims, accepted_claims. unfold_monad.
  destruct (Parse_run jwtSecret refreshToken w) as (r & -> & Hr).
  destruct (jwt_ParseUnverified refreshToken) as [[[alg| | | | |] claims]|];
    try (destruct r; [discriminate|]; eexists; split; reflexivity).
  destruct (jwt_Verify (SigningMethodHMAC alg) refreshToken jwtSecret);
    [|destruct r; [discriminate|]; eexists; split; reflexivity].
  destruct (bool_decide (jwt.Validate claims (clock w) = None));
    [|destruct r; [discriminate|]; eexists; split; reflexivity].
  subst r. simpl.
  destruct (claim_string claims "user_id") as [userIDStr|];
    [|eexists; split; reflexivity].
  destruct (claim_string claims "session_id") as [sessionID|];
    [|eexists; split; reflexivity].
  reflexivity.
Qed.
End TokenStage.

(** ** The session stage *)

Lemma DeleteSession_trace (sessionID : string) (w : World) :
  ∃ cmds, trace (snd (SessionService.DeleteSession sessionID w)) = (trace w ++ cmds)%list
          ∧ no_lookup cmds = true.
Proof.
  unfold SessionService.DeleteSession. unfold_monad.
  rewrite CacheService_Get_run.
  set (key := "session:" +:+ sessionID).
  destruct (if faulty w then _ else _) as [s|e].
  - rewrite CacheService_Delete_run. rewrite CacheService_Delete_run. simpl.
    eexists [_; _; _]. rewrite <- !app_assoc. split; reflexivity.
  - unfold_monad. rewrite CacheService_Delete_run. simpl.
    eexists [_; _]. rewrite <- !app_assoc. split; reflexivity.
Qed.

Section SessionStage.
Context `{UUIDLib} `{JWTLib}.

Lemma IsSessionValid_run (sessionID : string) (w : World) :
  let valid := negb (faulty w) && session_valid w sessionID in
  ∃ w', SessionService.IsSessionValid sessionID w = (Ok valid, w')
        ∧ (valid = true → w' = tick (GET ("session:" +:+ sessionID)) w)
        ∧ ∃ cmds, trace w' = (trace w ++ cmds)%list ∧ no_lookup cmds = true.
Proof.
  unfold SessionService.IsSessionValid, SessionService.GetSession, session_valid.
  unfold_monad. rewrite CacheService_Get_run.
  set (key := "session:" +:+ sessionID).
  destruct (faulty w); simpl.
  { eexists. split; [reflexivity|]. split; [discriminate|].
    exists [GET key]. split; reflexivity. }
  destruct (lookup_live w key) as [[s| | | |]|]; simpl;
    try (eexists; split; [reflexivity|]; split; [discriminate|];
         exists [GET key]; split; reflexivity).
  unfold time.After, time.Before.
  destruct (Z.ltb_spec (Session.ExpiresAt s) (clock w)) as [Hexp|Hexp].
  - destruct (DeleteSession_trace sessionID (tick (GET key) w)) as (cmds & Htr & Hno).
    destruct (SessionService.DeleteSession sessionID (tick (GET key) w)) as [e w'].
    simpl in *.
    assert (Hnot : (clock w <? Session.ExpiresAt s) = false) by (apply Z.ltb_ge; lia).
    rewrite Hnot, andb_false_r.
    eexists. split; [reflexivity|]. split; [discriminate|].
    exists (GET key :: cmds). rewrite Htr, <- app_assoc. split; [reflexivity|exact Hno].
  - simpl. eexists. split; [reflexivity|]. split; [reflexivity|].
    exists [GET key]. split; reflexivity.
Qed.

Lemma IsUserSessionBlacklisted_run (userID : UUID) (sessionID : string) (w : World) :
  UserService.IsUserSessionBlacklisted userID sessionID w =
    (if faulty w
     then Err (fmt_Errorf "failed to check user session blacklist"
                 (fmt_Errorf "failed to check key existence" redis_Down))
     else Ok (pair_blacklisted w userID sessionID),
     tick (EXISTS ("user_blacklist:" +:+ uuid_String userID +:+ ":" +:+ sessionID)) w).
Proof.
  unfold UserService.IsUserSessionBlacklisted, pair_blacklisted. unfold_monad.
  rewrite CacheService_Exists_run. destruct (faulty w); reflexivity.
Qed.

Lemma fault_at_0 (w : World) : fault_at 0 w = faulty w.
Proof. unfold fault_at, faulty. destruct (faults w); reflexivity. Qed.

Lemma fault_at_1 (c : RedisCmd) (w : World) : faulty (tick c w) = fault_at 1 w.
Proof. unfold fault_at, faulty. simpl. destruct (faults w) as [|? [|? ?]]; reflexivity. Qed.

Lemma fault_at_2 (c c' : RedisCmd) (w : World) :
  faulty (tick c' (tick c w)) = fault_at 2 w.
Proof.
  unfold fault_at, faulty. simpl. destruct (faults w) as [|? [|? [|? ?]]]; reflexivity.
Qed.

(** The three store checks, in order, against the spec's predicates. *)
Lemma session_and_blacklist_checks_run
    (userID : UUID) (sessionID tokenString : string) (w : World) :
  let out := session_and_blacklist_checks userID sessionID tokenString w in
  let w1 := tick (GET ("session:" +:+ sessionID)) w in
  let w2 := tick (EXISTS ("blacklist:" +:+ UserService.hashToken tokenString)) w1 in
  let w3 := tick (EXISTS ("user_blacklist:" +:+ uuid_String userID +:+ ":" +:+ sessionID)) w2 in
  if fault_at 0 w || negb (session_valid w sessionID) then
    fst out = unauthorized "Session expired or invalid"
    ∧ ∃ cmds, trace (snd out) = (trace w ++ cmds)%list ∧ no_lookup cmds = true
  else if fault_at 1 w || token_blacklisted w tokenString then
    out = (unauthorized "Token has been invalidated", w2)
  else if fault_at 2 w || pair_blacklisted w userID sessionID then
    out = (unauthorized "Session has been invalidated by logout all", w3)
  else
    out = (Next (<["token" := CtxString tokenString]>
                (<["session_id" := CtxString sessionID]>
                (<["user_id" := CtxUUID userID]> ∅))), w3).
Proof.
  intros out w1 w2 w3. subst out.
  unfold session_and_blacklist_checks, UserService.ValidateSession. unfold_monad.
  destruct (IsSessionValid_run sessionID w) as (w' & -> & Hw' & cmds & Htr & Hno).
  rewrite fault_at_0.
  destruct (faulty w) eqn:Hf0; simpl.
  { split; [reflexivity|]. exists cmds. split; assumption. }
  destruct (session_valid w sessionID) eqn:Hsv; simpl;
    [|split; [reflexivity|]; exists cmds; split; assumption].
  rewrite Hw' by reflexivity. fold w1.
  assert (H1 : faulty w1 = fault_at 1 w) by apply fault_at_1.
  assert (H2 : faulty w2 = fault_at 2 w) by apply fault_at_2.
  rewrite IsTokenBlacklisted_run. fold w2. rewrite H1.
  destruct (fault_at 1 w); simpl; [reflexivity|].
  change (bool_decide (is_Some (lookup_live w1
            ("blacklist:" +:+ UserService.hashToken tokenString))))
    with (token_blacklisted w tokenString).
  destruct (token_blacklisted w tokenString); simpl; [reflexivity|].
  rewrite IsUserSessionBlacklisted_run. fold w3. rewrite H2.
  destruct (fault_at 2 w); simpl; [reflexivity|].
  change (pair_blacklisted w2 userID sessionID) with (pair_blacklisted w userID sessionID).
  destruct (pair_blacklisted w userID sessionID); reflexivity.
Qed.
End SessionStage.

Section GatekeeperOrder.
Context `{UUIDLib} `{JWTLib}.

Lemma AuthMiddleware_header_stage (jwtSecret authHeader : string) (w : World) :
  bearer authHeader = None →
  ∃ message, AuthMiddleware jwtSecret authHeader w = (unauthorized message, w)
             ∧ reason_of message = Some MissingCredentials.
Proof.
  unfold bearer, AuthMiddleware.
  destruct (String.eqb authHeader ""); [intros _; eexists; split; reflexivity|].
  destruct (strings.HasPrefix authHeader "Bearer "); [discriminate|].
  intros _. eexists. split; reflexivity.
Qed.

Lemma verdict_of_unauthorized (message : string) :
  verdict_of (unauthorized message) = Denied <$> reason_of message.
Proof. reflexivity. Qed.

(** C1 — the gatekeeper's checks run in the design's order.  For every
    request and every world, the middleware's answer is the verdict of
    the first failing check among: bearer header, token verification,
    session validity, token blacklist, user-session blacklist — always
    as a 401 whose message belongs to that check alone — and on success
    the context holds the user id, the session id and the raw token.
    The order shows in the Redis traffic: nothing is sent before the
    token has been verified, no blacklist lookup is sent when the
    session check fails, and the user-session lookup comes last. *)
Theorem AuthMiddleware_checks_in_order (jwtSecret authHeader : string) (w : World) :
  let out := AuthMiddleware jwtSecret authHeader w in
  verdict_of (fst out) = Some (Gatekeeper jwtSecret authHeader w)
  ∧ match Gatekeeper jwtSecret authHeader w with
    | Denied MissingCredentials | Denied InvalidToken => snd out = w
    | Denied SessionInvalid =>
        ∃ cmds, trace (snd out) = (trace w ++ cmds)%list ∧ no_lookup cmds = true
    | Denied TokenRevoked =>
        ∃ sessionID tokenString,
          trace (snd out) =
            (trace w ++ [GET ("session:" +:+ sessionID);
                         EXISTS ("blacklist:" +:+ UserService.hashToken tokenString)])%list
    | Denied SessionRevokedByLogoutAll =>
        ∃ userID sessionID tokenString,
          trace (snd out) =
            (trace w ++ [GET ("session:" +:+ sessionID);
                         EXISTS ("blacklist:" +:+ UserService.hashToken tokenString);
                         EXISTS ("user_blacklist:" +:+ uuid_String userID
                                 +:+ ":" +:+ sessionID)])%list
    | Granted userID sessionID tokenString =>
        bearer authHeader = Some tokenString
        ∧ verified jwtSecret tokenString (clock w) = Some (userID, sessionID)
        ∧ redis (snd out) = redis w
        ∧ trace (snd out) =
            (trace w ++ [GET ("session:" +:+ sessionID);
                         EXISTS ("blacklist:" +:+ UserService.hashToken tokenString);
                         EXISTS ("user_blacklist:" +:+ uuid_String userID
                                 +:+ ":" +:+ sessionID)])%list
    end
  ∧ (∀ o1 o2 r1 r2,
       verdict_of o1 = Some (Denied r1) → verdict_of o2 = Some (Denied r2) →
       r1 ≠ r2 → o1 ≠ o2).
Proof.
  intros out. subst out. split; [|split].
  - unfold Gatekeeper. destruct (bearer authHeader) as [tokenString|] eqn:Hb.
    + pose proof (AuthMiddleware_token_stage jwtSecret authHeader tokenString w Hb) as Htok.
      destruct (verified jwtSecret tokenString (clock w)) as [[userID sessionID]|].
      * rewrite Htok.
        pose proof (session_and_blacklist_checks_run userID sessionID tokenString w) as Hrun.
        cbv zeta in Hrun.
        destruct (fault_at 0 w || negb (session_valid w sessionID));
          [destruct Hrun as [-> _]; reflexivity|].
        destruct (fault_at 1 w || token_blacklisted w tokenString);
          [rewrite Hrun; reflexivity|].
        destruct (fault_at 2 w || pair_blacklisted w userID sessionID);
          rewrite Hrun; reflexivity.
      * destruct Htok as (message & -> & Hr). simpl fst.
        rewrite verdict_of_unauthorized, Hr. reflexivity.
    + destruct (AuthMiddleware_header_stage jwtSecret authHeader w Hb) as (message & -> & Hr).
      simpl fst. rewrite verdict_of_unauthorized, Hr. reflexivity.
  - unfold Gatekeeper. destruct (bearer authHeader) as [tokenString|] eqn:Hb.
    + pose proof (AuthMiddleware_token_stage jwtSecret authHeader tokenString w Hb) as Htok.
      destruct (verified jwtSecret tokenString (clock w)) as [[userID sessionID]|] eqn:Hv.
      * rewrite Htok.
        pose proof (session_and_blacklist_checks_run userID sessionID tokenString w) as Hrun.
        cbv zeta in Hrun.
        destruct (fault_at 0 w || negb (session_valid w sessionID));
          [destruct Hrun as [_ Hcmds]; exact Hcmds|].
        destruct (fault_at 1 w || token_blacklisted w tokenString).
        { rewrite Hrun. exists sessionID, tokenString. simpl.
          rewrite <- app_assoc. reflexivity. }
        destruct (fault_at 2 w || pair_blacklisted w userID sessionID); rewrite Hrun.
        { exists userID, sessionID, tokenString. simpl.
          rewrite <- !app_assoc. reflexivity. }
        split; [reflexivity|]. split; [exact Hv|]. split; [reflexivity|].
        simpl. rewrite <- !app_assoc. reflexivity.
      * destruct Htok as (message & -> & _). reflexivity.
    + destruct (AuthMiddleware_header_stage jwtSecret authHeader w Hb) as (message & -> & _).
      reflexivity.
  - intros o1 o2 r1 r2 H1 H2 Hne Heq. subst o2. rewrite H1 in H2.
    injection H2 as ->. contradiction.
Qed.
End GatekeeperOrder.

Section GatekeeperRun.
#[local] Existing Instances fx.uuidlib fx.jwtlib.

(** One request per verdict. *)
Example Gatekeeper_runs :
  let w := fx.world fx.productB (5 * time.Second) in
  let out h := verdict_of (fst (AuthMiddleware fx.secret h w)) in
  out "" = Some (Denied MissingCredentials)
  ∧ out "Basic dXNlcg==" = Some (Denied MissingCredentials)
  ∧ out "Bearer rs256.s1" = Some (Denied InvalidToken)
  ∧ out "Bearer forged.s1" = Some (Denied InvalidToken)
  ∧ out "Bearer access.s1" = Some (Granted 1%N "s1" "access.s1")
  ∧ verdict_of (fst (AuthMiddleware fx.secret "Bearer access.s1"
                       (snd (UserService.Logout "s1" w))))
    = Some (Denied SessionInvalid)
  ∧ verdict_of (fst (AuthMiddleware fx.secret "Bearer access.s1"
                       (snd (UserService.BlacklistToken "access.s1" w))))
    = Some (Denied TokenRevoked)
  ∧ verdict_of (fst (AuthMiddleware fx.secret "Bearer access.s1"
                       (snd (UserService.BlacklistAllUserSessions 1%N w))))
    = Some (Denied SessionRevokedByLogoutAll).
Proof. vm_compute. repeat split; reflexivity. Qed.
End GatekeeperRun.

(** ** What token verification checks *)

Lemma Validate_expired (claims : MapClaims) (e : Z) (now : Time) :
  claims !! "exp" = Some (JNumber e) → e ≠ 0 → time.FromUnix e ≤ now →
  jwt.Validate claims now = Some "token is expired".
Proof.
  intros Hexp Hne Hle. unfold jwt.Validate, jwt.parseNumericDate. rewrite Hexp.
  destruct (Z.eqb_spec e 0); [contradiction|].
  unfold time.Before. destruct (Z.ltb_spec now (time.FromUnix e)); [lia|reflexivity].
Qed.

Lemma accepted_claims_other_key (claims : MapClaims) (now : Time) (k : string) (v : JSON) :
  k ≠ "exp" → k ≠ "nbf" → k ≠ "user_id" → k ≠ "session_id" →
  accepted_claims (<[k := v]> claims) now = accepted_claims claims now
  ∧ accepted_claims (delete k claims) now = accepted_claims claims now.
Proof.
  intros H1 H2 H3 H4.
  unfold accepted_claims, jwt.Validate, jwt.parseNumericDate, claim_string.
  rewrite !lookup_insert_ne, !lookup_delete_ne by done. split; reflexivity.
Qed.

Section Verification.
Context `{UUIDLib} `{JWTLib}.

Lemma verified_claims_spec (jwtSecret tokenString : string) (now : Time) (u s : string) :
  verified_claims jwtSecret tokenString now = Some (u, s) ↔
  ∃ alg claims,
    jwt_ParseUnverified tokenString = Some (SigningMethodHMAC alg, claims)
    ∧ jwt_Verify (SigningMethodHMAC alg) tokenString jwtSecret = true
    ∧ jwt.Validate claims now = None
    ∧ claims !! "user_id" = Some (JString u)
    ∧ claims !! "session_id" = Some (JString s).
Proof.
  unfold verified_claims, accepted_claims, claim_string. split.
  - destruct (jwt_ParseUnverified tokenString) as [[[alg| | | | |] claims]|];
      try discriminate.
    destruct (jwt_Verify (SigningMethodHMAC alg) tokenString jwtSecret) eqn:Hsig;
      [|discriminate].
    case_bool_decide as Hval; [|discriminate].
    destruct (claims !! "user_id") as [[| | |u'|]|] eqn:Hu; try discriminate.
    destruct (claims !! "session_id") as [[| | |s'|]|] eqn:Hs; try discriminate.
    intros [= <- <-]. exists alg, claims. repeat split; assumption.
  - intros (alg & claims & -> & -> & Hval & -> & ->).
    rewrite bool_decide_eq_true_2 by exact Hval. reflexivity.
Qed.

(** What verification checks.  A token is accepted
    exactly when it decodes, its algorithm is of the HMAC family, its
    signature verifies, its time claims are in range, and [user_id] and
    [session_id] are present as strings (the middleware also needs
    [user_id] to parse as a UUID); a token whose non-zero [exp] has
    passed is rejected; both the middleware and [RefreshToken] reject
    on this check before touching the world; and no other claim —
    [email] and [type] included — is looked at. *)
Theorem token_verification_checks (jwtSecret tokenString : string) (now : Time) :
  (∀ u s,
     verified_claims jwtSecret tokenString now = Some (u, s) ↔
     ∃ alg claims,
       jwt_ParseUnverified tokenString = Some (SigningMethodHMAC alg, claims)
       ∧ jwt_Verify (SigningMethodHMAC alg) tokenString jwtSecret = true
       ∧ jwt.Validate claims now = None
       ∧ claims !! "user_id" = Some (JString u)
       ∧ claims !! "session_id" = Some (JString s))
  ∧ (∀ (claims : MapClaims) e,
       claims !! "exp" = Some (JNumber e) → e ≠ 0 → time.FromUnix e ≤ now →
       jwt.Validate claims now ≠ None)
  ∧ (∀ authHeader w,
       clock w = now → bearer authHeader = Some tokenString →
       match verified jwtSecret tokenString now with
       | Some (userID, sessionID) =>
           AuthMiddleware jwtSecret authHeader w
           = session_and_blacklist_checks userID sessionID tokenString w
       | None =>
           ∃ message, AuthMiddleware jwtSecret authHeader w = (unauthorized message, w)
                      ∧ reason_of message = Some InvalidToken
       end)
  ∧ (∀ w,
       clock w = now →
       match verified_claims jwtSecret tokenString now with
       | Some (userIDStr, sessionID) =>
           UserService.RefreshToken jwtSecret tokenString w
           = refresh_with_claims jwtSecret userIDStr sessionID w
       | None =>
           ∃ message, UserService.RefreshToken jwtSecret tokenString w = (Err message, w)
                      ∧ existsb (String.eqb message)
                          ["invalid refresh token"; "invalid user ID in token";
                           "invalid session ID in token"] = true
       end)
  ∧ (∀ (claims : MapClaims) k v,
       k ≠ "exp" → k ≠ "nbf" → k ≠ "user_id" → k ≠ "session_id" →
       accepted_claims (<[k := v]> claims) now = accepted_claims claims now
       ∧ accepted_claims (delete k claims) now = accepted_claims claims now).
Proof.
  split; [|split; [|split; [|split]]].
  - intros u s. apply verified_claims_spec.
  - intros claims e Hexp Hne Hle. rewrite (Validate_expired claims e now Hexp Hne Hle).
    discriminate.
  - intros authHeader w <- Hb. exact (AuthMiddleware_token_stage _ _ _ w Hb).
  - intros w <-. exact (RefreshToken_token_stage jwtSecret tokenString w).
  - intros claims k v. apply accepted_claims_other_key.
Qed.
End Verification.

Section VerificationRun.
#[local] Existing Instances fx.uuidlib fx.jwtlib.

(** A well-signed HS256 token that carries only [user_id] and
    [session_id] — no [type], no [email], no [exp] — passes the
    middleware and is accepted by [RefreshToken]. *)
Lemma untyped_token_is_accepted :
  let w := fx.world fx.productB (5 * time.Second) in
  jwt_ParseUnverified "bare.s1" = Some (SigningMethodHS256, fx.bareClaims)
  ∧ fx.bareClaims !! "type" = None
  ∧ fx.bareClaims !! "email" = None
  ∧ fx.bareClaims !! "exp" = None
  ∧ verdict_of (fst (AuthMiddleware fx.secret "Bearer bare.s1" w))
    = Some (Granted 1%N "s1" "bare.s1")
  ∧ is_Ok (fst (UserService.RefreshToken fx.secret "bare.s1" w)) = true.
Proof. vm_compute. repeat split; reflexivity. Qed.

(** An access token is accepted where a refresh token is expected. *)
Example access_token_refreshes :
  is_Ok (fst (UserService.RefreshToken fx.secret "access.s1"
                (fx.world fx.productB (5 * time.Second)))) = true.
Proof. vm_compute. reflexivity. Qed.
End VerificationRun.

(** ** The token type *)

Section TokenType.
Context `{UUIDLib} `{JWTLib}.

(** C3 — the [type] claim is minted but never checked.  The issuer
    writes [type = "access"] into access tokens and [type = "refresh"]
    into refresh tokens, and verification is required to reject a
    token whose type is absent or wrong.  The code does not: a token
    that passes the checks it does make (HMAC algorithm, signature,
    time claims, [user_id] and [session_id] as strings, a parsable user
    id) is handed by [AuthMiddleware] to the session and blacklist
    checks — and granted when they pass — although its type is not
    ["access"], and is handed by [RefreshToken] to the session check
    although its type is not ["refresh"].  A refresh token therefore
    opens the protected routes for its seven days. *)
Theorem token_type_is_not_checked
    (jwtSecret authHeader tokenString alg u s : string) (claims : MapClaims)
    (userID : UUID) (w : World) :
  bearer authHeader = Some tokenString →
  jwt_ParseUnverified tokenString = Some (SigningMethodHMAC alg, claims) →
  jwt_Verify (SigningMethodHMAC alg) tokenString jwtSecret = true →
  jwt.Validate claims (clock w) = None →
  claims !! "user_id" = Some (JString u) →
  claims !! "session_id" = Some (JString s) →
  uuid_Parse u = Some userID →
  (claims !! "type" ≠ Some (JString "access") →
     AuthMiddleware jwtSecret authHeader w
     = session_and_blacklist_checks userID s tokenString w
     ∧ (faults w = [] → session_valid w s = true →
        token_blacklisted w tokenString = false →
        pair_blacklisted w userID s = false →
        verdict_of (fst (AuthMiddleware jwtSecret authHeader w))
        = Some (Granted userID s tokenString)))
  ∧ (claims !! "type" ≠ Some (JString "refresh") →
     UserService.RefreshToken jwtSecret tokenString w
     = refresh_with_claims jwtSecret u s w).
Proof.
  intros Hb Hparse Hsig Hval Hu Hs Hid.
  assert (Hvc : verified_claims jwtSecret tokenString (clock w) = Some (u, s)).
  { apply verified_claims_spec. exists alg, claims.
    exact (conj Hparse (conj Hsig (conj Hval (conj Hu Hs)))). }
  assert (Hv : verified jwtSecret tokenString (clock w) = Some (userID, s))
    by (unfold verified; rewrite Hvc, Hid; reflexivity).
  pose proof (AuthMiddleware_token_stage jwtSecret authHeader tokenString w Hb) as Hmw.
  rewrite Hv in Hmw.
  pose proof (RefreshToken_token_stage jwtSecret tokenString w) as Hrt.
  rewrite Hvc in Hrt.
  refine (conj _ _).
  - intros _. refine (conj Hmw _). intros Hf Hsv Htb Hpb. rewrite Hmw.
    pose proof (session_and_blacklist_checks_run userID s tokenString w) as Hrun.
    cbv zeta in Hrun.
    assert (Hfa : ∀ n, fault_at n w = false)
      by (intros n; unfold fault_at; rewrite Hf; destruct n; reflexivity).
    rewrite !Hfa, Hsv, Htb, Hpb in Hrun. cbn [orb negb] in Hrun.
    rewrite Hrun. reflexivity.
  - intros _. exact Hrt.
Qed.
End TokenType.

Section TokenTypeRun.
#[local] Existing Instances fx.uuidlib fx.jwtlib.

(** Two hours after login the access token has expired; the refresh
    token of the same login, sent as a bearer token, is let in. *)
Lemma token_type_is_not_checked_witness :
  let w := fx.world fx.productB (2 * time.Hour) in
  UserService.refreshClaims fx.userA "s1" 0 !! "type" = Some (JString "refresh")
  ∧ verdict_of (fst (AuthMiddleware fx.secret "Bearer access.s1" w))
    = Some (Denied InvalidToken)
  ∧ verdict_of (fst (AuthMiddleware fx.secret "Bearer refresh.s1" w))
    = Some (Granted 1%N "s1" "refresh.s1").
Proof.
  split; [vm_compute; reflexivity|]. split; [vm_compute; reflexivity|].
  refine (proj2 (proj1 (token_type_is_not_checked fx.secret "Bearer refresh.s1"
                          "refresh.s1" "HS256" fx.uuidA "s1"
                          (UserService.refreshClaims fx.userA "s1" 0) 1%N
                          (fx.world fx.productB (2 * time.Hour))
                          _ _ _ _ _ _ _) _) _ _ _ _);
    vm_compute; first [reflexivity | discriminate].
Defined.
End TokenTypeRun.

(** ** Cache keys of product queries *)




Section CacheKeys.
Context `{UUIDLib} `{JSONLib} `{StrconvLib}.


End CacheKeys.

Section CacheKeysRun.
#[local] Existing Instances fx.uuidlib fx.jsonlib fx.strconvlib.


(** The key of a filtered query as Redis sees it. *)
Example filtered_query_key :
  generateQueryCacheKey 1%N
    (GetProductsWithFilters_query [("min_price", "20"); ("max_price", "100")])
  = "user_products_filtered:11111111-1111-4111-8111-111111111111:"
    +:+ json.object
          [ json.field "filter"
              (json.object
                 [ json.field "name" "null"; json.field "min_price" "20";
                   json.field "max_price" "100"; json.field "min_stock" "null";
                   json.field "max_stock" "null"; json.field "created_from" "null";
                   json.field "created_to" "null"; json.field "updated_from" "null";
                   json.field "updated_to" "null" ]);
            json.field "sort" "[]";
            json.field "pagination"
              (json.object [ json.field "page" "1"; json.field "page_size" "20" ]) ].
Proof. vm_compute. reflexivity. Qed.
End CacheKeysRun.

(** * Part III: further properties of the services *)

(** ** Session life cycle *)

Lemma session_key_inj (a b : string) : "session:" +:+ a = "session:" +:+ b → a = b.
Proof. apply String.app_inj. Qed.

Lemma session_key_not_index (a b : string) : "session:" +:+ a ≠ "user_sessions:" +:+ b.
Proof. simpl. discriminate. Qed.

Lemma positive_ttl (d : Duration) : 0 < d → (d =? 0) = false.
Proof. intros Hd. apply Z.eqb_neq. lia. Qed.

(** [CreateSession] with Redis reachable: two writes, the record under
    its own key and the id under the user's index key. *)
Lemma CreateSession_reachable
    (sessionID userID email ipAddress userAgent : string) (duration : Duration) (w : World) :
  faults w = [] → 0 < duration →
  let session :=
    Session.mk sessionID userID email (clock w) (clock w + duration)
               ipAddress userAgent true in
  let expiry := Some (clock w + duration) in
  SessionService.CreateSession sessionID userID email ipAddress userAgent duration w =
    (Ok session,
     mkWorld
       (<[("user_sessions:" +:+ userID) := mkEntry (VString sessionID) expiry]>
          (<[("session:" +:+ sessionID) := mkEntry (VSession session) expiry]> (redis w)))
       (products w) (users w) (clock w) [] (dbfaults w)
       (trace w ++ [SET ("session:" +:+ sessionID); SET ("user_sessions:" +:+ userID)])).
Proof.
  intros Hf Hd session expiry. unfold SessionService.CreateSession. unfold_monad.
  rewrite CacheService_Set_run, (faulty_nil w Hf). cbv beta iota.
  rewrite CacheService_Set_run.
  match goal with |- context [faulty ?x] =>
    replace (faulty x) with false by (unfold faulty; simpl; rewrite Hf; reflexivity) end.
  rewrite (positive_ttl duration Hd). unfold time.Add, with_redis, tick. simpl.
  rewrite Hf, <- app_assoc. reflexivity.
Qed.

(** X1 — a created session is valid until it expires.  With Redis
    reachable and a positive duration, [CreateSession] returns the
    record it stored; from then until [duration] has passed, as long as
    the key is left alone, [GetSession] returns that record and
    [IsSessionValid] answers true; from [created + duration] on,
    [IsSessionValid] answers false. *)
Theorem CreateSession_then_valid
    (sessionID userID email ipAddress userAgent : string) (duration : Duration)
    (w w2 : World) :
  faults w = [] → 0 < duration →
  faulty w2 = false →
  redis w2 !! ("session:" +:+ sessionID)
  = redis (snd (SessionService.CreateSession sessionID userID email ipAddress
                  userAgent duration w)) !! ("session:" +:+ sessionID) →
  clock w ≤ clock w2 →
  let session :=
    Session.mk sessionID userID email (clock w) (clock w + duration)
               ipAddress userAgent true in
  fst (SessionService.CreateSession sessionID userID email ipAddress userAgent duration w)
  = Ok session
  ∧ (clock w2 < clock w + duration →
     fst (SessionService.GetSession sessionID w2) = Ok session
     ∧ fst (SessionService.IsSessionValid sessionID w2) = Ok true)
  ∧ (clock w + duration ≤ clock w2 →
     fst (SessionService.IsSessionValid sessionID w2) = Ok false).
Proof.
  intros Hf Hd Hf2 Hkey Hle session.
  rewrite (CreateSession_reachable _ _ _ _ _ _ w Hf Hd) in Hkey |- *.
  simpl in Hkey. fold session in Hkey.
  rewrite lookup_insert_ne in Hkey by (apply not_eq_sym, session_key_not_index).
  rewrite lookup_insert_eq in Hkey.
  split; [reflexivity|].
  destruct (IsSessionValid_run sessionID w2) as (w' & Hrun & _).
  cbv zeta in Hrun. rewrite Hrun, Hf2. simpl.
  unfold session_valid, lookup_live. rewrite Hkey. unfold live. simpl.
  split.
  - intros Hlt.
    assert (Hlive : (clock w2 <? clock w + duration) = true) by (apply Z.ltb_lt; lia).
    rewrite Hlive. split; [|subst session; simpl; rewrite Hlive; reflexivity].
    unfold SessionService.GetSession. unfold_monad.
    rewrite CacheService_Get_run, Hf2. unfold lookup_live. rewrite Hkey.
    unfold live. simpl. rewrite Hlive. simpl.
    unfold time.After. simpl.
    assert (Hna : (clock w + duration <? clock w2) = false) by (apply Z.ltb_ge; lia).
    subst session; simpl. rewrite Hna. reflexivity.
  - intros Hge.
    assert (Hdead : (clock w2 <? clock w + duration) = false) by (apply Z.ltb_ge; lia).
    rewrite Hdead. reflexivity.
Qed.

Lemma CreateSession_then_valid_witness :
  let w := fx.world fx.productB 0 in
  let out := SessionService.CreateSession "s2" fx.uuidA "a@x.com" "10.0.0.2" "ff" fx.day w in
  let w2 := with_clock (3 * time.Hour) (snd out) in
  fst (SessionService.GetSession "s2" w2)
  = Ok (Session.mk "s2" fx.uuidA "a@x.com" 0 fx.day "10.0.0.2" "ff" true)
  ∧ fst (SessionService.IsSessionValid "s2" w2) = Ok true.
Proof.
  refine (proj1 (proj2 (CreateSession_then_valid "s2" fx.uuidA "a@x.com" "10.0.0.2" "ff"
            fx.day (fx.world fx.productB 0)
            (with_clock (3 * time.Hour)
               (snd (SessionService.CreateSession "s2" fx.uuidA "a@x.com" "10.0.0.2" "ff"
                       fx.day (fx.world fx.productB 0))))
            eq_refl _ eq_refl eq_refl _)) _);
    vm_compute; first [reflexivity | discriminate].
Defined.

(** Validity read off the store, for a reachable Redis. *)
Lemma IsSessionValid_reachable (sessionID : string) (w : World) :
  faulty w = false →
  fst (SessionService.IsSessionValid sessionID w) = Ok (session_valid w sessionID).
Proof.
  intros Hf. destruct (IsSessionValid_run sessionID w) as (w' & Hrun & _).
  cbv zeta in Hrun. rewrite Hrun, Hf. reflexivity.
Qed.

(** X2 — the per-user index remembers one session only.  When a user
    opens a second session, [user_sessions:<user>] is overwritten with
    the new id while both sessions stay valid; deleting the first
    session then removes the index entry although it points at the
    second, which remains valid. *)
Theorem user_index_keeps_latest_session
    (s1 s2 userID email ip1 ua1 ip2 ua2 : string) (d1 d2 : Duration) (w : World) :
  faults w = [] → 0 < d1 → 0 < d2 → s1 ≠ s2 →
  let w1 := snd (SessionService.CreateSession s1 userID email ip1 ua1 d1 w) in
  let w2 := snd (SessionService.CreateSession s2 userID email ip2 ua2 d2 w1) in
  let w3 := snd (SessionService.DeleteSession s1 w2) in
  lookup_live w2 ("user_sessions:" +:+ userID) = Some (VString s2)
  ∧ fst (SessionService.IsSessionValid s1 w2) = Ok true
  ∧ fst (SessionService.IsSessionValid s2 w2) = Ok true
  ∧ lookup_live w3 ("user_sessions:" +:+ userID) = None
  ∧ fst (SessionService.IsSessionValid s2 w3) = Ok true.
Proof.
  intros Hf Hd1 Hd2 Hne w1 w2 w3.
  assert (Hk : "session:" +:+ s1 ≠ "session:" +:+ s2)
    by (intros Heq; apply Hne, (session_key_inj _ _ Heq)).
  pose proof (session_key_not_index s1 userID) as Hi1.
  pose proof (session_key_not_index s2 userID) as Hi2.
  assert (Hl1 : (clock w <? clock w + d1) = true) by (apply Z.ltb_lt; lia).
  assert (Hl2 : (clock w <? clock w + d2) = true) by (apply Z.ltb_lt; lia).
  subst w3 w2 w1.
  rewrite (CreateSession_reachable _ _ _ _ _ _ w Hf Hd1). cbn [snd].
  rewrite CreateSession_reachable by (reflexivity || exact Hd2).
  cbn [snd]. cbn [clock].
  match goal with |- context [SessionService.DeleteSession s1 ?x] => set (w2 := x) end.
  assert (Hs1 : lookup_live w2 ("session:" +:+ s1)
                = Some (VSession (Session.mk s1 userID email (clock w) (clock w + d1)
                                    ip1 ua1 true))).
  { unfold lookup_live, w2, live. simpl.
    rewrite lookup_insert_ne by (apply not_eq_sym; exact Hi1).
    rewrite lookup_insert_ne by (apply not_eq_sym; exact Hk).
    rewrite lookup_insert_ne by (apply not_eq_sym; exact Hi1).
    rewrite lookup_insert_eq. simpl. rewrite Hl1. reflexivity. }
  assert (Hs2 : lookup_live w2 ("session:" +:+ s2)
                = Some (VSession (Session.mk s2 userID email (clock w) (clock w + d2)
                                    ip2 ua2 true))).
  { unfold lookup_live, w2, live. simpl.
    rewrite lookup_insert_ne by (apply not_eq_sym; exact Hi2).
    rewrite lookup_insert_eq. simpl. rewrite Hl2. reflexivity. }
  split; [|split; [|split]].
  - unfold lookup_live, w2, live. simpl. rewrite lookup_insert_eq. simpl.
    rewrite Hl2. reflexivity.
  - rewrite IsSessionValid_reachable by reflexivity.
    unfold session_valid. rewrite Hs1. simpl. fold (clock w2).
    change (clock w2) with (clock w). rewrite Hl1. reflexivity.
  - rewrite IsSessionValid_reachable by reflexivity.
    unfold session_valid. rewrite Hs2. simpl.
    change (clock w2) with (clock w). rewrite Hl2. reflexivity.
  - rewrite DeleteSession_reachable by reflexivity. cbn [snd].
    rewrite Hs1. simpl Session.UserID.
    split.
    + apply lookup_live_deleted. simpl.
      rewrite lookup_delete_ne by exact Hi1. apply lookup_delete_eq.
    + rewrite IsSessionValid_reachable by reflexivity.
      unfold session_valid, lookup_live. simpl.
      rewrite lookup_delete_ne by exact Hk.
      rewrite lookup_delete_ne by (apply not_eq_sym; exact Hi2).
      unfold w2. simpl.
      rewrite lookup_insert_ne by (apply not_eq_sym; exact Hi2).
      rewrite lookup_insert_eq. unfold live. cbn. rewrite Hl2. cbn. rewrite Hl2. reflexivity.
Qed.

Lemma user_index_keeps_latest_session_witness :
  let w := fx.world fx.productB 0 in
  let w1 := snd (SessionService.CreateSession "s2" fx.uuidA "a@x.com" "ip" "ua" fx.day w) in
  let w2 := snd (SessionService.CreateSession "s3" fx.uuidA "a@x.com" "ip" "ua" fx.day w1) in
  let w3 := snd (SessionService.DeleteSession "s2" w2) in
  lookup_live w2 ("user_sessions:" +:+ fx.uuidA) = Some (VString "s3")
  ∧ fst (SessionService.IsSessionValid "s2" w2) = Ok true
  ∧ fst (SessionService.IsSessionValid "s3" w2) = Ok true
  ∧ lookup_live w3 ("user_sessions:" +:+ fx.uuidA) = None
  ∧ fst (SessionService.IsSessionValid "s3" w3) = Ok true.
Proof.
  apply (user_index_keeps_latest_session "s2" "s3" fx.uuidA "a@x.com" "ip" "ua" "ip" "ua"
           fx.day fx.day (fx.world fx.productB 0));
    first [reflexivity | discriminate].
Defined.

(** ** Deleting and refreshing a session *)

(** A [nil] from [DeleteSession] means the last [DEL] went through. *)
Lemma DeleteSession_nil_removes (sessionID : string) (w : World) :
  fst (SessionService.DeleteSession sessionID w) = None →
  redis (snd (SessionService.DeleteSession sessionID w)) !! ("session:" +:+ sessionID) = None.
Proof.
  unfold SessionService.DeleteSession. unfold_monad.
  rewrite CacheService_Get_run.
  set (key := "session:" +:+ sessionID).
  destruct (faulty w); [|destruct (lookup_live w key) as [[s| | | |]|]]; cbn;
    rewrite ?CacheService_Delete_run; cbn;
    rewrite ?CacheService_Delete_run; cbn;
    (match goal with |- context [faulty ?x] => destruct (faulty x) end;
     [discriminate|intros _]);
  unfold with_redis; cbn [redis]; apply lookup_delete_eq.
Qed.

Lemma GetSession_absent (sessionID : string) (w : World) :
  redis w !! ("session:" +:+ sessionID) = None →
  ∃ e, fst (SessionService.GetSession sessionID w) = Err e.
Proof.
  intros Hr. unfold SessionService.GetSession. unfold_monad.
  rewrite CacheService_Get_run, (lookup_live_deleted w _ Hr).
  destruct (faulty w); eexists; reflexivity.
Qed.

(** X3 — a successful [DeleteSession] revokes the session for good.
    Whenever the call returns [nil], whatever Redis faults occurred on
    the way, the key [session:<id>] is gone: as long as nobody writes
    it again, [GetSession] fails and [IsSessionValid] answers [false]
    at any instant, with Redis reachable or not. *)
Theorem DeleteSession_success_revokes (sessionID : string) (w w2 : World) :
  fst (SessionService.DeleteSession sessionID w) = None →
  redis w2 !! ("session:" +:+ sessionID)
  = redis (snd (SessionService.DeleteSession sessionID w)) !! ("session:" +:+ sessionID) →
  fst (SessionService.IsSessionValid sessionID w2) = Ok false
  ∧ ∃ e, fst (SessionService.GetSession sessionID w2) = Err e.
Proof.
  intros Hnil Hsame. rewrite (DeleteSession_nil_removes _ _ Hnil) in Hsame.
  split; [|exact (GetSession_absent _ _ Hsame)].
  destruct (IsSessionValid_run sessionID w2) as (w' & Hrun & _).
  cbv zeta in Hrun. rewrite Hrun. cbn [fst].
  unfold session_valid. rewrite (lookup_live_deleted w2 _ Hsame).
  rewrite andb_false_r. reflexivity.
Qed.

(** The first command (the [GET]) fails, the [DEL] goes through. *)
Lemma DeleteSession_success_revokes_witness :
  let w := with_faults [true] (fx.world fx.productB 0) in
  let w2 := with_clock time.Hour (snd (SessionService.DeleteSession "s1" w)) in
  fst (SessionService.IsSessionValid "s1" (fx.world fx.productB 0)) = Ok true
  ∧ fst (SessionService.IsSessionValid "s1" w2) = Ok false
  ∧ ∃ e, fst (SessionService.GetSession "s1" w2) = Err e.
Proof.
  split; [vm_compute; reflexivity|].
  apply (DeleteSession_success_revokes "s1" (with_faults [true] (fx.world fx.productB 0)));
    vm_compute; reflexivity.
Defined.

(** X4 — [RefreshSession] moves the expiry and nothing else.  With
    Redis reachable and a positive duration, refreshing a stored
    session that is not past its expiry returns [nil] and rewrites the
    one key [session:<id>] with the same session, [ExpiresAt] and the
    key's TTL moved to [now + duration] (the index key
    [user_sessions:<user>] keeps its old TTL); the session can then be
    read until that instant.  When no session is stored the call
    returns an error and leaves the store as it was. *)
Theorem RefreshSession_extends (sessionID : string) (duration : Duration) (w : World) :
  faults w = [] → 0 < duration →
  let key := "session:" +:+ sessionID in
  let out := SessionService.RefreshSession sessionID duration w in
  (∀ s, lookup_live w key = Some (VSession s) → clock w ≤ Session.ExpiresAt s →
     let s' := Session.with_ExpiresAt (clock w + duration) s in
     fst out = None
     ∧ redis (snd out) = <[key := mkEntry (VSession s') (Some (clock w + duration))]> (redis w)
     ∧ ∀ w2, redis w2 !! key = redis (snd out) !! key → faulty w2 = false →
             clock w ≤ clock w2 → clock w2 < clock w + duration →
             fst (SessionService.GetSession sessionID w2) = Ok s')
  ∧ (lookup_live w key = None → is_Some (fst out) ∧ redis (snd out) = redis w).
Proof.
  intros Hf Hd key out. subst out.
  unfold SessionService.RefreshSession, SessionService.GetSession. unfold_monad.
  rewrite CacheService_Get_run, (faulty_nil w Hf). fold key.
  refine (conj _ _).
  - intros s Hs Hexp. rewrite Hs. cbn [unmarshal_Session].
    assert (Hna : time.After (clock (tick (GET key) w)) (Session.ExpiresAt s) = false)
      by (unfold time.After; apply Z.ltb_ge; exact Hexp).
    rewrite Hna. rewrite CacheService_Set_run.
    replace (faulty (tick (GET key) w)) with false
      by (unfold faulty; simpl; rewrite Hf; reflexivity).
    rewrite (positive_ttl duration Hd). unfold time.Add. cbn [fst snd].
    split; [reflexivity|]. split; [reflexivity|].
    intros w2 Hsame Hf2 Hge Hlt. cbn in Hsame. rewrite lookup_insert_eq in Hsame.
    unfold SessionService.GetSession. unfold_monad.
    rewrite CacheService_Get_run, Hf2.
    unfold lookup_live. fold key. rewrite Hsame. unfold live. cbn.
    replace (clock w2 <? clock w + duration) with true by (symmetry; apply Z.ltb_lt; lia).
    cbn. unfold time.After.
    replace (clock w + duration <? clock w2) with false by (symmetry; apply Z.ltb_ge; lia).
    reflexivity.
  - intros Hnone. rewrite Hnone. cbn. split; [eexists; reflexivity|reflexivity].
Qed.

Lemma RefreshSession_extends_witness :
  let w := fx.world fx.productB (23 * time.Hour) in
  let out := SessionService.RefreshSession "s1" fx.day w in
  fst out = None
  ∧ fst (SessionService.GetSession "s1" (with_clock (40 * time.Hour) (snd out)))
    = Ok (Session.with_ExpiresAt (47 * time.Hour) fx.sessA)
  ∧ is_Some (fst (SessionService.RefreshSession "nope" fx.day w)).
Proof.
  pose proof (RefreshSession_extends "s1" fx.day (fx.world fx.productB (23 * time.Hour))
                eq_refl eq_refl) as [Hs1 _].
  pose proof (RefreshSession_extends "nope" fx.day (fx.world fx.productB (23 * time.Hour))
                eq_refl eq_refl) as [_ Hnope].
  destruct (Hs1 fx.sessA) as (Hnil & _ & Hget);
    [vm_compute; reflexivity | vm_compute; discriminate |].
  split; [exact Hnil|]. split.
  - apply Hget; vm_compute; first [reflexivity | discriminate].
  - apply Hnope. vm_compute. reflexivity.
Defined.

(** ** Deleting all sessions of a user *)

Lemma glob_star (s : list ascii) : glob ["*"%char] s = true.
Proof. induction s as [|c s IH]; [reflexivity|]. simpl in *. rewrite IH. reflexivity. Qed.

Lemma matches_session_key (sessionID : string) :
  matches "session:*" ("session:" +:+ sessionID) = true.
Proof. unfold matches. apply glob_star. Qed.

Lemma matches_session_index (userID : string) :
  matches "session:*" ("user_sessions:" +:+ userID) = false.
Proof. reflexivity. Qed.

(** What a [KEYS] scan returns. *)
Lemma elem_of_keys (pattern k : string) (w : World) :
  k ∈ filter (λ k, bool_decide (matches pattern k = true ∧ is_Some (lookup_live w k)))
        (map fst (map_to_list (redis w)))
  ↔ matches pattern k = true ∧ is_Some (lookup_live w k).
Proof.
  rewrite list_elem_of_filter, bool_decide_spec.
  split; [tauto|]. intros [Hm Hs]. split; [tauto|].
  change (map fst (map_to_list (redis w))) with (fst <$> map_to_list (redis w)).
  unfold lookup_live in Hs. destruct (redis w !! k) as [e|] eqn:Hk.
  - apply list_elem_of_fmap. exists (k, e). split; [reflexivity|].
    apply elem_of_map_to_list. exact Hk.
  - destruct Hs as [? Hs]. discriminate.
Qed.

Lemma owned_session_ext (w w' : World) (userID k : string) :
  redis w' !! k = redis w !! k → clock w' = clock w →
  owned_session w' userID k = owned_session w userID k.
Proof. intros Hr Hc. unfold owned_session. rewrite (lookup_live_ext w w' k Hr Hc). reflexivity. Qed.

Lemma DeleteUserSessions_loop_reachable (userID : string) (keys : list string) :
  ∀ w, faults w = [] →
    ∃ w', SessionService.DeleteUserSessions_loop userID keys w = ((), w')
          ∧ faults w' = [] ∧ clock w' = clock w
          ∧ products w' = products w ∧ users w' = users w
          ∧ ∀ k, redis w' !! k =
                 if bool_decide (k ∈ keys) && owned_session w userID k
                 then None else redis w !! k.
Proof.
  induction keys as [|key rest IH]; intros w Hf.
  - exists w. repeat (refine (conj _ _)); try reflexivity. exact Hf.
  - simpl. unfold_monad. rewrite CacheService_Get_run, (faulty_nil w Hf).
    set (w0 := tick (GET key) w).
    assert (Hf0 : faults w0 = []) by (unfold w0; simpl; rewrite Hf; reflexivity).
    assert (Hstep : ∃ w1,
      (match (match lookup_live w key with
              | Some v => unmarshal_Session v
              | None => Err (fmt_Errorf "failed to get value" redis_Nil)
              end) with
       | Ok session =>
           if String.eqb (Session.UserID session) userID
           then CacheService.Delete key else (λ w, (None, w))
       | Err _ => λ w, (None, w)
       end w0).2 = w1
      ∧ faults w1 = [] ∧ clock w1 = clock w
      ∧ products w1 = products w ∧ users w1 = users w
      ∧ redis w1 = if owned_session w userID key then delete key (redis w) else redis w).
    { unfold owned_session.
      destruct (lookup_live w key) as [[s| | | |]|]; cbn [unmarshal_Session];
        try (exists w0; repeat (refine (conj _ _)); (reflexivity || exact Hf0)).
      destruct (String.eqb (Session.UserID s) userID).
      - rewrite CacheService_Delete_run, (faulty_nil w0 Hf0).
        eexists; repeat (refine (conj _ _)); try reflexivity.
        simpl. rewrite Hf. reflexivity.
      - exists w0; repeat (refine (conj _ _)); (reflexivity || exact Hf0). }
    destruct Hstep as (w1 & Hw1 & Hf1 & Hc1 & Hp1 & Hu1 & Hr1).
    match goal with |- context [let '(_, w') := ?m w0 in _] =>
      destruct (m w0) as [e1 w1'] end.
    cbn [snd] in Hw1. subst w1'.
    destruct (IH w1 Hf1) as (w' & Hrun & Hf' & Hc' & Hp' & Hu' & Hr').
    exists w'. rewrite Hrun.
    repeat (refine (conj _ _)); try congruence.
    intros k. rewrite Hr'.
    destruct (decide (k = key)) as [->|Hne].
    + rewrite (bool_decide_eq_true_2 (key ∈ key :: rest)) by apply list_elem_of_here.
      cbn [andb]. rewrite Hr1.
      destruct (owned_session w userID key) eqn:Ho.
      * assert (Hgone : owned_session w1 userID key = false).
        { unfold owned_session. rewrite (lookup_live_deleted w1 key); [reflexivity|].
          rewrite Hr1. apply lookup_delete_eq. }
        rewrite Hgone, andb_false_r. apply lookup_delete_eq.
      * rewrite (owned_session_ext w w1 userID key) by (rewrite ?Hr1; congruence).
        rewrite Ho, andb_false_r. reflexivity.
    + assert (Hsame : redis w1 !! k = redis w !! k).
      { rewrite Hr1. destruct (owned_session w userID key); [|reflexivity].
        apply lookup_delete_ne. congruence. }
      rewrite (owned_session_ext w w1 userID k Hsame Hc1), Hsame.
      replace (bool_decide (k ∈ key :: rest)) with (bool_decide (k ∈ rest)); [reflexivity|].
      apply bool_decide_ext. rewrite elem_of_cons. tauto.
Qed.

Lemma DeleteUserSessions_reachable (userID : string) (w : World) :
  faults w = [] →
  let out := SessionService.DeleteUserSessions userID w in
  fst out = None
  ∧ faults (snd out) = [] ∧ clock (snd out) = clock w
  ∧ products (snd out) = products w ∧ users (snd out) = users w
  ∧ ∀ k, redis (snd out) !! k =
         if bool_decide (k = "user_sessions:" +:+ userID) then None
         else if matches "session:*" k && owned_session w userID k then None
         else redis w !! k.
Proof.
  intros Hf out. subst out. unfold SessionService.DeleteUserSessions. unfold_monad.
  rewrite Client_Keys_run, (faulty_nil w Hf).
  set (keys := filter _ _).
  set (w0 := tick (KEYS "session:*") w).
  assert (Hf0 : faults w0 = []) by (unfold w0; simpl; rewrite Hf; reflexivity).
  destruct (DeleteUserSessions_loop_reachable userID keys w0 Hf0)
    as (w1 & Hrun & Hf1 & Hc1 & Hp1 & Hu1 & Hr1).
  rewrite Hrun. rewrite CacheService_Delete_run, (faulty_nil w1 Hf1). cbn [fst snd].
  refine (conj _ (conj _ (conj _ (conj _ (conj _ _))))).
  - reflexivity.
  - simpl. rewrite Hf1. reflexivity.
  - simpl. rewrite Hc1. reflexivity.
  - simpl. rewrite Hp1. reflexivity.
  - simpl. rewrite Hu1. reflexivity.
  - intros k. cbn [redis with_redis tick with_trace with_faults].
    destruct (bool_decide_reflect (k = "user_sessions:" +:+ userID)) as [->|Hne].
    + apply lookup_delete_eq.
    + rewrite lookup_delete_ne by congruence. rewrite Hr1.
      rewrite (owned_session_ext w w0 userID k) by reflexivity.
      change (redis w0) with (redis w).
      destruct (owned_session w userID k) eqn:Ho; [|rewrite !andb_false_r; reflexivity].
      rewrite !andb_true_r.
      destruct (matches "session:*" k) eqn:Hm.
      * rewrite bool_decide_eq_true_2; [reflexivity|].
        apply elem_of_keys. split; [exact Hm|].
        unfold owned_session in Ho. destruct (lookup_live w k); [eauto|discriminate].
      * rewrite bool_decide_eq_false_2; [reflexivity|].
        intros [Hm' _]%elem_of_keys. congruence.
Qed.

Lemma live_earlier (now later : Time) (e : Entry) :
  now ≤ later → live later e = true → live now e = true.
Proof.
  unfold live. destruct (expireAt e) as [t|]; [|reflexivity].
  rewrite !Z.ltb_lt. lia.
Qed.

Lemma filter_none {A} (P : A → Prop) `{∀ x, Decision (P x)} (l : list A) :
  (∀ x, x ∈ l → ¬ P x) → filter P l = [].
Proof.
  induction l as [|x l IH]; intros Hno; [reflexivity|].
  rewrite filter_cons_False by (apply Hno; left).
  apply IH. intros y Hy. apply Hno. right. exact Hy.
Qed.

(** X5 — [DeleteUserSessions] removes the user's sessions and nothing
    else.  With Redis reachable the call returns [nil]; it removes the
    index key [user_sessions:<user>] and exactly the visible
    [session:*] keys that hold a session of that user, every other key
    keeps its entry.  From then on, as long as the store is not
    written, [GetActiveSessionsCount] of the user is 0. *)
Theorem DeleteUserSessions_removes_exactly (userID : string) (w w2 : World) :
  faults w = [] → faults w2 = [] →
  redis w2 = redis (snd (SessionService.DeleteUserSessions userID w)) →
  clock w ≤ clock w2 →
  fst (SessionService.DeleteUserSessions userID w) = None
  ∧ (∀ k, redis w2 !! k =
          if bool_decide (k = "user_sessions:" +:+ userID) then None
          else if matches "session:*" k && owned_session w userID k then None
          else redis w !! k)
  ∧ fst (SessionService.GetActiveSessionsCount userID w2) = Ok 0.
Proof.
  intros Hf Hf2 Hsame Hclock.
  destruct (DeleteUserSessions_reachable userID w Hf) as (Hnil & _ & _ & _ & _ & Hstore).
  rewrite <- Hsame in Hstore.
  refine (conj Hnil (conj Hstore _)).
  rewrite (GetActiveSessionsCount_reachable userID w2 Hf2).
  rewrite filter_none; [reflexivity|].
  intros k [Hm _]%elem_of_keys Hact.
  unfold holds_active in Hact. specialize (Hstore k).
  destruct (redis w2 !! k) as [e|] eqn:Hk; [|discriminate].
  destruct (live (clock w2) e) eqn:Hlive; [|discriminate].
  destruct (value e) as [s| | | |] eqn:Hv; try discriminate.
  unfold SessionService.activeFor in Hact.
  apply andb_prop in Hact as [Hact _]. apply andb_prop in Hact as [Hu _].
  destruct (bool_decide (k = "user_sessions:" +:+ userID)); [discriminate|].
  assert (Ho : owned_session w userID k = true ∨ owned_session w userID k = false)
    by (destruct (owned_session w userID k); tauto).
  destruct Ho as [Ho|Ho]; rewrite Ho, ?Hm in Hstore; [discriminate|].
  rewrite andb_false_r in Hstore.
  unfold owned_session, lookup_live in Ho. rewrite <- Hstore in Ho.
  rewrite (live_earlier _ _ e Hclock Hlive), Hv, Hu in Ho. discriminate.
Qed.

Lemma DeleteUserSessions_removes_exactly_witness :
  let w := fx.world fx.productB 0 in
  let out := SessionService.DeleteUserSessions fx.uuidA w in
  fst (SessionService.GetActiveSessionsCount fx.uuidA w) = Ok 1
  ∧ fst out = None
  ∧ fst (SessionService.GetActiveSessionsCount fx.uuidA (with_clock time.Hour (snd out))) = Ok 0.
Proof.
  split; [vm_compute; reflexivity|].
  destruct (DeleteUserSessions_removes_exactly fx.uuidA (fx.world fx.productB 0)
              (with_clock time.Hour
                 (snd (SessionService.DeleteUserSessions fx.uuidA (fx.world fx.productB 0))))
              eq_refl eq_refl eq_refl) as (Hnil & _ & Hcount).
  - vm_compute. discriminate.
  - split; [exact Hnil|exact Hcount].
Defined.

(** ** The two enumerations of a user's sessions *)

Lemma active_session_tick (cmd : RedisCmd) (w : World) (userID k : string) :
  active_session (tick cmd w) userID k = active_session w userID k.
Proof. reflexivity. Qed.

Lemma GetUserSessions_loop_reachable (userID : string) (keys : list string) :
  ∀ (sessions : list Session.t) (w : World),
    faults w = [] →
    ∃ w', SessionService.GetUserSessions_loop userID keys sessions w
          = ((sessions ++ omap (active_session w userID) keys)%list, w')
          ∧ faults w' = [] ∧ redis w' = redis w ∧ clock w' = clock w
          ∧ products w' = products w ∧ users w' = users w ∧ dbfaults w' = dbfaults w.
Proof.
  induction keys as [|key rest IH]; intros sessions w Hf.
  - exists w. simpl. unfold_monad. rewrite app_nil_r.
    refine (conj eq_refl (conj Hf _)). repeat (refine (conj _ _)); reflexivity.
  - assert (Hcons : omap (active_session w userID) (key :: rest)
                   = match active_session w userID key with
                     | Some s => s :: omap (active_session w userID) rest
                     | None => omap (active_session w userID) rest
                     end) by reflexivity.
    rewrite Hcons. clear Hcons.
    cbn [SessionService.GetUserSessions_loop]. unfold_monad.
    rewrite CacheService_Get_run, (faulty_nil w Hf).
    set (w0 := tick (GET key) w).
    assert (Hf0 : faults w0 = []) by (unfold w0; simpl; rewrite Hf; reflexivity).
    assert (Hom : omap (active_session w0 userID) rest = omap (active_session w userID) rest)
      by reflexivity.
    unfold active_session at 1.
    destruct (lookup_live w key) as [[s| | | |]|]; cbn [unmarshal_Session];
      try (destruct (IH sessions w0 Hf0) as (w' & Hrun & Hrest);
           exists w'; rewrite Hrun, Hom; exact (conj eq_refl Hrest)).
    change (clock w0) with (clock w).
    destruct (SessionService.activeFor userID (clock w) s).
    + destruct (IH (sessions ++ [s])%list w0 Hf0) as (w' & Hrun & Hrest).
      exists w'. rewrite Hrun, Hom, <- app_assoc. exact (conj eq_refl Hrest).
    + destruct (IH sessions w0 Hf0) as (w' & Hrun & Hrest).
      exists w'. rewrite Hrun, Hom. exact (conj eq_refl Hrest).
Qed.

Lemma SessionService_GetUserSessions_reachable (userID : string) (w : World) :
  faults w = [] →
  ∃ w', SessionService.GetUserSessions userID w
        = (Ok (omap (active_session w userID) (session_keys w)), w')
        ∧ faults w' = [] ∧ redis w' = redis w ∧ clock w' = clock w
        ∧ products w' = products w ∧ users w' = users w ∧ dbfaults w' = dbfaults w.
Proof.
  intros Hf. unfold SessionService.GetUserSessions. unfold_monad.
  rewrite Client_Keys_run, (faulty_nil w Hf). fold (session_keys w).
  destruct (GetUserSessions_loop_reachable userID (session_keys w) []
              (tick (KEYS "session:*") w)) as (w' & Hrun & Hrest);
    [simpl; rewrite Hf; reflexivity|].
  exists w'. rewrite Hrun. exact (conj eq_refl Hrest).
Qed.

Lemma holds_active_active_session (w : World) (userID k : string) :
  holds_active (redis w) (clock w) userID k
  = if active_session w userID k is Some _ then true else false.
Proof.
  unfold holds_active, active_session, lookup_live.
  destruct (redis w !! k) as [e|]; [|reflexivity].
  destruct (live (clock w) e); [|reflexivity].
  destruct (value e) as [s| | | |]; try reflexivity.
  destruct (SessionService.activeFor userID (clock w) s); reflexivity.
Qed.

Lemma count_active (w : World) (userID : string) (keys : list string) :
  length (filter (λ k, holds_active (redis w) (clock w) userID k = true) keys)
  = length (omap (active_session w userID) keys).
Proof.
  induction keys as [|k keys IH]; [reflexivity|].
  rewrite filter_cons. simpl omap.
  pose proof (holds_active_active_session w userID k) as Hk.
  destruct (active_session w userID k) as [s|]; simpl in Hk.
  - rewrite decide_True by exact Hk. simpl. rewrite IH. reflexivity.
  - rewrite decide_False by (rewrite Hk; discriminate). exact IH.
Qed.

(** X6 — the two enumerations of the session service agree.  With
    Redis reachable, [GetUserSessions] returns exactly the sessions
    stored under visible [session:*] keys that belong to the user, are
    active and are not yet at their expiry, and
    [GetActiveSessionsCount] returns the length of that list. *)
Theorem session_enumerations_agree (userID : string) (w : World) :
  faults w = [] →
  ∃ sessions,
    fst (SessionService.GetUserSessions userID w) = Ok sessions
    ∧ fst (SessionService.GetActiveSessionsCount userID w) = Ok (Z.of_nat (length sessions))
    ∧ ∀ s, s ∈ sessions ↔
           ∃ k, matches "session:*" k = true
                ∧ lookup_live w k = Some (VSession s)
                ∧ Session.UserID s = userID
                ∧ Session.IsActive s = true
                ∧ clock w < Session.ExpiresAt s.
Proof.
  intros Hf.
  destruct (SessionService_GetUserSessions_reachable userID w Hf) as (w' & Hrun & _).
  exists (omap (active_session w userID) (session_keys w)).
  rewrite Hrun, (GetActiveSessionsCount_reachable userID w Hf). fold (session_keys w).
  rewrite count_active.
  refine (conj eq_refl (conj eq_refl _)).
  intros s. rewrite list_elem_of_omap. unfold session_keys.
  split.
  - intros (k & [Hm _]%elem_of_keys & Hk). exists k. split; [exact Hm|].
    unfold active_session in Hk.
    destruct (lookup_live w k) as [[s0| | | |]|]; try discriminate.
    destruct (SessionService.activeFor userID (clock w) s0) eqn:Hact; [|discriminate].
    injection Hk as ->. split; [reflexivity|].
    unfold SessionService.activeFor, time.Before in Hact.
    apply andb_prop in Hact as [Hact Hb]. apply andb_prop in Hact as [Hu Ha].
    apply String.eqb_eq in Hu. apply Z.ltb_lt in Hb. tauto.
  - intros (k & Hm & Hk & Hu & Ha & Hb). exists k. split.
    + apply elem_of_keys. rewrite Hk. eauto.
    + unfold active_session. rewrite Hk.
      unfold SessionService.activeFor, time.Before.
      rewrite Hu, String.eqb_refl, Ha. cbn [andb].
      replace (clock w <? Session.ExpiresAt s) with true by (symmetry; apply Z.ltb_lt; lia).
      reflexivity.
Qed.

Lemma session_enumerations_agree_witness :
  fst (SessionService.GetUserSessions fx.uuidA (fx.world fx.productB 0)) = Ok [fx.sessA]
  ∧ ∃ sessions,
      fst (SessionService.GetUserSessions fx.uuidA (fx.world fx.productB 0)) = Ok sessions
      ∧ fst (SessionService.GetActiveSessionsCount fx.uuidA (fx.world fx.productB 0))
        = Ok (Z.of_nat (length sessions)).
Proof.
  split; [vm_compute; reflexivity|].
  destruct (session_enumerations_agree fx.uuidA (fx.world fx.productB 0) eq_refl)
    as (sessions & Hl & Hc & _).
  exists sessions. exact (conj Hl Hc).
Defined.

(** ** Logging out everywhere *)

Section LogoutEverywhere.
Context `{UUIDLib}.

Lemma blacklist_key_not_session (k rest : string) :
  matches "session:*" k = true → k ≠ "user_blacklist:" +:+ rest.
Proof. intros Hm ->. discriminate Hm. Qed.

Lemma BlacklistAllUserSessions_loop_reachable (userID : UUID) (sessions : list Session.t) :
  ∀ w, faults w = [] →
    ∃ w', UserService.BlacklistAllUserSessions_loop userID sessions w = (None, w')
          ∧ faults w' = [] ∧ clock w' = clock w
          ∧ products w' = products w ∧ users w' = users w
          ∧ ∀ k, redis w' !! k =
                 if bool_decide
                      (k ∈ (λ s, "user_blacklist:" +:+ uuid_String userID +:+ ":" +:+ Session.ID s)
                             <$> sessions)
                 then Some (mkEntry (VBool true) (Some (clock w + 24 * time.Hour)))
                 else redis w !! k.
Proof.
  induction sessions as [|s rest IH]; intros w Hf.
  - exists w. refine (conj eq_refl (conj Hf _)).
    repeat (refine (conj _ _)); reflexivity.
  - cbn [UserService.BlacklistAllUserSessions_loop]. unfold_monad.
    rewrite CacheService_Set_run, (faulty_nil w Hf).
    change (24 * time.Hour =? 0) with false. cbv beta iota.
    set (key := "user_blacklist:" +:+ uuid_String userID +:+ ":" +:+ Session.ID s).
    set (w1 := with_redis _ _).
    assert (Hf1 : faults w1 = []) by (unfold w1; simpl; rewrite Hf; reflexivity).
    destruct (IH w1 Hf1) as (w' & Hrun & Hf' & Hc' & Hp' & Hu' & Hr').
    exists w'. rewrite Hrun.
    refine (conj eq_refl (conj Hf' (conj Hc' (conj Hp' (conj Hu' _))))).
    intros k. rewrite Hr'. rewrite fmap_cons. fold key.
    change (clock w1) with (clock w).
    destruct (decide (k = key)) as [->|Hne].
    + rewrite (bool_decide_eq_true_2 (key ∈ key :: _)) by apply list_elem_of_here.
      destruct (bool_decide _); [reflexivity|].
      unfold w1. cbn [redis with_redis]. rewrite lookup_insert_eq. reflexivity.
    + replace (bool_decide (k ∈ key :: ((λ s, "user_blacklist:" +:+ uuid_String userID
                                            +:+ ":" +:+ Session.ID s) <$> rest)))
        with (bool_decide (k ∈ (λ s, "user_blacklist:" +:+ uuid_String userID
                                      +:+ ":" +:+ Session.ID s) <$> rest))
        by (apply bool_decide_ext; rewrite elem_of_cons; tauto).
      destruct (bool_decide _); [reflexivity|].
      unfold w1. cbn [redis with_redis]. rewrite lookup_insert_ne by congruence. reflexivity.
Qed.

Lemma BlacklistAllUserSessions_reachable (userID : UUID) (w : World) :
  faults w = [] →
  ∃ w', UserService.BlacklistAllUserSessions userID w = (None, w')
        ∧ faults w' = [] ∧ clock w' = clock w
        ∧ products w' = products w ∧ users w' = users w
        ∧ ∀ k, redis w' !! k =
               if bool_decide
                    (k ∈ (λ s, "user_blacklist:" +:+ uuid_String userID +:+ ":" +:+ Session.ID s)
                           <$> omap (active_session w (uuid_String userID)) (session_keys w))
               then Some (mkEntry (VBool true) (Some (clock w + 24 * time.Hour)))
               else redis w !! k.
Proof.
  intros Hf. unfold UserService.BlacklistAllUserSessions. unfold_monad.
  destruct (SessionService_GetUserSessions_reachable (uuid_String userID) w Hf)
    as (w0 & Hrun & Hf0 & Hr0 & Hc0 & Hp0 & Hu0 & _).
  rewrite Hrun.
  destruct (BlacklistAllUserSessions_loop_reachable userID
              (omap (active_session w (uuid_String userID)) (session_keys w)) w0 Hf0)
    as (w' & Hrun' & Hf' & Hc' & Hp' & Hu' & Hr').
  exists w'. rewrite Hrun'.
  refine (conj eq_refl (conj Hf' _)).
  repeat (refine (conj _ _)); try congruence.
  intros k. rewrite Hr', Hr0, Hc0. reflexivity.
Qed.

(** X7 — [BlacklistAllUserSessions] covers every listed session and
    keeps the sessions.  With Redis reachable the call returns [nil];
    for every session that [SessionService.GetUserSessions] lists for
    the user at that moment, [IsUserSessionBlacklisted] answers [true]
    at every instant of the next 24 hours (while the entry is not
    rewritten); no [session:*] key is changed by the call. *)
Theorem BlacklistAllUserSessions_covers_listed (userID : UUID) (w : World) :
  faults w = [] →
  let out := UserService.BlacklistAllUserSessions userID w in
  fst out = None
  ∧ (∀ sessions s,
       fst (SessionService.GetUserSessions (uuid_String userID) w) = Ok sessions →
       s ∈ sessions →
       ∀ w2, redis w2 !! ("user_blacklist:" +:+ uuid_String userID +:+ ":" +:+ Session.ID s)
             = redis (snd out) !! ("user_blacklist:" +:+ uuid_String userID +:+ ":" +:+ Session.ID s) →
             faulty w2 = false → clock w2 < clock w + 24 * time.Hour →
             fst (UserService.IsUserSessionBlacklisted userID (Session.ID s) w2) = Ok true)
  ∧ (∀ k, matches "session:*" k = true → redis (snd out) !! k = redis w !! k).
Proof.
  intros Hf out. subst out.
  destruct (BlacklistAllUserSessions_reachable userID w Hf) as (w' & Hrun & _ & _ & _ & _ & Hr).
  rewrite Hrun. cbn [fst snd].
  refine (conj eq_refl (conj _ _)).
  - intros sessions s Hlist Hin w2 Hsame Hf2 Hlt.
    destruct (SessionService_GetUserSessions_reachable (uuid_String userID) w Hf)
      as (w0 & Hrun0 & _).
    rewrite Hrun0 in Hlist. injection Hlist as <-.
    rewrite IsUserSessionBlacklisted_run, Hf2. cbn [fst]. f_equal.
    unfold pair_blacklisted, lookup_live. rewrite Hsame, Hr.
    assert (Hmem : "user_blacklist:" +:+ uuid_String userID +:+ ":" +:+ Session.ID s
                   ∈ (λ s, "user_blacklist:" +:+ uuid_String userID +:+ ":" +:+ Session.ID s)
                       <$> omap (active_session w (uuid_String userID)) (session_keys w))
      by (apply list_elem_of_fmap; exists s; split; [reflexivity|exact Hin]).
    rewrite (bool_decide_eq_true_2 _ Hmem).
    unfold live. cbn [expireAt value].
    replace (clock w2 <? clock w + 24 * time.Hour) with true
      by (symmetry; apply Z.ltb_lt; exact Hlt).
    apply bool_decide_eq_true_2. eauto.
  - intros k Hm. rewrite Hr.
    destruct (bool_decide_reflect
                (k ∈ (λ s, "user_blacklist:" +:+ uuid_String userID +:+ ":" +:+ Session.ID s)
                       <$> omap (active_session w (uuid_String userID)) (session_keys w)))
      as [Hin|_]; [|reflexivity].
    apply list_elem_of_fmap in Hin as (s & Hk & _).
    destruct (blacklist_key_not_session k _ Hm Hk).
Qed.
End LogoutEverywhere.

Section LogoutEverywhereRun.
#[local] Existing Instances fx.uuidlib.

Lemma BlacklistAllUserSessions_covers_listed_witness :
  let w := fx.world fx.productB 0 in
  let out := UserService.BlacklistAllUserSessions 1%N w in
  fst out = None
  ∧ fst (UserService.IsUserSessionBlacklisted 1%N "s1" (fx.world fx.productB 0)) = Ok false
  ∧ fst (UserService.IsUserSessionBlacklisted 1%N "s1"
           (with_clock (23 * time.Hour) (snd out))) = Ok true.
Proof.
  destruct (BlacklistAllUserSessions_covers_listed 1%N (fx.world fx.productB 0) eq_refl)
    as (Hnil & Hcov & _).
  split; [exact Hnil|]. split; [vm_compute; reflexivity|].
  apply (Hcov [fx.sessA] fx.sessA);
    first [apply list_elem_of_here | vm_compute; reflexivity].
Defined.
End LogoutEverywhereRun.

Section LogoutAll.
Context `{UUIDLib}.

(** X8 — [LogoutAll] with Redis up, and with Redis down.  With Redis
    reachable for the whole call, [LogoutAll] returns [nil] and removes
    every visible [session:<id>] key holding a session of the user, so
    that [IsSessionValid] answers [false] for it from then on (while
    the key is not rewritten), whether Redis is reachable or not;
    sessions of other users keep their entries.  When the first Redis
    command of the call (the [KEYS] scan) fails, the call returns an
    error and the store is left as it was.  Nothing is claimed for a
    fault in the middle of the call: see [LogoutAll_is_not_atomic]. *)
Theorem LogoutAll_Redis_up_or_down (userID : UUID) (w : World) :
  let out := UserService.LogoutAll userID w in
  (faults w = [] →
     fst out = None
     ∧ (∀ sessionID s,
          lookup_live w ("session:" +:+ sessionID) = Some (VSession s) →
          Session.UserID s = uuid_String userID →
          ∀ w2, redis w2 !! ("session:" +:+ sessionID)
                = redis (snd out) !! ("session:" +:+ sessionID) →
                fst (SessionService.IsSessionValid sessionID w2) = Ok false)
     ∧ (∀ k, matches "session:*" k = true →
             owned_session w (uuid_String userID) k = false →
             redis (snd out) !! k = redis w !! k))
  ∧ (faulty w = true → is_Some (fst out) ∧ redis (snd out) = redis w).
Proof.
  intros out. subst out. refine (conj _ _).
  - intros Hf. unfold UserService.LogoutAll. unfold_monad.
    destruct (BlacklistAllUserSessions_reachable userID w Hf)
      as (w1 & Hrun & Hf1 & Hc1 & _ & _ & Hr1).
    rewrite Hrun.
    destruct (DeleteUserSessions_reachable (uuid_String userID) w1 Hf1)
      as (Hnil & _ & _ & _ & _ & Hstore).
    assert (Hkeep : ∀ k, matches "session:*" k = true → redis w1 !! k = redis w !! k).
    { intros k Hm. rewrite Hr1.
      destruct (bool_decide_reflect
                  (k ∈ (λ s, "user_blacklist:" +:+ uuid_String userID +:+ ":" +:+ Session.ID s)
                         <$> omap (active_session w (uuid_String userID)) (session_keys w)))
        as [Hin|_]; [|reflexivity].
      apply list_elem_of_fmap in Hin as (s & Hk & _).
      destruct (blacklist_key_not_session k _ Hm Hk). }
    refine (conj Hnil (conj _ _)).
    + intros sessionID s Hs Hu w2 Hsame.
      pose proof (matches_session_key sessionID) as Hm.
      assert (Hgone : redis w2 !! ("session:" +:+ sessionID) = None).
      { rewrite Hsame, Hstore.
        rewrite bool_decide_eq_false_2 by apply session_key_not_index.
        rewrite Hm, (owned_session_ext w w1) by (auto using Hkeep).
        unfold owned_session. rewrite Hs, Hu, String.eqb_refl. reflexivity. }
      destruct (IsSessionValid_run sessionID w2) as (w' & Hrun2 & _).
      cbv zeta in Hrun2. rewrite Hrun2. cbn [fst].
      unfold session_valid. rewrite (lookup_live_deleted w2 _ Hgone).
      rewrite andb_false_r. reflexivity.
    + intros k Hm Ho. rewrite Hstore.
      rewrite bool_decide_eq_false_2
        by (intros ->; rewrite matches_session_index in Hm; discriminate).
      rewrite Hm, (owned_session_ext w w1) by (auto using Hkeep).
      rewrite Ho. cbn [andb]. apply Hkeep, Hm.
  - intros Hf. unfold UserService.LogoutAll, UserService.BlacklistAllUserSessions,
      SessionService.GetUserSessions. unfold_monad.
    rewrite Client_Keys_run, Hf. cbn. split; [eexists; reflexivity|reflexivity].
Qed.
End LogoutAll.

Section LogoutAllRun.
#[local] Existing Instances fx.uuidlib.

Lemma LogoutAll_Redis_up_or_down_witness :
  let w := fx.world fx.productB 0 in
  let down := with_faults [true] (fx.world fx.productB 0) in
  (fst (UserService.LogoutAll 1%N w) = None
   ∧ fst (SessionService.IsSessionValid "s1" (snd (UserService.LogoutAll 1%N w))) = Ok false)
  ∧ (is_Some (fst (UserService.LogoutAll 1%N down))
     ∧ redis (snd (UserService.LogoutAll 1%N down)) = redis down).
Proof.
  pose proof (LogoutAll_Redis_up_or_down 1%N (fx.world fx.productB 0)) as [Hup _].
  pose proof (LogoutAll_Redis_up_or_down 1%N (with_faults [true] (fx.world fx.productB 0)))
    as [_ Hdown].
  destruct (Hup eq_refl) as (Hnil & Hend & _).
  refine (conj (conj Hnil _) (Hdown eq_refl)).
  apply (Hend "s1" fx.sessA); [vm_compute; reflexivity|reflexivity|reflexivity].
Defined.

(** A fault in the middle of the call: with two sessions of user A, a
    failure of the seventh command (a [GET] of the deletion loop, whose
    errors are skipped) gives [nil] although one session is still
    valid, and a failure of the last command (the [DEL] of the index)
    gives an error although both sessions are gone.  Other users are
    not affected by a call made for user B. *)
Example LogoutAll_is_not_atomic :
  let s2 := Session.mk "s2" fx.uuidA "a@x.com" 0 fx.day "10.0.0.2" "ff" true in
  let w := with_redis (<["session:s2" := mkEntry (VSession s2) (Some (2 * fx.day))]> fx.store)
             (fx.world fx.productB 0) in
  let ok := [false; false; false; false; false; false] in
  let partial := UserService.LogoutAll 1%N (with_faults (ok ++ [true]) w) in
  let late := UserService.LogoutAll 1%N
                (with_faults (ok ++ [false; false; false; false; true]) w) in
  (fst partial = None
   ∧ session_valid (snd partial) "s1" || session_valid (snd partial) "s2" = true)
  ∧ (is_Some (fst late)
     ∧ session_valid (snd late) "s1" || session_valid (snd late) "s2" = false)
  ∧ session_valid (snd (UserService.LogoutAll 2%N w)) "s1" = true.
Proof. vm_compute. repeat split. eexists. reflexivity. Qed.
End LogoutAllRun.

(** ** The logout route *)

Lemma redis_with_clock (t : Time) (w : World) : redis (with_clock t w) = redis w.
Proof. reflexivity. Qed.

Section LogoutRoute.
Context `{UUIDLib} `{JWTLib}.

(** The identifiers a token carries do not depend on when it is read. *)
Lemma verified_same_claims (jwtSecret tokenString : string) (now now' : Time)
    (p p' : UUID * string) :
  verified jwtSecret tokenString now = Some p →
  verified jwtSecret tokenString now' = Some p' →
  p' = p.
Proof.
  unfold verified, verified_claims, accepted_claims.
  destruct (jwt_ParseUnverified tokenString) as [[[alg| | | | |] claims]|]; try discriminate.
  destruct (jwt_Verify (SigningMethodHMAC alg) tokenString jwtSecret); [|discriminate].
  destruct (bool_decide (jwt.Validate claims now = None)); [|discriminate].
  destruct (bool_decide (jwt.Validate claims now' = None)); [|discriminate].
  destruct (claim_string claims "user_id") as [u|]; [|discriminate].
  destruct (claim_string claims "session_id") as [s|]; [|discriminate].
  destruct (uuid_Parse u); [|discriminate].
  intros [= <-] [= <-]. reflexivity.
Qed.

(** What a 200 from [POST /auth/logout] implies. *)
Lemma route_Logout_ok (jwtSecret authHeader : string) (w : World) :
  status (route_Logout jwtSecret authHeader w) = http.StatusOK →
  ∃ tokenString userID sessionID w4,
    bearer authHeader = Some tokenString
    ∧ verified jwtSecret tokenString (clock w) = Some (userID, sessionID)
    ∧ fst (SessionService.DeleteSession sessionID w4) = None
    ∧ snd (route_Logout jwtSecret authHeader w)
      = snd (SessionService.DeleteSession sessionID w4).
Proof.
  unfold status, route_Logout, protected. unfold_monad.
  destruct (bearer authHeader) as [tokenString|] eqn:Hb.
  2:{ destruct (AuthMiddleware_header_stage jwtSecret authHeader w Hb) as (m & -> & _).
      discriminate. }
  pose proof (AuthMiddleware_token_stage jwtSecret authHeader tokenString w Hb) as Hstage.
  destruct (verified jwtSecret tokenString (clock w)) as [[userID sessionID]|] eqn:Hv.
  2:{ destruct Hstage as (m & -> & _). discriminate. }
  rewrite Hstage.
  pose proof (session_and_blacklist_checks_run userID sessionID tokenString w) as Hrun.
  cbv zeta in Hrun.
  destruct (fault_at 0 w || negb (session_valid w sessionID)).
  { destruct Hrun as [Hfst _].
    destruct (session_and_blacklist_checks userID sessionID tokenString w) as [o w'].
    cbn [fst] in Hfst. subst o. discriminate. }
  destruct (fault_at 1 w || token_blacklisted w tokenString);
    [rewrite Hrun; discriminate|].
  destruct (fault_at 2 w || pair_blacklisted w userID sessionID);
    [rewrite Hrun; discriminate|].
  rewrite Hrun. cbv beta iota.
  rewrite lookup_insert_ne by discriminate. rewrite lookup_insert_eq.
  rewrite lookup_insert_eq.
  unfold UserHandler.Logout. unfold_monad.
  destruct (String.eqb sessionID "" || String.eqb tokenString ""); [discriminate|].
  rewrite BlacklistToken_run.
  match goal with |- context [faulty ?x] => destruct (faulty x) end; [discriminate|].
  unfold UserService.Logout.
  match goal with |- context [SessionService.DeleteSession sessionID ?x] =>
    set (w4 := x) end.
  destruct (SessionService.DeleteSession sessionID w4) as [[err|] w5] eqn:Hdel;
    [discriminate|].
  intros _. exists tokenString, userID, sessionID, w4.
  rewrite Hdel. repeat (refine (conj _ _)); first [reflexivity | exact Hv | exact Hb].
Qed.

(** X9 — a successful logout locks the token out.  If
    [POST /auth/logout] answers 200, then on every later request that
    presents the same [Authorization] header — at any time, for any
    route of the protected group, Redis reachable or not, as long as no
    [session:*] key is written — the middleware aborts with a 401
    (token or session check) and the route's handler does not run. *)
Theorem Logout_route_locks_out (jwtSecret authHeader : string) (w w2 : World)
    (handler : gmap string CtxValue → M Response) :
  status (route_Logout jwtSecret authHeader w) = http.StatusOK →
  (∀ sessionID, redis w2 !! ("session:" +:+ sessionID)
                = redis (snd (route_Logout jwtSecret authHeader w)) !! ("session:" +:+ sessionID)) →
  ∃ message,
    fst (AuthMiddleware jwtSecret authHeader w2) = unauthorized message
    ∧ (reason_of message = Some InvalidToken ∨ reason_of message = Some SessionInvalid)
    ∧ fst (protected jwtSecret authHeader handler w2)
      = errorJSON http.StatusUnauthorized "Unauthorized" message.
Proof.
  intros Hok Hsame.
  destruct (route_Logout_ok jwtSecret authHeader w Hok)
    as (tokenString & userID & sessionID & w4 & Hb & Hv & Hnil & Hsnd).
  specialize (Hsame sessionID). rewrite Hsnd, (DeleteSession_nil_removes _ _ Hnil) in Hsame.
  assert (Hmw : ∃ message,
             fst (AuthMiddleware jwtSecret authHeader w2) = unauthorized message
             ∧ (reason_of message = Some InvalidToken
                ∨ reason_of message = Some SessionInvalid)).
  { pose proof (AuthMiddleware_token_stage jwtSecret authHeader tokenString w2 Hb) as Hstage.
    destruct (verified jwtSecret tokenString (clock w2)) as [[userID2 sessionID2]|] eqn:Hv2.
    - pose proof (verified_same_claims _ _ _ _ _ _ Hv Hv2) as [= -> ->].
      rewrite Hstage.
      pose proof (session_and_blacklist_checks_run userID sessionID tokenString w2) as Hrun.
      cbv zeta in Hrun.
      assert (Hsv : session_valid w2 sessionID = false)
        by (unfold session_valid; rewrite (lookup_live_deleted w2 _ Hsame); reflexivity).
      rewrite Hsv, orb_true_r in Hrun. destruct Hrun as [Hfst _].
      eexists. split; [exact Hfst|]. right. reflexivity.
    - destruct Hstage as (m & -> & Hr). exists m. split; [reflexivity|]. left. exact Hr. }
  destruct Hmw as (message & Hfst & Hreason).
  exists message. refine (conj Hfst (conj Hreason _)).
  unfold protected. unfold_monad.
  destruct (AuthMiddleware jwtSecret authHeader w2) as [o w'].
  cbn [fst] in Hfst. subst o. reflexivity.
Qed.
End LogoutRoute.

Section LogoutRouteRun.
#[local] Existing Instances fx.uuidlib fx.jwtlib.

Lemma Logout_route_locks_out_witness :
  let w := fx.world fx.productB 0 in
  let out := route_Logout fx.secret "Bearer access.s1" w in
  status out = http.StatusOK
  ∧ ∃ message,
      fst (AuthMiddleware fx.secret "Bearer access.s1" (with_clock 60 (snd out)))
      = unauthorized message
      ∧ (reason_of message = Some InvalidToken ∨ reason_of message = Some SessionInvalid)
      ∧ fst (protected fx.secret "Bearer access.s1" (UserHandler.GetUserSessions ∘ (λ _, 1%N))
               (with_clock 60 (snd out)))
        = errorJSON http.StatusUnauthorized "Unauthorized" message.
Proof.
  split; [vm_compute; reflexivity|].
  apply (Logout_route_locks_out fx.secret "Bearer access.s1" (fx.world fx.productB 0)).
  - vm_compute. reflexivity.
  - intros sessionID. rewrite redis_with_clock. reflexivity.
Defined.
End LogoutRouteRun.

(** ** Deleting by pattern *)

Lemma lookup_foldr_delete (m : gmap string Entry) (keys : list string) (k : string) :
  foldr (λ k m, delete k m) m keys !! k = if bool_decide (k ∈ keys) then None else m !! k.
Proof.
  induction keys as [|key keys IH]; [reflexivity|]. cbn [foldr].
  destruct (decide (k = key)) as [->|Hne].
  - rewrite lookup_delete_eq.
    rewrite (bool_decide_eq_true_2 (key ∈ key :: keys)) by apply list_elem_of_here.
    reflexivity.
  - rewrite lookup_delete_ne by congruence. rewrite IH.
    apply (f_equal (λ b : bool, if b then None else m !! k)).
    apply bool_decide_ext. rewrite elem_of_cons. tauto.
Qed.

Lemma scanned (pattern k : string) (w : World) :
  bool_decide (k ∈ filter (λ k, bool_decide (matches pattern k = true
                                               ∧ is_Some (lookup_live w k)))
                     (map fst (map_to_list (redis w))))
  = matches pattern k && bool_decide (is_Some (lookup_live w k)).
Proof.
  pose proof (elem_of_keys pattern k w) as Hk.
  destruct (matches pattern k) eqn:Hm; cbn [andb].
  - apply bool_decide_ext. rewrite Hk. tauto.
  - apply bool_decide_eq_false_2. rewrite Hk. intros [Hm' _]. discriminate.
Qed.


Example DeletePattern_on_the_fixture :
  let out := CacheService.DeletePattern "session:*" (fx.world fx.productB 0) in
  fst out = None
  ∧ redis (snd out) !! "session:s1" = None
  ∧ is_Some (redis (snd out) !! ("user_sessions:" +:+ fx.uuidA)).
Proof. vm_compute. repeat split. eexists. reflexivity. Qed.

Lemma DeletePattern_keeps (pattern k : string) (w : World) :
  matches pattern k = false →
  redis (snd (CacheService.DeletePattern pattern w)) !! k = redis w !! k.
Proof.
  intros Hm. unfold CacheService.DeletePattern. unfold_monad.
  rewrite Client_Keys_run.
  destruct (faulty w); [reflexivity|].
  set (keys := filter _ _).
  destruct (0 <? Z.of_nat (length keys)); [|reflexivity].
  rewrite Client_Del_run.
  destruct (faulty (tick (KEYS pattern) w)); cbn; [reflexivity|].
  rewrite lookup_foldr_delete. unfold keys. rewrite scanned, Hm. reflexivity.
Qed.

(** ** The product cache *)

Section ProductCache.
Context `{UUIDLib}.

(** The four invalidations only reach keys that start with [user_]. *)
Lemma invalidateUserCache_keeps_product_keys (userID : UUID) (rest : string) (w : World) :
  redis (snd (ProductService.invalidateUserCache userID w)) !! ("product:" +:+ rest)
  = redis w !! ("product:" +:+ rest).
Proof.
  unfold ProductService.invalidateUserCache. unfold_monad.
  rewrite CacheService_Delete_run.
  set (w1 := with_redis _ _).
  assert (H1 : redis w1 !! ("product:" +:+ rest) = redis w !! ("product:" +:+ rest)).
  { unfold w1. cbn [redis with_redis]. destruct (faulty w); [reflexivity|].
    apply lookup_delete_ne. discriminate. }
  rewrite CacheService_Delete_run.
  set (w2 := with_redis _ _).
  assert (H2 : redis w2 !! ("product:" +:+ rest) = redis w1 !! ("product:" +:+ rest)).
  { unfold w2. cbn [redis with_redis]. destruct (faulty w1); [reflexivity|].
    apply lookup_delete_ne. discriminate. }
  pose proof (DeletePattern_keeps
                ("user_products_filtered:" +:+ uuid_String userID +:+ ":*")
                ("product:" +:+ rest) w2 eq_refl) as H3.
  destruct (CacheService.DeletePattern _ w2) as [e3 w3]. cbn [snd] in H3.
  pose proof (DeletePattern_keeps
                ("user_products_cursor:" +:+ uuid_String userID +:+ ":*")
                ("product:" +:+ rest) w3 eq_refl) as H4.
  destruct (CacheService.DeletePattern _ w3) as [e4 w4]. cbn [snd] in *.
  congruence.
Qed.

(** A cached copy is served without asking the database. *)
Lemma GetByID_cached (id userID : UUID) (cached : Product.t) (w : World) :
  faulty w = false →
  lookup_live w ("product:" +:+ uuid_String userID +:+ ":" +:+ uuid_String id)
  = Some (VProduct cached) →
  ProductService.GetByID id userID w
  = (Ok cached, tick (GET ("product:" +:+ uuid_String userID +:+ ":" +:+ uuid_String id)) w).
Proof.
  intros Hf Hc. unfold ProductService.GetByID. unfold_monad.
  rewrite CacheService_Get_run, Hf, Hc. reflexivity.
Qed.


(** X12 — updates and deletions do not reach the per-product cache.
    [invalidateUserCache] never removes a [product:<user>:<id>] entry,
    so after a successful [Update] or [Delete] a cached copy is still
    there, and [GetByID] keeps returning it (for up to 30 minutes from
    the caching read) although the row was changed or removed. *)
Theorem GetByID_stale_after_write (product : Product.t) (userID : UUID)
    (cached : Product.t) (w : World) :
  let id := Product.ID product in
  let key := "product:" +:+ uuid_String userID +:+ ":" +:+ uuid_String id in
  let upd := ProductService.Update product userID w in
  let del := ProductService.Delete id userID w in
  lookup_live w key = Some (VProduct cached) →
  (fst upd = None → faulty (snd upd) = false →
     fst (ProductService.GetByID id userID (snd upd)) = Ok cached
     ∧ ∃ existing, products w !! id = Some existing
                   ∧ products (snd upd) !! Product.ID existing
                     = Some (merged existing product (clock w)))
  ∧ (fst del = None → faulty (snd del) = false →
     fst (ProductService.GetByID id userID (snd del)) = Ok cached
     ∧ products (snd del) !! id = None).
Proof.
  intros id key upd del Hc. subst upd del. refine (conj _ _).
  - intros Hok Hf.
    destruct (Update_success product userID w Hok) as (existing & Hex & _ & Hrow).
    assert (Hkeep : lookup_live (snd (ProductService.Update product userID w)) key
                    = lookup_live w key).
    { clear Hrow Hf. revert Hok. unfold ProductService.Update. unfold_monad.
      rewrite ProductRepository_GetByID_run.
      destruct (faultydb w); [discriminate|]. fold id.
      destruct (products w !! id) as [e|]; [|discriminate].
      destruct (negb (uuid_eqb (Product.UserID e) userID)); [discriminate|].
      rewrite ProductRepository_Update_run.
      destruct (faultydb (dbtick w)); [discriminate|]. intros _.
      match goal with |- context [ProductService.invalidateUserCache userID ?x] =>
        pose proof (invalidateUserCache_keeps_product_keys userID
                      (uuid_String userID +:+ ":" +:+ uuid_String id) x) as Hk;
        pose proof (invalidateUserCache_same_db userID x) as (_ & _ & Hclk & _);
        destruct (ProductService.invalidateUserCache userID x) as [u w'] end.
      cbn [snd] in *. apply lookup_live_ext; [exact Hk|exact Hclk]. }
    split.
    + rewrite (GetByID_cached id userID cached); [reflexivity|exact Hf|].
      fold key. rewrite Hkeep. exact Hc.
    + exists existing. split; [exact Hex|]. rewrite Hrow. apply lookup_insert_eq.
  - intros Hok Hf.
    assert (Hrun : lookup_live (snd (ProductService.Delete id userID w)) key
                   = lookup_live w key
                   ∧ products (snd (ProductService.Delete id userID w)) !! id = None).
    { clear Hf. revert Hok. unfold ProductService.Delete. unfold_monad.
      rewrite ProductRepository_GetByID_run.
      destruct (faultydb w); [discriminate|].
      destruct (products w !! id) as [e|]; [|discriminate].
      destruct (negb (uuid_eqb (Product.UserID e) userID)); [discriminate|].
      rewrite ProductRepository_Delete_run.
      destruct (faultydb (dbtick w)); [discriminate|]. intros _.
      match goal with |- context [ProductService.invalidateUserCache userID ?x] =>
        pose proof (invalidateUserCache_keeps_product_keys userID
                      (uuid_String userID +:+ ":" +:+ uuid_String id) x) as Hk;
        pose proof (invalidateUserCache_same_db userID x) as (Hp & _ & Hclk & _);
        destruct (ProductService.invalidateUserCache userID x) as [u w'] end.
      cbn [snd] in *. split; [apply lookup_live_ext; [exact Hk|exact Hclk]|].
      rewrite Hp. cbn. apply lookup_delete_eq. }
    destruct Hrun as [Hkeep Hgone]. split; [|exact Hgone].
    rewrite (GetByID_cached id userID cached); [reflexivity|exact Hf|].
    fold key. rewrite Hkeep. exact Hc.
Qed.
End ProductCache.

Section ProductCacheRun.
#[local] Existing Instances fx.uuidlib.


(** A renamed product is still served under its old name, and a
    deleted one is still served. *)
Lemma GetByID_stale_after_write_witness :
  let w := snd (ProductService.GetByID 3%N 1%N (fx.world fx.productA 0)) in
  let change := Product.mk 3%N "Lantern" "" 0%float (-1) 0%N 0 0 in
  let upd := ProductService.Update change 1%N w in
  let del := ProductService.Delete 3%N 1%N w in
  (fst (ProductService.GetByID 3%N 1%N (snd upd)) = Ok fx.productA
   ∧ ∃ existing, products w !! 3%N = Some existing
                 ∧ products (snd upd) !! Product.ID existing
                   = Some (merged existing change (clock w)))
  ∧ (fst (ProductService.GetByID 3%N 1%N (snd del)) = Ok fx.productA
     ∧ products (snd del) !! 3%N = None).
Proof.
  destruct (GetByID_stale_after_write
              (Product.mk 3%N "Lantern" "" 0%float (-1) 0%N 0 0) 1%N fx.productA
              (snd (ProductService.GetByID 3%N 1%N (fx.world fx.productA 0))))
    as [Hupd Hdel]; [vm_compute; reflexivity|].
  split; [apply Hupd|apply Hdel]; vm_compute; reflexivity.
Defined.
End ProductCacheRun.

(** ** Bounds kept by the handlers *)

Section QueryBounds.
Context `{StrconvLib}.

Lemma parsePageSize_bounds (params : Params) : 1 ≤ parsePageSize params ≤ 100.
Proof.
  unfold parsePageSize.
  destruct (queryParam Atoi params "page_size") as [n|]; [|lia].
  destruct (0 <? n) eqn:Hlo; cbn [andb]; [|lia].
  destruct (n <=? 100) eqn:Hhi; [|lia].
  apply Z.ltb_lt in Hlo. apply Z.leb_le in Hhi. lia.
Qed.

(** X13 — the list handlers never pass an unusable page to the
    repository.  Whatever the URL parameters are (absent, not numbers,
    zero, negative, too large), the query built by
    [GetProductsWithFilters] has [Page >= 1] and [1 <= PageSize <= 100],
    the query built by [GetProductsWithCursor] has the same page size,
    and both carry at most one sort field; a page size outside 1..100
    is replaced by 20, not clamped. *)
Theorem query_pagination_bounds (params : Params) :
  let q := GetProductsWithFilters_query params in
  let c := GetProductsWithCursor_query params in
  1 ≤ Pagination.Page (ProductQuery.Pagination q)
  ∧ 1 ≤ Pagination.PageSize (ProductQuery.Pagination q) ≤ 100
  ∧ CursorPagination.PageSize (ProductQueryCursor.Pagination c)
    = Pagination.PageSize (ProductQuery.Pagination q)
  ∧ (length (ProductQuery.Sort q) ≤ 1)%nat
  ∧ ProductQueryCursor.Sort c = ProductQuery.Sort q
  ∧ (∀ n, queryParam Atoi params "page_size" = Some n → ¬ (1 ≤ n ≤ 100) →
          Pagination.PageSize (ProductQuery.Pagination q) = 20).
Proof.
  intros q c. subst q c.
  unfold GetProductsWithFilters_query, GetProductsWithCursor_query.
  cbn [ProductQuery.Pagination ProductQuery.Sort Pagination.Page Pagination.PageSize
       ProductQueryCursor.Pagination ProductQueryCursor.Sort CursorPagination.PageSize].
  refine (conj _ (conj (parsePageSize_bounds params) (conj eq_refl (conj _ (conj eq_refl _))))).
  - destruct (queryParam Atoi params "page") as [n|]; [|lia].
    destruct (0 <? n) eqn:Hlo; [apply Z.ltb_lt in Hlo|]; lia.
  - unfold parseSort. destruct (String.eqb _ ""); simpl; lia.
  - intros n Hn Hout. unfold parsePageSize. rewrite Hn.
    destruct (0 <? n) eqn:Hlo; cbn [andb]; [|reflexivity].
    destruct (n <=? 100) eqn:Hhi; [|reflexivity].
    apply Z.ltb_lt in Hlo. apply Z.leb_le in Hhi. lia.
Qed.
End QueryBounds.

Section StoredStock.
Context `{UUIDLib} `{StringValidation}.

Lemma ValidateStock_range (stock : Z) :
  validation.ValidateStock stock = None ↔ 0 ≤ stock ≤ 999999.
Proof.
  unfold validation.ValidateStock, validation.MinStock, validation.MaxStock.
  destruct (Z.ltb_spec stock 0); [split; [discriminate|lia]|].
  rewrite Z.gtb_ltb.
  destruct (Z.ltb_spec 999999 stock); [split; [discriminate|lia]|].
  split; [lia|reflexivity].
Qed.

Lemma validateUpdate_checks_stock (req req' : UpdateProductRequest.t) (stock : Z) :
  ProductHandler.validateUpdate req = inr req' →
  UpdateProductRequest.Stock req = Some stock →
  validation.ValidateStock stock = None.
Proof.
  unfold ProductHandler.validateUpdate. intros Hval Hs. rewrite Hs in Hval.
  cbn [mbind option_bind] in Hval.
  destruct (validation.ValidateStock stock); [|reflexivity].
  repeat match type of Hval with
         | context [match ?x ≫= ?f with _ => _ end] => destruct (x ≫= f)
         | context [if ?b then _ else _] => destruct b
         end; discriminate.
Qed.

(** X14 — a stock written through [PUT /products/:id] is in range.
    Whenever the handler answers 200, the row it wrote holds a stock
    between 0 and 999999, whatever the row held before: a stock sent in
    the body has passed [ValidateStock], and a body without one writes
    0. *)
Theorem handler_Update_stock_in_range (idStr : string) (req : UpdateProductRequest.t)
    (userID : UUID) (w : World) :
  status (ProductHandler.Update idStr (Ok req) userID w) = http.StatusOK →
  ∃ id existing row,
    ProductHandler.validateUUID idStr = Ok id
    ∧ products w !! id = Some existing
    ∧ products (snd (ProductHandler.Update idStr (Ok req) userID w)) !! Product.ID existing
      = Some row
    ∧ 0 ≤ Product.Stock row ≤ 999999
    ∧ Product.Stock row = default 0 (UpdateProductRequest.Stock req).
Proof.
  unfold status, ProductHandler.Update. unfold_monad.
  destruct (ProductHandler.validateUUID idStr) as [id|e]; [|discriminate].
  destruct (ProductHandler.validateUpdate req) as [resp|req'] eqn:Hval.
  { pose proof (validateUpdate_rejects_with_400 req resp Hval) as H400.
    cbn [fst]. rewrite H400. discriminate. }
  destruct (validateUpdate_keeps_numbers req req' Hval) as [_ Hstock].
  pose proof (Update_success (ProductHandler.productOfRequest id req') userID w) as Hupd.
  destruct (ProductService.Update (ProductHandler.productOfRequest id req') userID w)
    as [[err|] w'] eqn:Hrun; [discriminate|].
  intros _. destruct (Hupd eq_refl) as (existing & Hex & _ & Hrow).
  cbn [snd] in Hrow |- *. cbn [ProductHandler.productOfRequest Product.ID] in Hex.
  exists id, existing, (merged existing (ProductHandler.productOfRequest id req') (clock w)).
  refine (conj eq_refl (conj Hex (conj _ _))).
  { rewrite Hrow. apply lookup_insert_eq. }
  unfold merged, ProductHandler.productOfRequest.
  cbn [Product.Stock]. rewrite Hstock.
  destruct (UpdateProductRequest.Stock req) as [stock|] eqn:Hs; cbn [default].
  - pose proof (proj1 (ValidateStock_range stock)
                  (validateUpdate_checks_stock req req' stock Hval Hs)) as Hr.
    unfold Datatypes.id.
    replace (0 <=? stock) with true by (symmetry; apply Z.leb_le; lia).
    exact (conj Hr eq_refl).
  - cbn. refine (conj _ eq_refl). lia.
Qed.
End StoredStock.

Section StoredStockRun.
#[local] Existing Instances fx.uuidlib fx.validators.

Lemma handler_Update_stock_in_range_witness :
  let w := fx.world fx.productA (5 * time.Second) in
  let req := UpdateProductRequest.mk None None None (Some 12) in
  ∃ id existing row,
    ProductHandler.validateUUID fx.uuidP = Ok id
    ∧ products w !! id = Some existing
    ∧ products (snd (ProductHandler.Update fx.uuidP (Ok req) 1%N w)) !! Product.ID existing
      = Some row
    ∧ 0 ≤ Product.Stock row ≤ 999999
    ∧ Product.Stock row = default 0 (UpdateProductRequest.Stock req).
Proof.
  apply (handler_Update_stock_in_range fx.uuidP
           (UpdateProductRequest.mk None None None (Some 12)) 1%N
           (fx.world fx.productA (5 * time.Second))).
  vm_compute. reflexivity.
Defined.
End StoredStockRun.

(** ** Rows of other users *)

Section Isolation.
Context `{UUIDLib}.

(** X15 — a write never changes another user's row.  In a table whose
    rows are stored under their own id, [ProductService.Update] and
    [ProductService.Delete] called for [userID] leave every row owned
    by somebody else exactly as it was, whether the call succeeds or
    fails and whatever the state of Redis and of the database
    connection. *)
Theorem writes_keep_other_users_rows (product : Product.t) (id userID : UUID) (w : World) :
  (∀ k p, products w !! k = Some p → Product.ID p = k) →
  ∀ k p, products w !! k = Some p → Product.UserID p ≠ userID →
    products (snd (ProductService.Update product userID w)) !! k = Some p
    ∧ products (snd (ProductService.Delete id userID w)) !! k = Some p.
Proof.
  intros Hwf k p Hk Hother. refine (conj _ _).
  - unfold ProductService.Update. unfold_monad.
    rewrite ProductRepository_GetByID_run.
    destruct (faultydb w); [exact Hk|].
    destruct (products w !! Product.ID product) as [e|] eqn:He; [|exact Hk].
    unfold uuid_eqb. destruct (N.eqb_spec (Product.UserID e) userID) as [Ho|Ho];
      cbn [negb]; [|exact Hk].
    rewrite ProductRepository_Update_run.
    destruct (faultydb (dbtick w)); [exact Hk|].
    match goal with |- context [ProductService.invalidateUserCache userID ?x] =>
      pose proof (invalidateUserCache_same_db userID x) as (Hp & _);
      destruct (ProductService.invalidateUserCache userID x) as [u w'] end.
    cbn [snd] in *. rewrite Hp. cbn [products with_products Product.ID].
    rewrite lookup_insert_ne; [exact Hk|].
    intros Heq. rewrite (Hwf _ _ He) in Heq. subst k.
    rewrite He in Hk. injection Hk as ->. exact (Hother Ho).
  - unfold ProductService.Delete. unfold_monad.
    rewrite ProductRepository_GetByID_run.
    destruct (faultydb w); [exact Hk|].
    destruct (products w !! id) as [e|] eqn:He; [|exact Hk].
    unfold uuid_eqb. destruct (N.eqb_spec (Product.UserID e) userID) as [Ho|Ho];
      cbn [negb]; [|exact Hk].
    rewrite ProductRepository_Delete_run.
    destruct (faultydb (dbtick w)); [exact Hk|].
    match goal with |- context [ProductService.invalidateUserCache userID ?x] =>
      pose proof (invalidateUserCache_same_db userID x) as (Hp & _);
      destruct (ProductService.invalidateUserCache userID x) as [u w'] end.
    cbn [snd] in *. rewrite Hp. cbn [products with_products].
    rewrite lookup_delete_ne; [exact Hk|].
    intros ->. rewrite He in Hk. injection Hk as ->. exact (Hother Ho).
Qed.
End Isolation.

Section IsolationRun.
#[local] Existing Instances fx.uuidlib.

(** User A renames and deletes product 3; user B's product 4 stays. *)
Lemma writes_keep_other_users_rows_witness :
  let vase := Product.mk 4%N "Vase" "" 5%float 1 2%N 0 0 in
  let w := with_products (<[3%N := fx.productA]> {[ 4%N := vase ]})
             (fx.world fx.productA 0) in
  let change := Product.mk 3%N "Lantern" "" 0%float (-1) 0%N 0 0 in
  fst (ProductService.Update change 1%N w) = None
  ∧ products (snd (ProductService.Update change 1%N w)) !! 4%N = Some vase
  ∧ products (snd (ProductService.Delete 3%N 1%N w)) !! 4%N = Some vase.
Proof.
  split; [vm_compute; reflexivity|].
  apply (writes_keep_other_users_rows
           (Product.mk 3%N "Lantern" "" 0%float (-1) 0%N 0 0) 3%N 1%N
           (with_products (<[3%N := fx.productA]>
                             {[ 4%N := Product.mk 4%N "Vase" "" 5%float 1 2%N 0 0 ]})
              (fx.world fx.productA 0))).
  - intros k p Hk. cbn [products with_products] in Hk.
    apply lookup_insert_Some in Hk as [[<- <-]|[_ Hk]]; [reflexivity|].
    apply lookup_singleton_Some in Hk as [<- <-]. reflexivity.
  - vm_compute. reflexivity.
  - vm_compute. discriminate.
Defined.
End IsolationRun.
